(** * cal2: the multi-modal analysis pipeline of [src/index.js]

    A shallow embedding of the decision logic of the WhatsApp nutrition
    bot: the lenient numeric coercion [num], the calorie resolver
    [extractCaloriesFromAnalysis], the reply composer
    [buildReplyForAnalysis], the normalisation of extracted food items,
    the caption/vision merge of [/analyze-image-with-text], the media
    fetcher [fetchMetaMediaBytes], the classifiers and the audio
    preprocessor.

    Conventions of the embedding.
    - A JavaScript number is a [number]: an exact rational, or one of
      [NaN], [+Infinity], [-Infinity].  Binary64 rounding, overflow of
      finite arithmetic and the sign of zero are outside the model.
    - A JavaScript string is a [string], the bytes of its UTF-8 form.
      Case mapping and white space are those of ASCII; characters
      outside ASCII are carried along unchanged.
    - A JavaScript value coming out of [JSON.parse] is a [value]; an
      object is its list of own properties in insertion order.
    - Code that can throw returns a [result].
    - An object parsed from JSON holds data only, so an own [toString]
      property of it is not a function: converting such an object to a
      string or to a number (in a template, by [String], [Number],
      [join] or [+]) throws a [TypeError].  [to_string], [to_number]
      and [join_elements] are the conversions with that throw;
      [ToString] and [ToNumber] are their values where they return. *)

From Stdlib Require Import ZArith QArith Qround List String Ascii Bool Lia.
From Stdlib Require Import DecimalString.
Import ListNotations.

Local Open Scope Z_scope.
Local Open Scope string_scope.
Local Open Scope list_scope.


(** ** Characters and strings *)

Module Str.

Definition code (c : ascii) : nat := nat_of_ascii c.

Definition between (lo hi : nat) (c : ascii) : bool :=
  (Nat.leb lo (code c)) && (Nat.leb (code c) hi).

(** [\d] *)
Definition is_digit (c : ascii) : bool := between 48 57 c.

(** [a-z] *)
Definition is_lower (c : ascii) : bool := between 97 122 c.

(** [\s] and the white space removed by [trim], within ASCII:
    TAB, LF, VT, FF, CR and SP. *)
Definition is_space (c : ascii) : bool :=
  between 9 13 c || Nat.eqb (code c) 32.

(** [String.prototype.toLowerCase] on one ASCII character. *)
Definition lower_char (c : ascii) : ascii :=
  if between 65 90 c then ascii_of_nat (code c + 32) else c.

(** The double quote. *)
Definition dquote : ascii := ascii_of_nat 34.

Definition chars (s : string) : list ascii := list_ascii_of_string s.
Definition str (l : list ascii) : string := string_of_list_ascii l.

Definition toLowerCase (s : string) : string := str (map lower_char (chars s)).

Fixpoint dropWhile (p : ascii -> bool) (l : list ascii) : list ascii :=
  match l with
  | [] => []
  | c :: r => if p c then dropWhile p r else l
  end.

Fixpoint takeWhile (p : ascii -> bool) (l : list ascii) : list ascii :=
  match l with
  | [] => []
  | c :: r => if p c then c :: takeWhile p r else []
  end.

Definition trim_chars (l : list ascii) : list ascii :=
  rev (dropWhile is_space (rev (dropWhile is_space l))).

Definition trim (s : string) : string := str (trim_chars (chars s)).

Fixpoint starts_with (p l : list ascii) : bool :=
  match p, l with
  | [], _ => true
  | _ :: _, [] => false
  | a :: p', b :: l' => Ascii.eqb a b && starts_with p' l'
  end.

(** [hay.includes(needle)] *)
Fixpoint includes_chars (hay needle : list ascii) : bool :=
  starts_with needle hay ||
  match hay with
  | [] => false
  | _ :: r => includes_chars r needle
  end.

Definition includes (hay needle : string) : bool :=
  includes_chars (chars hay) (chars needle).

Definition is_empty (s : string) : bool :=
  match s with EmptyString => true | _ => false end.

Fixpoint join (sep : string) (l : list string) : string :=
  match l with
  | [] => ""
  | [x] => x
  | x :: r => (x ++ sep ++ join sep r)%string
  end.

(** [s.split(/\s+/)]: the pieces between maximal runs of white space;
    a leading or trailing run leaves an empty piece at that end. *)
Fixpoint split_ws_aux (in_gap : bool) (cur : list ascii) (l : list ascii)
  : list (list ascii) :=
  match l with
  | [] => [rev cur]
  | c :: r =>
      if is_space c
      then (if in_gap then split_ws_aux true [] r
            else rev cur :: split_ws_aux true [] r)
      else split_ws_aux false (c :: cur) r
  end.

Definition split_ws (s : string) : list string :=
  map str (split_ws_aux false [] (chars s)).

(** [Array.prototype.includes] on strings. *)
Definition mem (x : string) (l : list string) : bool :=
  existsb (String.eqb x) l.

End Str.

(** ** Numbers *)

Module Num.

Inductive number : Type :=
| Fin (q : Q)
| NaN
| PInf
| NInf.

(** Finite results are kept in lowest terms, so that equal numbers
    are equal terms. *)
Definition fin (q : Q) : number := Fin (Qred q).
Definition of_Z (z : Z) : number := Fin (inject_Z z).
Definition zero : number := of_Z 0.

Definition Qlt_bool (x y : Q) : bool := negb (Qle_bool y x).

(** [Number.isFinite] *)
Definition isFinite (n : number) : bool :=
  match n with Fin _ => true | _ => false end.

Definition isNaN (n : number) : bool :=
  match n with NaN => true | _ => false end.

(** [ToBoolean] of a number: false for 0 and [NaN]. *)
Definition truthy (n : number) : bool :=
  match n with
  | Fin q => negb (Qeq_bool q 0)
  | NaN => false
  | PInf | NInf => true
  end.

(** [a + b] *)
Definition add (a b : number) : number :=
  match a, b with
  | NaN, _ | _, NaN => NaN
  | PInf, NInf | NInf, PInf => NaN
  | PInf, _ | _, PInf => PInf
  | NInf, _ | _, NInf => NInf
  | Fin x, Fin y => fin (x + y)
  end.

(** [a > b] *)
Definition gt (a b : number) : bool :=
  match a, b with
  | NaN, _ | _, NaN => false
  | NInf, _ => false
  | _, PInf => false
  | PInf, _ => true
  | Fin _, NInf => true
  | Fin x, Fin y => Qlt_bool y x
  end.

(** [a >= b] *)
Definition ge (a b : number) : bool :=
  match a, b with
  | NaN, _ | _, NaN => false
  | PInf, _ => true
  | _, NInf => true
  | NInf, _ => false
  | Fin _, PInf => false
  | Fin x, Fin y => Qle_bool y x
  end.

(** [Math.max(a, b)] and [Math.min(a, b)] *)
Definition max2 (a b : number) : number :=
  match a, b with
  | NaN, _ | _, NaN => NaN
  | _, _ => if gt b a then b else a
  end.

Definition min2 (a b : number) : number :=
  match a, b with
  | NaN, _ | _, NaN => NaN
  | _, _ => if gt a b then b else a
  end.

(** [Math.max(...l)]; [-Infinity] on the empty list. *)
Definition Math_max (l : list number) : number := fold_left max2 l NInf.

(** [Math.round]: the nearest integer, halves towards [+Infinity]. *)
Definition Math_round (n : number) : number :=
  match n with
  | Fin q => of_Z (Qfloor (q + (1 # 2)))
  | _ => n
  end.

(** [x || 0] on a number. *)
Definition or_zero (n : number) : number := if truthy n then n else zero.

(** A finite number that is a whole number, at least 0. *)
Definition is_nat_valued (n : number) : Prop :=
  exists z : Z, 0 <= z /\ n = of_Z z.


(** A number in lowest terms: adding 0 gives it back. *)
Definition normal (n : number) : Prop := add n zero = n.

(** [0 <= n <= 1] for a finite [n]. *)
Definition in_unit_interval (n : number) : Prop :=
  exists q : Q, n = Fin q /\ (0 <= q)%Q /\ (q <= 1)%Q.

End Num.
Export Num.

(** ** [StringToNumber] *)

Module NumParse.
Import Str.

Definition digit_val (c : ascii) : Z := Z.of_nat (code c) - 48.

Definition digits_val (ds : list ascii) : Z :=
  fold_left (fun acc c => 10 * acc + digit_val c) ds 0.

(** [m * 10^e] *)
Definition scale10 (m e : Z) : Q :=
  if (0 <=? e)%Z then inject_Z (m * 10 ^ e)
  else Qmake m (Z.to_pos (10 ^ (- e))).

Definition is_e (c : ascii) : bool :=
  Ascii.eqb c "e" || Ascii.eqb c "E".

(** ExponentPart, which must reach the end of the literal. *)
Definition parse_exp (l : list ascii) : option Z :=
  match l with
  | [] => Some 0
  | c :: r =>
      if is_e c then
        let '(sgn, r') :=
          match r with
          | "+"%char :: t => (1, t)
          | "-"%char :: t => (-1, t)
          | _ => (1, r)
          end in
        match takeWhile is_digit r', dropWhile is_digit r' with
        | (_ :: _) as ds, [] => Some (sgn * digits_val ds)
        | _, _ => None
        end
      else None
  end.

(** StrUnsignedDecimalLiteral without [Infinity]:
    digits, optional fraction, optional exponent; at least one digit
    before the exponent. *)
Definition parse_decimal (l : list ascii) : option Q :=
  let ip := takeWhile is_digit l in
  let r1 := dropWhile is_digit l in
  let '(fp, r2) :=
    match r1 with
    | "."%char :: r => (takeWhile is_digit r, dropWhile is_digit r)
    | _ => ([], r1)
    end in
  match ip ++ fp with
  | [] => None
  | m =>
      match parse_exp r2 with
      | Some e => Some (scale10 (digits_val m) (e - Z.of_nat (List.length fp)))
      | None => None
      end
  end.

Definition radix_digit (radix : Z) (c : ascii) : option Z :=
  let n := code c in
  let v :=
    if between 48 57 c then Some (Z.of_nat n - 48)
    else if between 97 102 c then Some (Z.of_nat n - 87)
    else if between 65 70 c then Some (Z.of_nat n - 55)
    else None in
  match v with
  | Some d => if (d <? radix)%Z then Some d else None
  | None => None
  end.

Fixpoint radix_val (radix : Z) (acc : Z) (l : list ascii) : option Z :=
  match l with
  | [] => Some acc
  | c :: r =>
      match radix_digit radix c with
      | Some d => radix_val radix (radix * acc + d) r
      | None => None
      end
  end.

(** [0x..], [0o..], [0b..] literals. *)
Definition parse_radix (l : list ascii) : option (option Z) :=
  match l with
  | "0"%char :: p :: ds =>
      let radix :=
        if Ascii.eqb p "x" || Ascii.eqb p "X" then Some 16
        else if Ascii.eqb p "o" || Ascii.eqb p "O" then Some 8
        else if Ascii.eqb p "b" || Ascii.eqb p "B" then Some 2
        else None in
      match radix, ds with
      | Some rx, _ :: _ => Some (radix_val rx 0 ds)
      | Some _, [] => Some None
      | None, _ => None
      end
  | _ => None
  end.

(** [Number(s)] for a string [s]. *)
Definition Number_of_chars (s : list ascii) : number :=
  match trim_chars s with
  | [] => zero
  | t =>
      match parse_radix t with
      | Some (Some z) => of_Z z
      | Some None => NaN
      | None =>
          let '(neg, body) :=
            match t with
            | "+"%char :: b => (false, b)
            | "-"%char :: b => (true, b)
            | _ => (false, t)
            end in
          if String.eqb (str body) "Infinity"
          then (if neg then NInf else PInf)
          else
            match parse_decimal body with
            | Some q => fin (if neg then - q else q)
            | None => NaN
            end
      end
  end.

Definition Number_of_string (s : string) : number := Number_of_chars (chars s).

End NumParse.
Export NumParse.


(** ** Values, property access and exceptions *)

Module Val.
Import Str.

#[warnings="-register-all"]
Inductive value : Type :=
| VUndefined
| VNull
| VBool (b : bool)
| VNum (n : number)
| VStr (s : string)
| VArr (xs : list value)
| VObj (props : list (string * value)).

Inductive error : Type :=
| TypeError
| Error (message : string).

Inductive result (A : Type) : Type :=
| Ok (a : A)
| Throw (e : error).

Arguments Ok {A} a.
Arguments Throw {A} e.

Definition bind {A B : Type} (r : result A) (k : A -> result B) : result B :=
  match r with
  | Ok a => k a
  | Throw e => Throw e
  end.

(** [for (const x of l) acc = f(acc, x)], stopping at the first throw. *)
Fixpoint foldM {A B : Type} (f : B -> A -> result B) (l : list A) (acc : B)
  : result B :=
  match l with
  | [] => Ok acc
  | x :: r => bind (f acc x) (foldM f r)
  end.

Fixpoint mapM {A B : Type} (f : A -> result B) (l : list A) : result (list B) :=
  match l with
  | [] => Ok []
  | x :: r => bind (f x) (fun y => bind (mapM f r) (fun ys => Ok (y :: ys)))
  end.

Definition returns {A : Type} (r : result A) : Prop := exists a, r = Ok a.

(** The own property [k] of an object; keys are unique. *)
Fixpoint lookup (k : string) (ps : list (string * value)) : value :=
  match ps with
  | [] => VUndefined
  | (k', v) :: r => if String.eqb k k' then v else lookup k r
  end.

Definition str_length (s : string) : Z := Z.of_nat (String.length s).

(** [v[k]] for a [v] that is neither [null] nor [undefined].  The
    program reads only named properties and [length]; indices of
    arrays and strings are never read through this path. *)
Definition prop (v : value) (k : string) : value :=
  match v with
  | VObj ps => lookup k ps
  | VArr xs =>
      if String.eqb k "length" then VNum (of_Z (Z.of_nat (List.length xs)))
      else VUndefined
  | VStr s =>
      if String.eqb k "length" then VNum (of_Z (str_length s)) else VUndefined
  | _ => VUndefined
  end.

(** [v == null] *)
Definition nullish (v : value) : bool :=
  match v with VUndefined | VNull => true | _ => false end.

(** [v.k]: a [TypeError] on [null] and [undefined]. *)
Definition get (v : value) (k : string) : result value :=
  if nullish v then Throw TypeError else Ok (prop v k).

(** [v?.k] *)
Definition opt_get (v : value) (k : string) : value :=
  if nullish v then VUndefined else prop v k.

(** [a ?? b] *)
Definition coalesce (a b : value) : value := if nullish a then b else a.

(** [ToBoolean] *)
Definition truthy (v : value) : bool :=
  match v with
  | VUndefined | VNull => false
  | VBool b => b
  | VNum n => Num.truthy n
  | VStr s => negb (is_empty s)
  | VArr _ | VObj _ => true
  end.

(** [a || b] *)
Definition or_else (a b : value) : value := if truthy a then a else b.

(** [typeof v === "object"] *)
Definition typeof_object (v : value) : bool :=
  match v with VNull | VArr _ | VObj _ => true | _ => false end.

Definition isArray (v : value) : bool :=
  match v with VArr _ => true | _ => false end.

(** [Object.hasOwn(o, k)] on the properties of an object. *)
Definition has_own (k : string) (ps : list (string * value)) : bool :=
  existsb (fun kv => String.eqb (fst kv) k) ps.

(** The values whose conversion to a primitive throws: an object with
    an own [toString] (the inherited [valueOf] gives the object back
    and an own one is data as well), and an array whose [join] meets
    such a value at an element that is not [null]. *)
Fixpoint unprintable (v : value) : bool :=
  match v with
  | VObj ps => has_own "toString" ps
  | VArr xs => existsb (fun x => negb (nullish x) && unprintable x) xs
  | _ => false
  end.

Definition string_of_Z (z : Z) : string := NilZero.string_of_int (Z.to_int z).

Definition hex_digit (n : nat) : ascii :=
  if Nat.ltb n 10 then ascii_of_nat (48 + n) else ascii_of_nat (87 + n).

(** One code unit inside a JSON string literal. *)
Definition json_escape (c : ascii) : list ascii :=
  let n := code c in
  if Nat.eqb n 34 then ["\"%char; dquote]
  else if Nat.eqb n 92 then ["\"%char; "\"%char]
  else if Nat.eqb n 8 then ["\"%char; "b"%char]
  else if Nat.eqb n 9 then ["\"%char; "t"%char]
  else if Nat.eqb n 10 then ["\"%char; "n"%char]
  else if Nat.eqb n 12 then ["\"%char; "f"%char]
  else if Nat.eqb n 13 then ["\"%char; "r"%char]
  else if Nat.ltb n 32 then
    ["\"%char; "u"%char; "0"%char; "0"%char;
     hex_digit (Nat.div n 16); hex_digit (Nat.modulo n 16)]
  else [c].

Definition json_quote (s : string) : string :=
  str ((dquote :: flat_map json_escape (chars s)) ++ [dquote]).

Section Printing.

(** [Number::toString] of a finite number that is not a whole number
    of magnitude below 10^21: the shortest decimal that reads back as
    the same binary64 value.  It depends on the binary64
    representation, which the model leaves out. *)
Variable Number_toDecimal : Q -> string.

(** [String(n)] *)
Definition Number_toString (n : number) : string :=
  match n with
  | NaN => "NaN"
  | PInf => "Infinity"
  | NInf => "-Infinity"
  | Fin q =>
      let r := Qred q in
      if Pos.eqb (Qden r) 1 && (Z.abs (Qnum r) <? 10 ^ 21)%Z
      then string_of_Z (Qnum r)
      else Number_toDecimal r
  end.

(** [String(v)]; on an array, [join(",")]. *)
Fixpoint ToString (v : value) : string :=
  match v with
  | VUndefined => "undefined"
  | VNull => "null"
  | VBool true => "true"
  | VBool false => "false"
  | VNum n => Number_toString n
  | VStr s => s
  | VArr xs =>
      join "," (map (fun x => if nullish x then "" else ToString x) xs)
  | VObj _ => "[object Object]"
  end.

(** [Number(v)] *)
Definition ToNumber (v : value) : number :=
  match v with
  | VUndefined => NaN
  | VNull => zero
  | VBool true => of_Z 1
  | VBool false => zero
  | VNum n => n
  | VStr s => Number_of_string s
  | VArr _ | VObj _ => Number_of_string (ToString v)
  end.

(** [arr.join(sep)] *)
Definition Array_join (xs : list value) (sep : string) : string :=
  join sep (map (fun x => if nullish x then "" else ToString x) xs).

(** [String(v)] and the conversion of [v] in a template, with the
    throw. *)
Definition to_string (v : value) : result string :=
  if unprintable v then Throw TypeError else Ok (ToString v).

(** [Number(v)], with the throw. *)
Definition to_number (v : value) : result number :=
  if unprintable v then Throw TypeError else Ok (ToNumber v).

(** [arr.join(sep)], with the throw. *)
Definition join_elements (xs : list value) (sep : string) : result string :=
  if unprintable (VArr xs) then Throw TypeError else Ok (Array_join xs sep).

(** The text [JSON.stringify] produces for a value, [None] where it
    produces [undefined]. *)
Fixpoint JSON_stringify (v : value) : option string :=
  match v with
  | VUndefined => None
  | VNull => Some "null"
  | VBool true => Some "true"
  | VBool false => Some "false"
  | VNum n => Some (if isFinite n then Number_toString n else "null")
  | VStr s => Some (json_quote s)
  | VArr xs =>
      Some ("[" ++
            join "," (map (fun x => match JSON_stringify x with
                                    | Some s => s
                                    | None => "null"
                                    end) xs)
            ++ "]")%string
  | VObj ps =>
      Some ("{" ++
            join "," (flat_map
                        (fun kv => match JSON_stringify (snd kv) with
                                   | Some s =>
                                       [(json_quote (fst kv) ++ ":" ++ s)%string]
                                   | None => []
                                   end) ps)
            ++ "}")%string
  end.

End Printing.

End Val.
Export Val.

Notation "x <- c1 ;; c2" := (Val.bind c1 (fun x => c2))
  (at level 61, c1 at next level, right associativity).

(** ** CalorieResolver: [num] and [extractCaloriesFromAnalysis] *)

Module CalorieResolver.
Import Str.

(** The characters kept by [x.replace(/[^0-9eE+.\-]/g, "")]. *)
Definition is_numeric_char (c : ascii) : bool :=
  is_digit c || Ascii.eqb c "e" || Ascii.eqb c "E" || Ascii.eqb c "+"
  || Ascii.eqb c "." || Ascii.eqb c "-".

Definition strip_non_numeric (s : string) : string :=
  str (filter is_numeric_char (chars s)).

(** [function num(x, def = 0)].  Every call site passes the number 0
    as [def]; the default is typed as a number. *)
Definition num (x : value) (def : number) : number :=
  match x with
  | VNum n => if isFinite n then n else def
  | VStr s =>
      let n := Number_of_string (strip_non_numeric s) in
      if isFinite n then n else def
  | _ => def
  end.

(** [s.replace(/\\s+/g, " ")]: the pattern is a backslash followed by
    one or more letters [s]. *)
Fixpoint replace_backslash_s_from (skipping : bool) (l : list ascii)
  : list ascii :=
  match l with
  | [] => []
  | c :: r =>
      if skipping && Ascii.eqb c "s" then replace_backslash_s_from true r
      else if Ascii.eqb c "\"
              && match r with "s"%char :: _ => true | _ => false end
      then " "%char :: replace_backslash_s_from true r
      else c :: replace_backslash_s_from false r
  end.

Definition replace_backslash_s (s : string) : string :=
  str (replace_backslash_s_from false (chars s)).

(** The first match of [/(\d{2,5}(?:[.,]\d+)?)/]: the leftmost place
    where two digits stand together, then up to five digits, then a
    dot or comma with the digits after it when there is at least
    one. *)
Fixpoint take_digits (n : nat) (l : list ascii) : list ascii * list ascii :=
  match n, l with
  | S n', c :: r =>
      if is_digit c
      then let '(ds, rest) := take_digits n' r in (c :: ds, rest)
      else ([], l)
  | _, _ => ([], l)
  end.

Definition token_at (l : list ascii) : list ascii :=
  let '(ds, rest) := take_digits 5 l in
  match rest with
  | sep :: (d :: _) as frac =>
      if (Ascii.eqb sep "." || Ascii.eqb sep ",") && is_digit d
      then ds ++ sep :: takeWhile is_digit frac
      else ds
  | _ => ds
  end.

Fixpoint first_numeric_token (l : list ascii) : option (list ascii) :=
  match l with
  | [] => None
  | c :: r =>
      if is_digit c && match r with d :: _ => is_digit d | [] => false end
      then Some (token_at l)
      else first_numeric_token r
  end.

(** [m.replace(",", ".")]: the first comma only. *)
Fixpoint replace_first_comma (l : list ascii) : list ascii :=
  match l with
  | [] => []
  | c :: r => if Ascii.eqb c "," then "."%char :: r
              else c :: replace_first_comma r
  end.

Section Resolver.

Variable Number_toDecimal : Q -> string.

(** [if (o.k != null) seenNumbers.push(num(o.k, 0))] *)
Definition push_if_present (o : value) (k : string) (seen : list number)
  : result (list number) :=
  v <- get o k ;;
  Ok (if nullish v then seen else seen ++ [num v zero]).

(** The [for (const k of keys)] loop of [trySumDetails]: the first
    key whose value is present and coerces to a non-zero number. *)
Fixpoint first_key (it : value) (keys : list string) : result (option number) :=
  match keys with
  | [] => Ok None
  | k :: r =>
      x <- get it k ;;
      if nullish x then first_key it r
      else
        let v := num x zero in
        if Num.truthy v then Ok (Some v) else first_key it r
  end.

(** The reducer of [trySumDetails]. *)
Definition sum_step (s : number) (it : value) : result number :=
  if negb (truthy it) || negb (typeof_object it) then Ok s
  else
    r <- first_key it ["calories_burned"; "calories"] ;;
    match r with
    | Some v => Ok (add s v)
    | None =>
        ct <- get it "calories_text" ;;
        if truthy ct then
          let v := num ct zero in
          if Num.truthy v then Ok (add s v) else Ok s
        else Ok s
    end.

Definition trySumDetails (arr : value) : result number :=
  match arr with
  | VArr xs => foldM sum_step xs zero
  | _ => Ok zero
  end.

(** [if (sum > 0) seenNumbers.push(sum)] *)
Definition push_if_positive (sum : number) (seen : list number) : list number :=
  if gt sum zero then seen ++ [sum] else seen.

(** The candidates collected before the choice: steps 1 to 3. *)
Definition collect (analysis : value) : result (list number) :=
  let seen := [] in
  (* 1) top-level totals *)
  totals <- get analysis "totals" ;;
  seen <- (if truthy totals then
             seen <- push_if_present totals "calories_burned" seen ;;
             push_if_present totals "calories" seen
           else Ok seen) ;;
  (* 2) nested shapes *)
  workout <- get analysis "workout" ;;
  wtotals <- (if truthy workout then get workout "totals" else Ok workout) ;;
  seen <- (if truthy wtotals then
             seen <- push_if_present wtotals "calories_burned" seen ;;
             push_if_present wtotals "calories" seen
           else Ok seen) ;;
  food <- get analysis "food" ;;
  ftotals <- (if truthy food then get food "totals" else Ok food) ;;
  seen <- (if truthy ftotals then
             seen <- push_if_present ftotals "calories" seen ;;
             push_if_present ftotals "calories_burned" seen
           else Ok seen) ;;
  (* 3) details arrays *)
  details <- get analysis "details" ;;
  detailsSumTop <- trySumDetails details ;;
  let seen := push_if_positive detailsSumTop seen in
  wdetails <- (if truthy workout then get workout "details" else Ok workout) ;;
  detailsSumWorkout <- trySumDetails wdetails ;;
  let seen := push_if_positive detailsSumWorkout seen in
  fdetails <- (if truthy food then get food "details" else Ok food) ;;
  detailsSumFood <- trySumDetails fdetails ;;
  Ok (push_if_positive detailsSumFood seen).

(** [seenNumbers.map(Number).filter(n => Number.isFinite(n) && n > 0)] *)
Definition positives (seen : list number) : list number :=
  filter (fun n => isFinite n && gt n zero) seen.

(** The [try] block at the end; [None] when it falls through or an
    exception is swallowed by the [catch]. *)
Definition last_resort (analysis : value) : option number :=
  match JSON_stringify Number_toDecimal analysis with
  | None => None
  | Some json =>
      let s := replace_backslash_s json in
      match first_numeric_token (chars s) with
      | Some m =>
          let total := Math_round (Number_of_chars (replace_first_comma m)) in
          if isFinite total && gt total zero then Some total else None
      | None => None
      end
  end.

Definition extractCaloriesFromAnalysis (analysis : value) : result number :=
  if negb (truthy analysis) || negb (typeof_object analysis) then Ok zero
  else
    seenNumbers <- collect analysis ;;
    let fallback :=
      match last_resort analysis with
      | Some total => Ok total
      | None => Ok zero
      end in
    match seenNumbers with
    | _ :: _ =>
        match positives seenNumbers with
        | _ :: _ => Ok (Math_round (Math_max (positives seenNumbers)))
        | [] => fallback
        end
    | [] => fallback
    end.

End Resolver.

Definition all_finite (l : list number) : Prop :=
  Forall (fun n => isFinite n = true) l.

End CalorieResolver.

(** ** ReplyComposer: [buildReplyForAnalysis] *)

Module ReplyComposer.
Import Str.

Definition nl : string := String (ascii_of_nat 10) "".

Definition apology : string := "Sorry, I couldn't understand that.".

Definition reference : string :=
  (nl ++ nl ++ "*Healthy Daily Reference* (average adult):" ++ nl ++
   "Calories: ~2000 kcal" ++ nl ++ "Protein: ~75g" ++ nl ++
   "Fat: ~65g" ++ nl ++ "Carbs: ~250g")%string.

(** [v === "..."] against a string literal. *)
Definition is_string (v : value) (lit : string) : bool :=
  match v with VStr s => String.eqb s lit | _ => false end.

Section Composer.

Variable Number_toDecimal : Q -> string.

Let show (v : value) : result string := to_string Number_toDecimal v.
Let show_num (n : number) : string := Number_toString Number_toDecimal n.
Let Number (v : value) : result number := to_number Number_toDecimal v.

(** The reducer of the workout total:
    [(s, d) => s + (Number(d.calories_burned) || 0)]. *)
Definition burned_step (s : number) (d : value) : result number :=
  cb <- get d "calories_burned" ;;
  n <- Number cb ;;
  Ok (add s (or_zero n)).

(** One bullet line of the workout reply. *)
Definition workout_line (d : value) : result string :=
  let act := or_else (opt_get d "activity") (VStr "Activity") in
  mins <- Number (or_else (opt_get d "duration_min") (VNum zero)) ;;
  burned <- Number (or_else (opt_get d "calories_burned") (VNum zero)) ;;
  let kcal := Math_round burned in
  intensity <-
    (if truthy (opt_get d "intensity")
        && negb (is_string (opt_get d "intensity") "unknown")
     then shown <- show (opt_get d "intensity") ;; Ok (", " ++ shown)%string
     else Ok "") ;;
  conf <-
    (if negb (nullish (opt_get d "confidence"))
     then shown <- show (opt_get d "confidence") ;;
          Ok (" (conf: " ++ shown ++ ")")%string
     else Ok "") ;;
  assumptions <-
    (let a := opt_get d "assumptions" in
     if truthy (opt_get a "length") then
       match a with
       | VArr xs =>
           joined <- join_elements Number_toDecimal xs "; " ;;
           Ok (nl ++ "   assumptions: " ++ joined)%string
       | _ => Throw TypeError
       end
     else Ok "") ;;
  act <- show act ;;
  Ok ("• " ++ act ++ intensity ++ " — " ++ show_num mins
           ++ " min ≈ " ++ show_num kcal ++ " kcal" ++ conf
           ++ assumptions)%string.

Definition workout_reply (details : list value) : result string :=
  total <- foldM burned_step details zero ;;
  lines <- mapM workout_line details ;;
  let header := "Workout:" in
  let summary :=
    ("Total estimated calories: " ++ show_num (Math_round total) ++ ".")%string in
  Ok (header ++ nl ++ join nl lines ++ nl ++ summary)%string.

(** The four running totals of the food branch. *)
Record food_totals : Type := mkTotals {
  totalCalories : number;
  totalProtein : number;
  totalFat : number;
  totalCarbs : number
}.

Definition no_totals : food_totals := mkTotals zero zero zero zero.

(** [Math.round(Number(v || 0))] *)
Definition rounded_field (v : value) : result number :=
  n <- Number (or_else v (VNum zero)) ;;
  Ok (Math_round n).

(** The body of [details.map((i) => ...)]: the totals are updated
    before the line is built. *)
Definition food_step (acc : food_totals * list string) (i : value)
  : result (food_totals * list string) :=
  let '(t, lines) := acc in
  let name := or_else (opt_get i "item") (VStr "Item") in
  qty <- Number (or_else (opt_get i "quantity") (VNum zero)) ;;
  let unit := or_else (opt_get i "unit") (VStr "") in
  kcal <- rounded_field (opt_get i "calories") ;;
  protein <- rounded_field (opt_get (opt_get i "macros") "protein") ;;
  fat <- rounded_field (opt_get (opt_get i "macros") "fat") ;;
  carbs <- rounded_field (opt_get (opt_get i "macros") "carbs") ;;
  let t := mkTotals (add (totalCalories t) kcal) (add (totalProtein t) protein)
                    (add (totalFat t) fat) (add (totalCarbs t) carbs) in
  portion <-
    (if Num.truthy qty && truthy unit
     then shown <- show unit ;;
          Ok (" (" ++ show_num qty ++ " " ++ shown ++ ")")%string
     else if Num.truthy qty then Ok (" (" ++ show_num qty ++ ")")%string
     else Ok "") ;;
  name <- show name ;;
  Ok (t,
      lines ++ [("• " ++ name ++ portion ++ " — " ++ show_num kcal
                   ++ " kcal, P:" ++ show_num protein ++ "g, F:"
                   ++ show_num fat ++ "g, C:" ++ show_num carbs ++ "g")%string]).

Definition food_summary (t : food_totals) : string :=
  ("Totals — Calories: " ++ show_num (totalCalories t)
    ++ ", Protein: " ++ show_num (totalProtein t)
    ++ "g, Fat: " ++ show_num (totalFat t)
    ++ "g, Carbs: " ++ show_num (totalCarbs t) ++ "g")%string.

Definition food_reply (details : list value) : result string :=
  acc <- foldM food_step details (no_totals, []) ;;
  let '(t, lines) := acc in
  let header := "Food:" in
  let summary := food_summary t in
  match lines with
  | _ :: _ =>
      Ok (header ++ nl ++ join nl lines ++ nl ++ summary ++ reference)%string
  | [] => Ok (header ++ nl ++ summary ++ reference)%string
  end.

(** [Array.isArray(analysis.details) ? analysis.details : []] *)
Definition details_of (analysis : value) : list value :=
  match prop analysis "details" with
  | VArr xs => xs
  | _ => []
  end.

Definition buildReplyForAnalysis (analysis : value) : result string :=
  if negb (truthy analysis) || negb (truthy (prop analysis "type"))
  then Ok apology
  else if is_string (prop analysis "type") "workout"
  then workout_reply (details_of analysis)
  else food_reply (details_of analysis).

End Composer.

(** What the replies are to display, written down from the description
    of the composer with the conversions of the language alone, none of
    the composer's own functions: the sum of the detail-level
    [calories_burned], and the sums of the calories and macros of the
    items, each rounded to the nearest whole number before it is
    added.  A value that is not there counts as 0. *)
Section Described.

Variable Number_toDecimal : Q -> string.

Definition sum_calories_burned (details : list value) : number :=
  fold_right
    (fun d rest =>
       add (or_zero (ToNumber Number_toDecimal (prop d "calories_burned"))) rest)
    zero details.

(** The number a field of an item stands for, rounded. *)
Definition nearest_whole (field : value) : number :=
  Math_round (ToNumber Number_toDecimal (if truthy field then field else VNum zero)).

Definition sum_rounded (field : value -> value) (details : list value)
  : number :=
  fold_right (fun i rest => add (nearest_whole (field i)) rest) zero details.

Definition described_food_totals (details : list value) : food_totals :=
  mkTotals
    (sum_rounded (fun i => opt_get i "calories") details)
    (sum_rounded (fun i => opt_get (opt_get i "macros") "protein") details)
    (sum_rounded (fun i => opt_get (opt_get i "macros") "fat") details)
    (sum_rounded (fun i => opt_get (opt_get i "macros") "carbs") details).

(** The assumptions the composer can print: nothing with a [length]
    that is not an array, and no array with an entry that does not
    convert. *)
Definition printable_assumptions (a : value) : bool :=
  match a with
  | VArr _ => negb (unprintable a)
  | _ => negb (truthy (opt_get a "length"))
  end.

(** A workout detail whose line can be built: its fields convert and
    its assumptions can be joined. *)
Definition printable_line (d : value) : bool :=
  negb (unprintable (opt_get d "duration_min"))
  && negb (unprintable (opt_get d "calories_burned"))
  && negb (unprintable (opt_get d "intensity"))
  && negb (unprintable (opt_get d "confidence"))
  && printable_assumptions (opt_get d "assumptions")
  && negb (unprintable (opt_get d "activity")).

(** A workout detail the composer can print: not [null], and with a
    line that can be built. *)
Definition printable_activity (d : value) : bool :=
  negb (nullish d) && printable_line d.

(** A food item the composer can print: its numeric fields and its name
    convert, and so does its unit where the portion shows it. *)
Definition printable_item (i : value) : bool :=
  negb (unprintable (opt_get i "quantity"))
  && negb (unprintable (opt_get i "calories"))
  && negb (unprintable (opt_get (opt_get i "macros") "protein"))
  && negb (unprintable (opt_get (opt_get i "macros") "fat"))
  && negb (unprintable (opt_get (opt_get i "macros") "carbs"))
  && negb (Num.truthy (ToNumber Number_toDecimal
                         (or_else (opt_get i "quantity") (VNum zero)))
           && unprintable (opt_get i "unit"))
  && negb (unprintable (opt_get i "item")).

End Described.

End ReplyComposer.

(** ** Extractor: the normalisation of extracted food items *)

Module Extractor.
Import Str.

Record Macros : Type := mkMacros {
  protein : number;
  fat : number;
  carbs : number
}.

(** A normalised food item.  [assumptions] is [None] on the paths that
    build the item without that field. *)
Record FoodItem : Type := mkFoodItem {
  item : value;
  quantity : number;
  unit : value;
  calories : number;
  macros : Macros;
  brand : value;
  source : value;
  confidence : number;
  assumptions : option (list value)
}.

Definition numeric_fields (it : FoodItem) : list number :=
  [quantity it; calories it; protein (macros it); fat (macros it);
   carbs (macros it)].

Definition empty_string : value := VStr "".

Section Normalise.

Variable Number_toDecimal : Q -> string.

(** [Number(v ?? 0) || 0] *)
Definition number_or_zero (v : value) : number :=
  or_zero (ToNumber Number_toDecimal (coalesce v (VNum zero))).

Definition read_macros (d : value) : Macros :=
  let m := opt_get d "macros" in
  mkMacros (number_or_zero (opt_get m "protein"))
           (number_or_zero (opt_get m "fat"))
           (number_or_zero (opt_get m "carbs")).

(** [Math.max(0, Math.min(1, Number(v ?? 0))) || 0] *)
Definition clamp_confidence (v : value) : number :=
  or_zero
    (max2 zero
          (min2 (of_Z 1) (ToNumber Number_toDecimal (coalesce v (VNum zero))))).

(** The [details.map] of [analyzeContentWithChatGPT]. *)
Definition normalize_text_detail (d : value) : FoodItem :=
  mkFoodItem
    (coalesce (opt_get d "item") empty_string)
    (number_or_zero (opt_get d "quantity"))
    (coalesce (opt_get d "unit") empty_string)
    (number_or_zero (opt_get d "calories"))
    (read_macros d)
    (coalesce (opt_get d "brand") empty_string)
    (coalesce (opt_get d "source") empty_string)
    (clamp_confidence (opt_get d "confidence"))
    None.

(** The [details.map] of [analyzeImageWithChatGPT]. *)
Definition normalize_image_detail (d : value) : FoodItem :=
  mkFoodItem
    (coalesce (opt_get d "item") empty_string)
    (number_or_zero (opt_get d "quantity"))
    (coalesce (opt_get d "unit") empty_string)
    (number_or_zero (opt_get d "calories"))
    (read_macros d)
    (coalesce (opt_get d "brand") empty_string)
    (coalesce (opt_get d "source") empty_string)
    (clamp_confidence (opt_get d "confidence"))
    None.

(** [Array.isArray(a) ? a : (a ? [String(a)] : dflt)] *)
Definition assumptions_or (a : value) (dflt : list value) : list value :=
  match a with
  | VArr xs => xs
  | _ => if truthy a then [VStr (ToString Number_toDecimal a)] else dflt
  end.

(** "Defensive normalize vision details" of [/analyze-image-with-text]. *)
Definition normalize_vision_detail (d : value) : FoodItem :=
  mkFoodItem
    (VStr (ToString Number_toDecimal (coalesce (opt_get d "item") empty_string)))
    (number_or_zero (opt_get d "quantity"))
    (coalesce (opt_get d "unit") empty_string)
    (number_or_zero (opt_get d "calories"))
    (read_macros d)
    (coalesce (opt_get d "brand") empty_string)
    (coalesce (opt_get d "source") (VStr "vision"))
    (clamp_confidence (opt_get d "confidence"))
    (Some (assumptions_or (opt_get d "assumptions") [])).

(** The annotation of caption items in [/analyze-image-with-text]. *)
Definition normalize_caption_detail (d : value) : FoodItem :=
  mkFoodItem
    (coalesce (opt_get d "item") empty_string)
    (number_or_zero (opt_get d "quantity"))
    (coalesce (opt_get d "unit") empty_string)
    (number_or_zero (opt_get d "calories"))
    (read_macros d)
    (coalesce (opt_get d "brand") empty_string)
    (VStr "user_caption")
    (max2 (Fin (9 # 10))
          (ToNumber Number_toDecimal
             (coalesce (opt_get d "confidence") (VNum (Fin (9 # 10))))))
    (Some (assumptions_or (opt_get d "assumptions")
             [VStr "parsed from caption"])).

(** What is to hold of the item built from the raw detail [d]:
    no numeric field is [NaN], the confidence is in [0,1], and the
    numeric fields are the coerced raw fields. *)
Definition well_coerced (d : value) (it : FoodItem) : Prop :=
  Forall (fun n => isNaN n = false) (numeric_fields it) /\
  in_unit_interval (confidence it) /\
  quantity it = number_or_zero (opt_get d "quantity") /\
  calories it = number_or_zero (opt_get d "calories") /\
  macros it = read_macros d.

End Normalise.

End Extractor.

(** ** Reconciler: the merge of [/analyze-image-with-text] *)

Module Reconciler.
Import Str Extractor.

Definition is_name_char (c : ascii) : bool :=
  is_lower c || is_digit c || is_space c.

(** [new Set(...)] membership on numbers: SameValueZero. *)
Definition same_number (a b : number) : bool :=
  match a, b with
  | Fin x, Fin y => Qeq_bool x y
  | NaN, NaN | PInf, PInf | NInf, NInf => true
  | _, _ => false
  end.

(** SameValueZero.  Arrays and objects are compared by identity, and
    no two elements of parsed JSON arrays are the same object.  (The
    merge pushes the caption and vision objects themselves, so the
    assignments below also change the records they came from; nothing
    reads those afterwards when the merged list is not empty.) *)
Definition same_value_zero (a b : value) : bool :=
  match a, b with
  | VUndefined, VUndefined | VNull, VNull => true
  | VBool x, VBool y => Bool.eqb x y
  | VNum x, VNum y => same_number x y
  | VStr x, VStr y => String.eqb x y
  | _, _ => false
  end.

(** [Array.from(new Set(l))]: the first occurrence of each element. *)
Fixpoint dedup_from (earlier : list value) (l : list value) : list value :=
  match l with
  | [] => []
  | x :: r =>
      if existsb (same_value_zero x) earlier then dedup_from earlier r
      else x :: dedup_from (earlier ++ [x]) r
  end.

Definition dedup (l : list value) : list value := dedup_from [] l.

(** [seen.add(n)] on an insertion-ordered set. *)
Definition Set_add (n : string) (seen : list string) : list string :=
  if mem n seen then seen else seen ++ [n].

(** [s.split(/\s+/).filter(Boolean)] *)
Definition tokens (s : string) : list string :=
  filter (fun t => negb (is_empty t)) (split_ws s).

(** The test of the inner [for (const s of Array.from(seen))] loop. *)
Definition conflicts (s vn : string) : bool :=
  includes s vn || includes vn s
  || existsb (fun tok => mem tok (tokens vn)) (tokens s).

Definition has_conflict (seen : list string) (vn : string) : bool :=
  existsb (fun s => conflicts s vn) seen.

(** The test that picks the merged item receiving the assumptions. *)
Definition covers (mName vn : string) : bool :=
  negb (is_empty mName)
  && (includes mName vn || includes vn mName
      || existsb (fun tok => mem tok (split_ws vn)) (split_ws mName)).

Definition or_empty (a : option (list value)) : list value :=
  match a with Some l => l | None => [] end.

Definition set_assumptions (m : FoodItem) (a : list value) : FoodItem :=
  mkFoodItem (item m) (quantity m) (unit m) (calories m) (macros m)
             (brand m) (source m) (confidence m) (Some a).

Section Merge.

Variable Number_toDecimal : Q -> string.

(** [(n || "").toString().toLowerCase().replace(/[^a-z0-9\s]/g, "").trim()] *)
Definition normalizeName (n : value) : string :=
  trim (str (filter is_name_char
               (chars (toLowerCase
                         (ToString Number_toDecimal (or_else n (VStr ""))))))).

Definition vision_conf (v : FoodItem) : value :=
  VStr ("vision_conf:"
          ++ Number_toString Number_toDecimal (or_zero (confidence v)))%string.

(** The two assignments to [merged[i].assumptions]. *)
Definition attach_to (m v : FoodItem) : FoodItem :=
  let m1 :=
    match assumptions v with
    | Some ((_ :: _) as va) =>
        set_assumptions m (dedup (or_empty (assumptions m) ++ va))
    | _ => m
    end in
  set_assumptions m1 (or_empty (assumptions m1) ++ [vision_conf v]).

(** [for (let i = 0; i < merged.length; i++) { if (...) { ...; break; } }] *)
Fixpoint attach (v : FoodItem) (vn : string) (merged : list FoodItem)
  : list FoodItem :=
  match merged with
  | [] => []
  | m :: r =>
      if covers (normalizeName (item m)) vn
      then attach_to m v :: r
      else m :: attach v vn r
  end.

Definition state : Type := (list FoodItem * list string)%type.

(** The body of [for (const c of captionParsed.details)]. *)
Definition caption_step (st : state) (c : FoodItem) : state :=
  let '(merged, seen) := st in
  let n := normalizeName (item c) in
  if is_empty n then st else (merged ++ [c], Set_add n seen).

(** The body of [for (const v of visionParsed.details)]. *)
Definition vision_step (st : state) (v : FoodItem) : state :=
  let '(merged, seen) := st in
  let vn := normalizeName (item v) in
  if is_empty vn then st
  else if has_conflict seen vn then (attach v vn merged, seen)
  else (merged ++ [v], Set_add vn seen).

(** [caption] is the detail list of a food caption, empty when there
    is no caption record. *)
Definition merge_state (caption vision : list FoodItem) : state :=
  fold_left vision_step vision (fold_left caption_step caption ([], [])).

Definition merge (caption vision : list FoodItem) : list FoodItem :=
  fst (merge_state caption vision).

(** The [details] of the response: the vision record is returned
    when nothing was merged. *)
Definition response_details (caption vision : list FoodItem) : list FoodItem :=
  match merge caption vision with
  | [] => vision
  | merged => merged
  end.





End Merge.


End Reconciler.

(** ** MediaFetcher: [fetchMetaMediaBytes] *)

Module MediaFetcher.

Definition bytes : Type := list ascii.

(** What [axios.get] on the download URL gives: a response with any
    status ([validateStatus] accepts all), or a thrown error. *)
Inductive http_result : Type :=
| Response (status : Z) (data : bytes)
| NetworkError (err : error).

(** [metaResp.data]: the [url] and [mime_type] fields. *)
Record media_object : Type := mkMediaObject {
  url : option string;
  mime_type : option string
}.

(** The outside world: the lookup of the media object, and the answer
    to the download issued as attempt number [attempt]. *)
Record network : Type := mkNetwork {
  lookup_media : string -> result media_object;
  download : Z -> string -> bool -> http_result
}.

(** [opts]: [{ maxRetries, retryDelayMs }], each possibly absent. *)
Record options : Type := mkOptions {
  opt_maxRetries : option Z;
  opt_retryDelayMs : option Z
}.

Definition no_options : options := mkOptions None None.

Record media : Type := mkMedia {
  buffer : bytes;
  mimeType : string
}.

(** What the function does to the outside world, in order. *)
Inductive event : Type :=
| Lookup (mediaId : string)
| Download (downloadUrl : string) (useAuth : bool)
| Sleep (delay : Z).

(** The error of an exhausted retry budget. *)
Definition MediaUnavailable : error :=
  Error "Failed to download media after retries.".

Definition is_success (status : Z) : bool :=
  (200 <=? status)%Z && (status <? 300)%Z.

Definition or_default (o : option string) (d : string) : string :=
  match o with
  | Some s => if Str.is_empty s then d else s
  | None => d
  end.

Section Fetch.

Variable net : network.
Variable maxRetries baseDelay : Z.
Variable media_url : string.
Variable declared_type : option string.

(** The [while (attempt <= maxRetries)] loop; [None] when [fuel]
    iterations were not enough to leave it. *)
Fixpoint download_loop (fuel : nat) (attempt : Z) (trace : list event)
  : option (result media * list event) :=
  match fuel with
  | O => None
  | S fuel' =>
      if (attempt <=? maxRetries)%Z then
        let useAuth := (0 <? attempt)%Z in
        let trace := trace ++ [Download media_url useAuth] in
        let retry :=
          let attempt := attempt + 1 in
          let delay := baseDelay * 2 ^ attempt in
          download_loop fuel' attempt (trace ++ [Sleep delay]) in
        match download net attempt media_url useAuth with
        | Response status data =>
            if is_success status
            then Some (Ok (mkMedia data
                             (or_default declared_type
                                "application/octet-stream")),
                       trace)
            else retry
        | NetworkError _ => retry
        end
      else Some (Throw MediaUnavailable, trace)
  end.

End Fetch.

Definition fetchMetaMediaBytes (net : network) (fuel : nat)
           (mediaId : string) (opts : options)
  : option (result media * list event) :=
  let maxRetries :=
    match opt_maxRetries opts with Some n => n | None => 3 end in
  let baseDelay :=
    match opt_retryDelayMs opts with Some n => n | None => 300 end in
  match lookup_media net mediaId with
  | Throw err => Some (Throw err, [Lookup mediaId])
  | Ok metaResp =>
      match url metaResp with
      | None => Some (Throw (Error "Media object returned no 'url' field."),
                      [Lookup mediaId])
      | Some u =>
          if Str.is_empty u
          then Some (Throw (Error "Media object returned no 'url' field."),
                     [Lookup mediaId])
          else download_loop net maxRetries baseDelay u (mime_type metaResp)
                             fuel 0 [Lookup mediaId]
      end
  end.

(** The events of [n] failed attempts in a row, the first of them
    numbered [attempt]. *)
Fixpoint failed_rounds (media_url : string) (delay_after : Z -> Z)
         (attempt : Z) (n : nat) : list event :=
  match n with
  | O => []
  | S n' =>
      Download media_url (0 <? attempt)%Z :: Sleep (delay_after attempt)
        :: failed_rounds media_url delay_after (attempt + 1) n'
  end.

Definition fails (r : http_result) : Prop :=
  match r with
  | Response status _ => is_success status = false
  | NetworkError _ => True
  end.

(** A network on which the media object has the URL [u] and every
    download is refused with status 401. *)
Definition refusing (u : string) : network :=
  mkNetwork (fun _ => Ok (mkMediaObject (Some u) None))
            (fun _ _ _ => Response 401 []).

End MediaFetcher.

(** ** Classifier *)

Module Classifier.
Import Str.

(** What [openai.chat.completions.create] gives: a thrown error, or a
    response whose [choices[0].message.content], when the chain leads
    to one, is a string. *)
Inductive completion : Type :=
| Rejected (err : error)
| Completed (content : option string).

(** [content || dflt] *)
Definition content_or (content : option string) (dflt : string) : string :=
  match content with
  | Some s => if is_empty s then dflt else s
  | None => dflt
  end.

Definition text_prompt (input : string) : string :=
  ("INPUT:" ++ String (ascii_of_nat 10) "" ++ str [dquote; dquote; dquote]
     ++ input ++ str [dquote; dquote; dquote])%string.

(** [classifyFoodOrWorkoutFromText]; [create] is the inference call on
    the user message. *)
Definition classifyFoodOrWorkoutFromText (create : string -> completion)
           (text : string) : string :=
  let input := trim text in
  if is_empty input then "food"
  else
    match create (text_prompt input) with
    | Completed c =>
        let content := toLowerCase (content_or c "") in
        if includes content "workout" then "workout" else "food"
    | Rejected _ => "food"
    end.

(** [classifyFoodOrWorkoutFromImage]; [create] is the inference call
    on the image. *)
Definition classifyFoodOrWorkoutFromImage (create : string -> string -> completion)
           (imageBase64 mimeType : string) : string :=
  match create imageBase64 mimeType with
  | Completed c =>
      if includes (toLowerCase (trim (content_or c "food"))) "workout"
      then "workout" else "food"
  | Rejected _ => "food"
  end.

End Classifier.

(** ** AudioPreprocessor: [preprocessAudio] *)

Module AudioPreprocessor.
Import Str.

Definition path : Type := string.
Definition bytes : Type := list ascii.

(** The files on disk. *)
Definition filesystem : Type := path -> option bytes.

Definition existsSync (fs : filesystem) (p : path) : bool :=
  match fs p with Some _ => true | None => false end.

Definition writeFileSync (fs : filesystem) (p : path) (data : bytes)
  : filesystem :=
  fun q => if String.eqb q p then Some data else fs q.

(** What running a shell command does: the files it leaves, and
    whether the promise was rejected. *)
Inductive exec_outcome : Type :=
| Exited (fs : filesystem)
| ExecRejected (err : error) (fs : filesystem).

Definition files_after (o : exec_outcome) : filesystem :=
  match o with Exited fs | ExecRejected _ fs => fs end.

Definition q : string := str [dquote].

Section Preprocess.

(** [process.env.RNNOISE_MODEL_PATH] *)
Variable RNNOISE_MODEL : option path.
Variable execPromise : string -> filesystem -> exec_outcome.

Definition ensureRnnoiseModel (fs : filesystem) : option path :=
  match RNNOISE_MODEL with
  | Some p => if negb (is_empty p) && existsSync fs p then Some p else None
  | None => None
  end.

Definition ffmpeg_command (fs : filesystem) (rawPath cleanedPath : path)
  : string :=
  let modelPath := ensureRnnoiseModel fs in
  let denoise :=
    match modelPath with
    | Some p =>
        if negb (is_empty p) && existsSync fs p
        then ("arnndn=m=" ++ p ++ ",")%string else ""
    | None => ""
    end in
  let af :=
    (q ++ denoise ++ "silenceremove=1:0:-50dB,loudnorm=i=-22:tp=-2:lra=7"
       ++ q)%string in
  ("ffmpeg -y -hide_banner -loglevel error -i " ++ q ++ rawPath ++ q
     ++ " -af " ++ af ++ " -ac 1 -ar 16000 " ++ q ++ cleanedPath ++ q)%string.

(** [preprocessAudio]: the path to hand to the transcription, and
    the files left behind. *)
Definition preprocessAudio (fs : filesystem) (rawPath cleanedPath : path)
  : path * filesystem :=
  let cmd := ffmpeg_command fs rawPath cleanedPath in
  match execPromise cmd fs with
  | Exited fs' => (cleanedPath, fs')
  | ExecRejected _ fs' => (rawPath, fs')
  end.

(** The first half of [transcribeAudioWithWhisper]: the bytes of the
    stream handed to the transcription call. *)
Definition transcription_input (fs : filesystem) (rawPath cleanedPath : path)
           (audioBuffer : bytes) : result bytes :=
  let fs := writeFileSync fs rawPath audioBuffer in
  let '(pathForWhisper, fs) := preprocessAudio fs rawPath cleanedPath in
  match fs pathForWhisper with
  | None => Throw (Error "Failed to transcribe audio.")
  | Some stream => Ok stream
  end.

End Preprocess.

(** A shell on which every command is rejected and no file changes. *)
Definition broken_shell : string -> filesystem -> exec_outcome :=
  fun _ fs => ExecRejected (Error "ffmpeg: not found") fs.

Definition no_files : filesystem := fun _ => None.

End AudioPreprocessor.

(** ** Records used in the worked cases *)

Module Records.

(** [{totals:{calories:450}, details:[{calories:100},{calories:120}]}] *)
Definition totals_450_details_220 : value :=
  VObj [("totals", VObj [("calories", VNum (of_Z 450))]);
        ("details", VArr [VObj [("calories", VNum (of_Z 100))];
                          VObj [("calories", VNum (of_Z 120))]])].

(** [{totals:{calories:450.6}, details:[{calories:100},{calories:120}]}] *)
Definition totals_450_6_details_220 : value :=
  VObj [("totals", VObj [("calories", VNum (Fin (2253 # 5)))]);
        ("details", VArr [VObj [("calories", VNum (of_Z 100))];
                          VObj [("calories", VNum (of_Z 120))]])].

(** [{quantity:-5, calories:"abc", confidence:7}] *)
Definition negative_quantity : value :=
  VObj [("quantity", VNum (of_Z (-5))); ("calories", VStr "abc");
        ("confidence", VNum (of_Z 7))].

(** [{type:"sleep"}] *)
Definition typed_sleep : value := VObj [("type", VStr "sleep")].

(** [{type:"workout", totals:{calories_burned:999},
      details:[{activity:"run", calories_burned:300.5},
               {calories_burned:"12"}]}] *)
Definition workout_run : value :=
  VObj [("type", VStr "workout");
        ("totals", VObj [("calories_burned", VNum (of_Z 999))]);
        ("details",
         VArr [VObj [("activity", VStr "run");
                     ("calories_burned", VNum (Fin (601 # 2)))];
               VObj [("calories_burned", VStr "12")]])].

(** [{type:"food", totals:{calories:999},
      details:[{item:"dal", calories:100.5},
               {item:"rice", calories:120.5, macros:{protein:2.5}}]}] *)
Definition food_halves : value :=
  VObj [("type", VStr "food");
        ("totals", VObj [("calories", VNum (of_Z 999))]);
        ("details",
         VArr [VObj [("item", VStr "dal");
                     ("calories", VNum (Fin (201 # 2)))];
               VObj [("item", VStr "rice");
                     ("calories", VNum (Fin (241 # 2)));
                     ("macros", VObj [("protein", VNum (Fin (5 # 2)))])]])].

(** A printer for fractions, for the cases that need one supplied;
    none of them prints a fraction. *)
Definition no_fraction_printer : Q -> string := fun _ => "".

End Records.

(** * Part I, continued: the code around the pipeline *)

(** ** [/log-analysis]: the resolver copy, the stored row, file names *)

Module LogAnalysis.
Import Str CalorieResolver.

(** The reducer of [sumDetails], the copy of [trySumDetails] inside the
    route: the two keys are tested one after the other. *)
Definition sumDetails_step (s : number) (it : value) : result number :=
  if negb (truthy it) || negb (typeof_object it) then Ok s
  else
    cb <- get it "calories_burned" ;;
    let by_burned :=
      if nullish cb then None
      else let v := num cb zero in if Num.truthy v then Some v else None in
    match by_burned with
    | Some v => Ok (add s v)
    | None =>
        c <- get it "calories" ;;
        let by_calories :=
          if nullish c then None
          else let v := num c zero in if Num.truthy v then Some v else None in
        match by_calories with
        | Some v => Ok (add s v)
        | None =>
            ct <- get it "calories_text" ;;
            if truthy ct then
              let v := num ct zero in
              if Num.truthy v then Ok (add s v) else Ok s
            else Ok s
        end
    end.

Definition sumDetails (arr : value) : result number :=
  match arr with
  | VArr xs => foldM sumDetails_step xs zero
  | _ => Ok zero
  end.

(** The [candidates] of the route's copy. *)
Definition candidates (a : value) : result (list number) :=
  let cs := [] in
  totals <- get a "totals" ;;
  cs <- (if truthy totals then
           cs <- push_if_present totals "calories_burned" cs ;;
           push_if_present totals "calories" cs
         else Ok cs) ;;
  workout <- get a "workout" ;;
  wtotals <- (if truthy workout then get workout "totals" else Ok workout) ;;
  cs <- (if truthy wtotals then
           cs <- push_if_present wtotals "calories_burned" cs ;;
           push_if_present wtotals "calories" cs
         else Ok cs) ;;
  food <- get a "food" ;;
  ftotals <- (if truthy food then get food "totals" else Ok food) ;;
  cs <- (if truthy ftotals then
           cs <- push_if_present ftotals "calories" cs ;;
           push_if_present ftotals "calories_burned" cs
         else Ok cs) ;;
  details <- get a "details" ;;
  topDetailsSum <- sumDetails details ;;
  let cs := push_if_positive topDetailsSum cs in
  wdetails <- (if truthy workout then get workout "details" else Ok workout) ;;
  workoutDetailsSum <- sumDetails wdetails ;;
  let cs := push_if_positive workoutDetailsSum cs in
  fdetails <- (if truthy food then get food "details" else Ok food) ;;
  foodDetailsSum <- sumDetails fdetails ;;
  Ok (push_if_positive foodDetailsSum cs).

Section Route.

Variable Number_toDecimal : Q -> string.

(** The [try] block of the copy: the serialised record is scanned as it
    is. *)
Definition scan_serialised (a : value) : option number :=
  match JSON_stringify Number_toDecimal a with
  | None => None
  | Some s =>
      match first_numeric_token (chars s) with
      | Some m =>
          let parsed := Math_round (Number_of_chars (replace_first_comma m)) in
          if isFinite parsed && gt parsed zero then Some parsed else None
      | None => None
      end
  end.

(** [extractCaloriesFromAnalysis] as declared inside the route. *)
Definition route_extractCalories (a : value) : result number :=
  if negb (truthy a) || negb (typeof_object a) then Ok zero
  else
    cs <- candidates a ;;
    match positives cs with
    | _ :: _ => Ok (Math_round (Math_max (positives cs)))
    | [] =>
        match scan_serialised a with
        | Some parsed => Ok parsed
        | None => Ok zero
        end
    end.

(** [Number.isFinite(Number(totalCalories)) ? Math.round(Number(totalCalories)) : 0] *)
Definition stored_total (totalCalories : number) : number :=
  if isFinite totalCalories then Math_round totalCalories else zero.

End Route.

(** The [let itemType = "unknown"; if ... else if ...] chain.  Reading
    [analysis.type] throws on [null]. *)
Definition item_type (analysis : value) : result string :=
  ty <- get analysis "type" ;;
  let workout := prop analysis "workout" in
  let food := prop analysis "food" in
  if ReplyComposer.is_string ty "workout"
     || (truthy workout && negb (truthy food))
  then Ok "workout"
  else if ReplyComposer.is_string ty "food"
          || (truthy food && negb (truthy workout))
  then Ok "food"
  else if truthy food && truthy workout then Ok "mixed"
  else Ok "unknown".

(** The characters kept by [replace(/[^a-zA-Z0-9_.-]/g, "")]. *)
Definition is_safe_char (c : ascii) : bool :=
  is_lower c || between 65 90 c || is_digit c
  || Ascii.eqb c "_" || Ascii.eqb c "." || Ascii.eqb c "-".

(** [s.replace(/\s+/g, "_")] *)
Fixpoint underscore_spaces (in_run : bool) (l : list ascii) : list ascii :=
  match l with
  | [] => []
  | c :: r =>
      if is_space c
      then (if in_run then underscore_spaces true r
            else "_"%char :: underscore_spaces true r)
      else c :: underscore_spaces false r
  end.

(** [s.slice(-n)]: the last [n] characters. *)
Definition last_chars (n : nat) (l : list ascii) : list ascii :=
  skipn (List.length l - n) l.

(** [String(userId).replace(/\D/g, "").slice(-12) || "user"] *)
Definition id_part (userId : string) : string :=
  let digits := last_chars 12 (filter is_digit (chars userId)) in
  match digits with
  | [] => "user"
  | _ => str digits
  end.

(** [(origName || "file").replace(/\s+/g, "_").replace(/[^a-zA-Z0-9_.-]/g, "")] *)
Definition clean_name (origName : option string) : string :=
  let name := MediaFetcher.or_default origName "file" in
  str (filter is_safe_char (underscore_spaces false (chars name))).

Definition all_safe (l : list ascii) : Prop :=
  Forall (fun c => is_safe_char c = true) l.

Definition head_is_digit (l : list ascii) : bool :=
  match l with d :: _ => is_digit d | [] => false end.

(** [safeName] of [uploadFileToSupabase]; [now] is [Date.now()]. *)
Definition safeName (userId : string) (now : Z) (origName : option string)
  : string :=
  (id_part userId ++ "-" ++ string_of_Z now ++ "-" ++ clean_name origName)%string.

(** [pathInBucket] *)
Definition pathInBucket (userId : string) (now : Z) (origName : option string)
  : string :=
  (userId ++ "/" ++ safeName userId now origName)%string.

End LogAnalysis.

(** ** Measures of a fetch: downloads issued, time slept *)

Module FetchCost.
Import MediaFetcher.

Definition is_download (e : event) : bool :=
  match e with Download _ _ => true | _ => false end.

(** The number of download requests in a trace. *)
Definition downloads (trace : list event) : nat :=
  List.length (filter is_download trace).

(** The milliseconds slept in a trace. *)
Fixpoint total_sleep (trace : list event) : Z :=
  match trace with
  | [] => 0
  | Sleep delay :: r => delay + total_sleep r
  | _ :: r => total_sleep r
  end.

Definition maxRetries_of (opts : options) : Z :=
  match opt_maxRetries opts with Some n => n | None => 3 end.

Definition baseDelay_of (opts : options) : Z :=
  match opt_retryDelayMs opts with Some n => n | None => 300 end.

(** A network that answers 401 to the downloads without the credential
    and 200 with the bytes [data] to those with it. *)
Definition wants_auth (u : string) (data : bytes) : network :=
  mkNetwork (fun _ => Ok (mkMediaObject (Some u) (Some "image/jpeg")))
            (fun _ _ useAuth => if useAuth then Response 200 data
                                else Response 401 []).

End FetchCost.

(** ** [transcribeAudioWithWhisper] *)

Module Transcriber.
Import Str AudioPreprocessor.

(** What [openai.audio.transcriptions.create] gives: a rejection, or a
    response with its [text], when it has one. *)
Inductive transcription : Type :=
| WhisperRejected (err : error)
| Transcribed (text : option string).

Definition unlinkSync (fs : filesystem) (p : path) : filesystem :=
  fun q => if String.eqb q p then None else fs q.

(** [try { if (fs.existsSync(p)) fs.unlinkSync(p); } catch {}] *)
Definition remove_if_present (fs : filesystem) (p : path) : filesystem :=
  if existsSync fs p then unlinkSync fs p else fs.

Definition rawPath_of (stamp : Z) : path :=
  ("/tmp/" ++ string_of_Z stamp ++ "-raw.audio")%string.

Definition cleanedPath_of (stamp : Z) : path :=
  ("/tmp/" ++ string_of_Z stamp ++ "-cleaned.wav")%string.

Definition transcribe_failed : error := Error "Failed to transcribe audio.".

Section Transcribe.

Variable RNNOISE_MODEL : option path.
Variable execPromise : string -> filesystem -> exec_outcome.
Variable whisper : bytes -> transcription.

(** The live [transcribeAudioWithWhisper]; [stamp] is [Date.now()].  The
    result comes with the files left on disk. *)
Definition transcribeAudioWithWhisper (fs : filesystem) (stamp : Z)
           (audioBuffer : bytes) : result string * filesystem :=
  let rawPath := rawPath_of stamp in
  let cleanedPath := cleanedPath_of stamp in
  let fs := writeFileSync fs rawPath audioBuffer in
  let '(pathForWhisper, fs) :=
    preprocessAudio RNNOISE_MODEL execPromise fs rawPath cleanedPath in
  let outcome :=
    match fs pathForWhisper with
    | None => Throw transcribe_failed
    | Some stream =>
        match whisper stream with
        | Transcribed (Some text) => Ok text
        | Transcribed None => Ok ""
        | WhisperRejected _ => Throw transcribe_failed
        end
    end in
  (outcome, fold_left remove_if_present [rawPath; cleanedPath] fs).

End Transcribe.

(** A shell on which ffmpeg writes the cleaned file as the raw bytes
    with a four-byte header. *)
Definition working_shell (rawPath cleanedPath : path)
  : string -> filesystem -> exec_outcome :=
  fun _ fs =>
    match fs rawPath with
    | Some data =>
        Exited (writeFileSync fs cleanedPath (["R"; "I"; "F"; "F"]%char ++ data))
    | None => ExecRejected (Error "No such file") fs
    end.

End Transcriber.

(** ** [/whatsapp-webhook]: acknowledgements and captions *)

Module Webhook.
Import Str.

(** One entry of [tasks]. *)
Record task : Type := mkTask {
  from : value;
  msgId : value;
  message : value;
  metadata : value
}.

(** The state of the acknowledgement loop: the set [acked], and the
    [metaSendText(t.from, ackText, t.msgId)] calls made so far, each with
    its recipient and the message it replies to.  A failed send is
    swallowed by its [.catch], so it is followed like a successful one. *)
Definition ack_state : Type := (list value * list (value * value))%type.

Definition ack_step (st : ack_state) (t : task) : ack_state :=
  let '(acked, sent) := st in
  if truthy (from t) && negb (existsb (Reconciler.same_value_zero (from t)) acked)
  then (acked ++ [from t], sent ++ [(from t, msgId t)])
  else st.

Definition acknowledge (tasks : list task) : ack_state :=
  fold_left ack_step tasks ([], []).

(** The recipients that are strings, in the order of the sends. *)
Definition string_recipients (sent : list (value * value)) : list string :=
  flat_map (fun s => match fst s with VStr to => [to] | _ => [] end) sent.

Definition captionCandidates (message : value) : list value :=
  [opt_get (opt_get message "text") "body";
   opt_get message "caption";
   opt_get (opt_get message "image") "caption";
   opt_get (opt_get (opt_get message "image") "caption") "text";
   opt_get (opt_get (opt_get message "context") "quoted_message") "text"].

(** [if (p && typeof p === "string" && p.trim().length)] *)
Definition is_caption (p : value) : bool :=
  match p with
  | VStr s => negb (is_empty (trim s))
  | _ => false
  end.

(** The [for (const p of captionCandidates)] loop with its [break]. *)
Fixpoint first_caption (ps : list value) : string :=
  match ps with
  | [] => ""
  | p :: r =>
      if is_caption p
      then match p with VStr s => trim s | _ => "" end
      else first_caption r
  end.

Definition LF : ascii := ascii_of_nat 10.
Definition CR : ascii := ascii_of_nat 13.

(** [s.replace(/\r?\n+/g, " ")] *)
Fixpoint flatten_newlines (in_run : bool) (l : list ascii) : list ascii :=
  match l with
  | [] => []
  | c :: r =>
      if Ascii.eqb c LF
      then (if in_run then flatten_newlines true r
            else " "%char :: flatten_newlines true r)
      else if Ascii.eqb c CR
              && match r with d :: _ => Ascii.eqb d LF | [] => false end
      then " "%char :: flatten_newlines true r
      else c :: flatten_newlines false r
  end.

(** [if (s.length > 800) s = s.slice(0, 800) + "..."]; lengths are
    counted in bytes, which is the JavaScript length on ASCII text. *)
Definition truncate800 (l : list ascii) : list ascii :=
  if Nat.ltb 800 (List.length l) then firstn 800 l ++ ["."; "."; "."]%char
  else l.

(** The caption of a message: [captionText]. *)
Definition captionText (message : value) : string :=
  let c := first_caption (captionCandidates message) in
  if is_empty c then c
  else str (truncate800 (trim_chars (flatten_newlines false (chars c)))).

Definition has_nonspace (l : list ascii) : bool :=
  existsb (fun c => negb (is_space c)) l.

End Webhook.

(** ** [/analyze-image-with-text]: the totals of the merged record *)

Module MergeTotals.
Import Str Extractor Reconciler.

(** [Number(it.calories || 0)] on a normalised item. *)
Definition counted_calories (it : FoodItem) : number := or_zero (calories it).

(** [let totalCalories = 0; for (const it of merged) totalCalories += ...] *)
Definition totalCalories (merged : list FoodItem) : number :=
  fold_left (fun acc it => add acc (counted_calories it)) merged zero.

(** What the route answers with: the merged record, with its [details]
    and [totals.calories], or the vision record as it is. *)
Inductive response : Type :=
| MergedRecord (details : list FoodItem) (calories : number)
| VisionRecord.



End MergeTotals.

(** ** The reply to a voice note *)

Module VoiceReply.
Import Str ReplyComposer.

(** [part && Array.isArray(part.details) && part.details.length] *)
Definition has_details (part : value) : bool :=
  truthy part
  && match prop part "details" with VArr (_ :: _) => true | _ => false end.

Definition unexpected_format : string :=
  "Sorry — analysis returned an unexpected format. Try text or a short voice note.".

Section Reply.

Variable Number_toDecimal : Q -> string.

(** [c.transcript ? `Transcript: "${String(c.transcript).slice(0,240)}"` : ""] *)
Definition transcript_note (c : value) : result string :=
  if truthy (prop c "transcript")
  then shown <- to_string Number_toDecimal (prop c "transcript") ;;
       Ok ("Transcript: " ++ str [dquote] ++ substring 0 240 shown
             ++ str [dquote])%string
  else Ok "".

Definition nothing_extracted (c : value) : result string :=
  note <- transcript_note c ;;
  Ok ("Sorry, I couldn't confidently extract food or workout from the voice note. "
        ++ note ++ nl
        ++ "Try a short 3–8s voice note or type it.")%string.

(** Step 4 of the audio branch, "Build reply", on the analysis
    [combinedAnalysis], which is not falsy there. *)
Definition voice_reply (c : value) : result string :=
  let food := prop c "food" in
  let workout := prop c "workout" in
  if truthy food || truthy workout then
    let hasFood := has_details food in
    let hasWorkout := has_details workout in
    if hasFood && negb hasWorkout
    then buildReplyForAnalysis Number_toDecimal food
    else if hasWorkout && negb hasFood
    then buildReplyForAnalysis Number_toDecimal workout
    else if hasFood && hasWorkout
    then fr <- buildReplyForAnalysis Number_toDecimal food ;;
         w <- buildReplyForAnalysis Number_toDecimal workout ;;
         Ok (fr ++ nl ++ nl ++ w)%string
    else nothing_extracted c
  else if truthy (prop c "type")
  then buildReplyForAnalysis Number_toDecimal c
  else Ok unexpected_format.

End Reply.

End VoiceReply.

(** ** [analyzeContentWithChatGPT] and [analyzeImageWithChatGPT] *)

Module Analyzer.
Import Str Extractor Classifier ReplyComposer.

Definition macros_object (m : Macros) : value :=
  VObj [("protein", VNum (protein m)); ("fat", VNum (fat m));
        ("carbs", VNum (carbs m))].

(** The object literal built by [details.map]. *)
Definition item_object (it : FoodItem) : value :=
  VObj ([("item", item it); ("quantity", VNum (quantity it));
         ("unit", unit it); ("calories", VNum (calories it));
         ("macros", macros_object (macros it)); ("brand", brand it);
         ("source", source it); ("confidence", VNum (confidence it))]
          ++ match assumptions it with
             | Some a => [("assumptions", VArr a)]
             | None => []
             end).

(** [obj.k = v] on the properties of an object. *)
Fixpoint set_prop (k : string) (v : value) (ps : list (string * value))
  : list (string * value) :=
  match ps with
  | [] => [(k, v)]
  | (k', v') :: r =>
      if String.eqb k k' then (k, v) :: r else (k', v') :: set_prop k v r
  end.

(** What [await openai.chat.completions.create(...)] gives: a rejection,
    a response on which reading [resp.choices[0].message.content]
    throws, or the content. *)
Inductive response : Type :=
| Failed (err : error)
| NoMessage
| Answer (content : option string).





(** A raw detail whose six numeric fields [Number] can convert. *)
Definition convertible_detail (d : value) : bool :=
  negb (unprintable (opt_get d "quantity"))
  && negb (unprintable (opt_get d "calories"))
  && negb (unprintable (opt_get (opt_get d "macros") "protein"))
  && negb (unprintable (opt_get (opt_get d "macros") "fat"))
  && negb (unprintable (opt_get (opt_get d "macros") "carbs"))
  && negb (unprintable (opt_get d "confidence")).


Section Analyze.

Variable Number_toDecimal : Q -> string.

(** [JSON.parse], [None] when it throws. *)
Variable JSON_parse : string -> option value.

(** [Number(v ?? 0) || 0] *)
Definition converted_or_zero (v : value) : result number :=
  n <- to_number Number_toDecimal (coalesce v (VNum zero)) ;;
  Ok (or_zero n).

Definition converted_macros (d : value) : result Macros :=
  let m := opt_get d "macros" in
  protein <- converted_or_zero (opt_get m "protein") ;;
  fat <- converted_or_zero (opt_get m "fat") ;;
  carbs <- converted_or_zero (opt_get m "carbs") ;;
  Ok (mkMacros protein fat carbs).

(** [Math.max(0, Math.min(1, Number(v ?? 0))) || 0] *)
Definition converted_confidence (v : value) : result number :=
  n <- to_number Number_toDecimal (coalesce v (VNum zero)) ;;
  Ok (or_zero (max2 zero (min2 (of_Z 1) n))).

(** The [details.map] of [analyzeContentWithChatGPT], with what
    [Number] throws. *)
Definition text_detail (d : value) : result FoodItem :=
  quantity <- converted_or_zero (opt_get d "quantity") ;;
  calories <- converted_or_zero (opt_get d "calories") ;;
  macros <- converted_macros d ;;
  confidence <- converted_confidence (opt_get d "confidence") ;;
  Ok (mkFoodItem
        (coalesce (opt_get d "item") empty_string)
        quantity
        (coalesce (opt_get d "unit") empty_string)
        calories
        macros
        (coalesce (opt_get d "brand") empty_string)
        (coalesce (opt_get d "source") empty_string)
        confidence
        None).

(** The [details.map] of [analyzeImageWithChatGPT], with what [Number]
    throws. *)
Definition image_detail (d : value) : result FoodItem :=
  quantity <- converted_or_zero (opt_get d "quantity") ;;
  calories <- converted_or_zero (opt_get d "calories") ;;
  macros <- converted_macros d ;;
  confidence <- converted_confidence (opt_get d "confidence") ;;
  Ok (mkFoodItem
        (coalesce (opt_get d "item") empty_string)
        quantity
        (coalesce (opt_get d "unit") empty_string)
        calories
        macros
        (coalesce (opt_get d "brand") empty_string)
        (coalesce (opt_get d "source") empty_string)
        confidence
        None).





End Analyze.

End Analyzer.

(** ** The merged record, as it is answered and then logged *)

Module MergedLog.
Import Str Extractor Analyzer MergeTotals.

Section Totals.

Variable Number_toDecimal : Q -> string.

(** The body of [for (const it of merged)], as far as the total goes,
    on a merged detail as it comes, a normalised item or a raw detail
    of a workout caption: [totalCalories += Number(it.calories || 0)],
    and then the confidence is read for the average, with [Number]
    applied to it unless it is a number. *)
Definition count_step (totalCalories : number) (it : value) : result number :=
  c <- get it "calories" ;;
  n <- to_number Number_toDecimal (or_else c (VNum zero)) ;;
  let totalCalories := add totalCalories n in
  let confidence := prop it "confidence" in
  _ <- match confidence with
       | VNum _ => Ok zero
       | _ => to_number Number_toDecimal confidence
       end ;;
  Ok totalCalories.

Definition total_of (merged : list value) : result number :=
  foldM count_step merged zero.

End Totals.

(** The [result] object of [/analyze-image-with-text] for the merged
    details and the total summed over them; the two other fields of its
    [totals] are taken as they come. *)
Definition merged_record (merged : list value) (totalCalories : number)
           (assumptions confidence : value) : value :=
  VObj [("type", VStr "food");
        ("details", VArr merged);
        ("totals",
         VObj [("calories", VNum (Math_round totalCalories));
               ("assumptions", assumptions);
               ("confidence", confidence)])].

(** A detail as the food paths of the route leave it: an object with
    the finite number [c] as [calories], neither [calories_burned] nor
    [calories_text], and a confidence that converts. *)
Definition food_detail (it : value) (c : number) : Prop :=
  exists ps : list (string * value),
    it = VObj ps /\
    lookup "calories" ps = VNum c /\
    isFinite c = true /\
    nullish (lookup "calories_burned" ps) = true /\
    truthy (lookup "calories_text" ps) = false /\
    unprintable (lookup "confidence" ps) = false.

Definition food_details (merged : list value) : Prop :=
  Forall (fun it => exists c : number, food_detail it c) merged.

Definition finite_calories (merged : list FoodItem) : Prop :=
  Forall (fun it => isFinite (calories it) = true) merged.

(** A detail of a workout estimate that a workout caption brings into
    the merged list as it is:
    [{item:"run", calories:5, calories_burned:300}]. *)
Definition workout_caption_detail : value :=
  VObj [("item", VStr "run"); ("calories", VNum (of_Z 5));
        ("calories_burned", VNum (of_Z 300))].

End MergedLog.

(** ** [analyzeAudioWithGPT]: the details it rebuilds *)

Module AudioAnalyzer.
Import Str Extractor ReplyComposer.

(** [a ?? b ?? c] *)
Definition first_of (a b c : value) : value := coalesce (coalesce a b) c.

(** The test [parsed && parsed.type === "food" &&
    Array.isArray(parsed.details) && parsed.details.length > 0], with
    [parsed.details[0]] when it passes. *)
Definition first_food_detail (parsed : value) : option value :=
  if truthy parsed && is_string (prop parsed "type") "food"
  then match prop parsed "details" with
       | VArr (pd :: _) => Some pd
       | _ => None
       end
  else None.



Section Rebuild.

Variable Number_toDecimal : Q -> string.

(** [Number(v) || 0] *)
Definition to_number_or_zero (v : value) : result value :=
  n <- to_number Number_toDecimal v ;;
  Ok (VNum (or_zero n)).




(** [(item && item.item) ? String(item.item).trim() : ""] *)
Definition itemName_of (item : value) : result string :=
  if truthy item && truthy (prop item "item")
  then shown <- to_string Number_toDecimal (prop item "item") ;;
       Ok (trim shown)
  else Ok "".

(** The object literal pushed for an item the lookup helped with. *)
Definition enriched_object (itemName : string) (item pd : value)
  : result value :=
  quantity <-
    to_number_or_zero
      (first_of (opt_get pd "quantity") (opt_get item "quantity")
                (VNum zero)) ;;
  calories <-
    to_number_or_zero
      (first_of (opt_get pd "calories") (opt_get item "calories")
                (VNum zero)) ;;
  protein <-
    to_number_or_zero
      (first_of (opt_get (opt_get pd "macros") "protein")
                (opt_get (opt_get item "macros") "protein")
                (VNum zero)) ;;
  fat <-
    to_number_or_zero
      (first_of (opt_get (opt_get pd "macros") "fat")
                (opt_get (opt_get item "macros") "fat")
                (VNum zero)) ;;
  carbs <-
    to_number_or_zero
      (first_of (opt_get (opt_get pd "macros") "carbs")
                (opt_get (opt_get item "macros") "carbs")
                (VNum zero)) ;;
  confidence <-
    to_number Number_toDecimal
      (first_of (opt_get pd "confidence") (opt_get item "confidence")
                (VNum zero)) ;;
  Ok (VObj [("item", coalesce (opt_get pd "item") (VStr itemName));
            ("quantity", quantity);
            ("unit",
             first_of (opt_get pd "unit") (opt_get item "unit") (VStr ""));
            ("calories", calories);
            ("macros",
             VObj [("protein", protein); ("fat", fat); ("carbs", carbs)]);
            ("brand",
             first_of (opt_get pd "brand") (opt_get item "brand") (VStr ""));
            ("source",
             first_of (opt_get pd "source") (opt_get item "source") (VStr ""));
            ("confidence",
             VNum (or_zero (max2 zero (min2 (of_Z 1) confidence))));
            ("assumptions",
             if isArray (opt_get pd "assumptions")
             then opt_get pd "assumptions"
             else or_else (opt_get item "assumptions") (VArr []))]).

(** The parsed answer of the lookup made for the item at a position of
    the list, [None] when the call or [JSON.parse] throws. *)
Variable lookup_nutrition : nat -> string -> option value.

(** The first detail of the answer to the lookup made at position [i]
    for the name [itemName], when a lookup is made and its answer is a
    food record with details. *)
Definition usable_detail (i : nat) (itemName : string) : option value :=
  if is_empty itemName then None
  else
    match lookup_nutrition i itemName with
    | Some parsed => first_food_detail parsed
    | None => None
    end.

(** The body of [for (const item of details)].  The name is taken
    outside the inner [try], so what [String] throws ends the loop;
    what the object literal throws is caught and the item is pushed as
    it is. *)
Definition enrich_step (enrichedDetails : list value) (item : value)
  : result (list value) :=
  itemName <- itemName_of item ;;
  if is_empty itemName then Ok (enrichedDetails ++ [item])
  else
    match lookup_nutrition (List.length enrichedDetails) itemName with
    | Some parsed =>
        match first_food_detail parsed with
        | Some pd =>
            match enriched_object itemName item pd with
            | Ok x => Ok (enrichedDetails ++ [x])
            | Throw _ => Ok (enrichedDetails ++ [item])
            end
        | None => Ok (enrichedDetails ++ [item])
        end
    | None => Ok (enrichedDetails ++ [item])
    end.

Definition enrich (details : list value) : result (list value) :=
  foldM enrich_step details [].

(** The entry [x] left for [item] at position [i]: the object built
    from the first detail of the lookup made there for its name, or the
    item itself when there is no such detail or the object could not be
    built. *)
Definition enriched_at (i : nat) (item x : value) : Prop :=
  exists itemName : string,
    itemName_of item = Ok itemName /\
    match usable_detail i itemName with
    | Some pd =>
        match enriched_object itemName item pd with
        | Ok o => x = o
        | Throw _ => x = item
        end
    | None => x = item
    end.

End Rebuild.

(** An item whose name [String] cannot convert. *)
Definition unnameable (item : value) : bool :=
  truthy item && unprintable (prop item "item").

(** The numeric fields of a rebuilt food object. *)
Definition numeric_props (x : value) : list value :=
  [prop x "quantity"; prop x "calories"; prop (prop x "macros") "protein";
   prop (prop x "macros") "fat"; prop (prop x "macros") "carbs"].

(** A number that is not [NaN]. *)
Definition is_number (v : value) : Prop :=
  exists n : number, v = VNum n /\ isNaN n = false.

End AudioAnalyzer.

(** ** The composite record of a voice note *)

Module CompositeRecord.
Import Str Analyzer.

Definition default_food : value :=
  VObj [("type", VStr "food"); ("details", VArr []);
        ("totals", VObj [("calories", VNum zero); ("assumptions", VArr []);
                         ("confidence", VNum zero)])].

Definition default_workout : value :=
  VObj [("type", VStr "workout"); ("details", VArr []);
        ("totals", VObj [("calories_burned", VNum zero);
                         ("assumptions", VArr []);
                         ("confidence", VNum zero)])].

(** "Defensive normalization" in [analyzeAudioWithGPT], on the
    properties of the parsed object [out]:
    [out.food = out.food || {...}; out.workout = out.workout || {...}]. *)
Definition default_parts (out : list (string * value))
  : list (string * value) :=
  let out1 := set_prop "food" (or_else (lookup "food" out) default_food) out in
  set_prop "workout" (or_else (lookup "workout" out1) default_workout) out1.

End CompositeRecord.

(** ** [/handle-craving] and [/recommend-food]: today's and the week's totals *)

Module WeeklyTotals.
Import Str.

(** [a - b] on numbers. *)
Definition sub (a b : number) : number :=
  match a, b with
  | NaN, _ | _, NaN => NaN
  | PInf, PInf | NInf, NInf => NaN
  | PInf, _ | _, NInf => PInf
  | NInf, _ | _, PInf => NInf
  | Fin x, Fin y => fin (x - y)
  end.

(** The four running totals; each is whatever [+=] has made of it. *)
Record totals : Type := mkTotals {
  calories : value;
  protein : value;
  fat : value;
  carbs : value
}.

Definition no_totals : totals :=
  mkTotals (VNum zero) (VNum zero) (VNum zero) (VNum zero).

Definition is_str (v : value) : bool :=
  match v with VStr _ => true | _ => false end.

Section Aggregate.

Variable Number_toDecimal : Q -> string.

(** [new Date(v).toISOString().split("T")[0]]; [toISOString] throws on an
    invalid date. *)
Variable day_of : value -> result string.

(** [ToPrimitive] on parsed JSON that converts: arrays and objects
    become their string. *)
Definition to_primitive (v : value) : value :=
  match v with
  | VArr _ | VObj _ => VStr (ToString Number_toDecimal v)
  | _ => v
  end.

(** [a + b] on values: both sides are made primitive, which throws on
    a value that does not convert; then concatenation as soon as one
    side is a string. *)
Definition js_add (a b : value) : result value :=
  if unprintable a || unprintable b then Throw TypeError
  else
    let pa := to_primitive a in
    let pb := to_primitive b in
    if is_str pa || is_str pb
    then Ok (VStr (ToString Number_toDecimal pa ++ ToString Number_toDecimal pb))
    else Ok (VNum (add (ToNumber Number_toDecimal pa)
                       (ToNumber Number_toDecimal pb))).

(** [a - b] on values. *)
Definition js_sub (a b : value) : result value :=
  x <- to_number Number_toDecimal a ;;
  y <- to_number Number_toDecimal b ;;
  Ok (VNum (sub x y)).

(** The [totals] object built for one meal. *)
Definition meal_totals (meal : value) : totals :=
  let t := opt_get (prop meal "log_details") "totals" in
  mkTotals (or_else (prop meal "total_calories") (VNum zero))
           (or_else (opt_get t "protein") (VNum zero))
           (or_else (opt_get t "fat") (VNum zero))
           (or_else (opt_get t "carbs") (VNum zero)).

(** The four [+=] on one pair of running totals, in the order
    written. *)
Definition add_totals (acc t : totals) : result totals :=
  c <- js_add (calories acc) (calories t) ;;
  p <- js_add (protein acc) (protein t) ;;
  f <- js_add (fat acc) (fat t) ;;
  cb <- js_add (carbs acc) (carbs t) ;;
  Ok (mkTotals c p f cb).

(** The body of [for (const meal of meals)]; the state is
    [(todayTotals, weekTotals)]. *)
Definition aggregate_step (todayStr : string) (st : totals * totals)
           (meal : value) : result (totals * totals) :=
  created_at <- get meal "created_at" ;;
  d <- day_of created_at ;;
  let t := meal_totals meal in
  let '(todayTotals, weekTotals) := st in
  weekTotals <- add_totals weekTotals t ;;
  if String.eqb d todayStr
  then todayTotals <- add_totals todayTotals t ;; Ok (todayTotals, weekTotals)
  else Ok (todayTotals, weekTotals).

Definition aggregate (todayStr : string) (meals : list value)
  : result (totals * totals) :=
  foldM (aggregate_step todayStr) meals (no_totals, no_totals).

(** [gaps.calories] of [/recommend-food]. *)
Definition calories_gap (todayTotals : totals) : result value :=
  js_sub (VNum (of_Z 2000)) (calories todayTotals).

(** A row as [/log-analysis] writes it, with the whole number [z] it
    stored as [total_calories] and the day [d] of its [created_at]. *)
Definition stored_row (r : value * Z * string) : Prop :=
  let '(meal, z, d) := r in
  nullish meal = false /\
  prop meal "total_calories" = VNum (of_Z z) /\
  (0 <= z)%Z /\
  day_of (prop meal "created_at") = Ok d.

End Aggregate.

Definition row_meal (r : value * Z * string) : value := fst (fst r).

(** A running total is a number or a text. *)
Definition summed (v : value) : Prop :=
  (exists n, v = VNum n) \/ (exists s, v = VStr s).

(** Running totals: the calories are the whole number [z], the macros
    are numbers or texts. *)
Definition running (t : totals) (z : Z) : Prop :=
  calories t = VNum (of_Z z) /\
  summed (protein t) /\ summed (fat t) /\ summed (carbs t).

(** A meal whose three macro totals, as its [log_details] give them,
    [+=] can add. *)
Definition addable_macros (meal : value) : bool :=
  let t := opt_get (prop meal "log_details") "totals" in
  negb (unprintable (opt_get t "protein"))
  && negb (unprintable (opt_get t "fat"))
  && negb (unprintable (opt_get t "carbs")).

(** The sum of the stored totals of the rows. *)
Definition week_sum (rows : list (value * Z * string)) : Z :=
  fold_right (fun r s => (snd (fst r) + s)%Z) 0%Z rows.

(** The sum of the stored totals of the rows of the day [todayStr]. *)
Definition today_sum (todayStr : string) (rows : list (value * Z * string))
  : Z :=
  fold_right
    (fun r s => if String.eqb (snd r) todayStr then (snd (fst r) + s)%Z else s)
    0%Z rows.

(** A date reader for sample rows whose [created_at] is the day itself. *)
Definition day_as_written (v : value) : result string :=
  match v with
  | VStr s => Ok s
  | _ => Throw (Error "Invalid time value")
  end.

End WeeklyTotals.

(** ** The [/log-analysis] handler *)

Module LogRoute.
Import Str LogAnalysis.

(** The row given to [insert]; [created_at], the time of the request, is
    left out. *)
Record row : Type := mkRow {
  user_id : value;
  user_email : value;
  item_type_of : string;
  total_calories : number;
  log_details : value;
  image_url : option string;
  audio_url : option string
}.

(** What the handler does to the outside: the two uploads and the
    insert. *)
Inductive event : Type :=
| UploadImage
| UploadAudio
| Insert (r : row).

(** [await supabase.from("meals").insert([row]).select("*")]: it throws,
    or answers with an [error], or answers without one. *)
Inductive insert_outcome : Type :=
| InsertThrows
| InsertError
| Inserted.

Definition is_insert (e : event) : bool :=
  match e with Insert _ => true | _ => false end.

Definition item_types : list string := ["workout"; "food"; "mixed"; "unknown"].

(** [req.body.userId || req.body.user_id || req.body.userPhoneNumber] *)
Definition userId_of (body : value) : value :=
  or_else (or_else (prop body "userId") (prop body "user_id"))
          (prop body "userPhoneNumber").

(** [req.body.analysisResult || req.body.analysis || null] *)
Definition analysisRaw_of (body : value) : value :=
  or_else (or_else (prop body "analysisResult") (prop body "analysis")) VNull.

(** The uploads made for the files of a request. *)
Definition uploads_for (hasImage hasAudio : bool) : list event :=
  (if hasImage then [UploadImage] else [])
    ++ (if hasAudio then [UploadAudio] else []).

Section Handler.

Variable Number_toDecimal : Q -> string.

(** [JSON.parse], [None] when it throws. *)
Variable JSON_parse : string -> option value.

(** The [url] of what [uploadFileToSupabase] returns for the image and
    for the audio, when it is not empty. *)
Variable image_uploaded_url audio_uploaded_url : option string.

Variable insert : row -> insert_outcome.

(** "Parse analysisResult safely" *)
Definition parse_analysis (analysisRaw : value) : value :=
  match analysisRaw with
  | VStr s =>
      match JSON_parse s with
      | Some v => v
      | None => VObj [("raw", analysisRaw)]
      end
  | _ => analysisRaw
  end.

(** The handler on the request body and on whether an image and an audio
    file came with it: the status of the response and what was done,
    in order.  Whatever is thrown inside is answered with 500; the
    first thing [uploadFileToSupabase] does is [String(userId)], which
    throws, before anything is sent, on a user id that does not
    convert. *)
Definition log_analysis (body : value) (hasImage hasAudio : bool)
  : Z * list event :=
  if nullish body then (500%Z, [])
  else
    let userId :=
      or_else (or_else (prop body "userId") (prop body "user_id"))
              (prop body "userPhoneNumber") in
    let userEmail :=
      or_else (or_else (prop body "userEmail") (prop body "user_email"))
              VNull in
    let analysisRaw :=
      or_else (or_else (prop body "analysisResult") (prop body "analysis"))
              VNull in
    if negb (truthy userId) then (400%Z, [])
    else if negb (truthy analysisRaw) then (400%Z, [])
    else
      let analysis := parse_analysis analysisRaw in
      match route_extractCalories Number_toDecimal analysis with
      | Throw _ => (500%Z, [])
      | Ok totalCalories =>
          if (hasImage || hasAudio) && unprintable userId then (500%Z, [])
          else
          let imageUrl := if hasImage then image_uploaded_url else None in
          let audioUrl := if hasAudio then audio_uploaded_url else None in
          let uploads :=
            (if hasImage then [UploadImage] else [])
              ++ (if hasAudio then [UploadAudio] else []) in
          match item_type analysis with
          | Throw _ => (500%Z, uploads)
          | Ok itemType =>
              let r := mkRow userId userEmail itemType
                             (stored_total totalCalories) analysis
                             imageUrl audioUrl in
              match insert r with
              | Inserted => (201%Z, uploads ++ [Insert r])
              | InsertError | InsertThrows => (500%Z, uploads ++ [Insert r])
              end
          end
      end.

End Handler.

End LogRoute.

(** ** [uploadFileToSupabase]: upload, bucket creation and retry *)

Module Uploader.
Import Str.

(** An error object: its [message], its [status] and what [String(err)]
    gives. *)
Record failure : Type := mkFailure {
  message : value;
  status : value;
  as_text : string
}.

(** A thrown or reported error; [None] stands for a value that is
    falsy. *)
Definition thrown : Type := option failure.

(** [await supabase.storage.from(bucket).upload(...)] *)
Inductive upload_outcome : Type :=
| UploadThrows (e : thrown)
| UploadError (upErr : failure)
| Uploaded.

(** [supabase.storage.createBucket(bucket, {public: true}).catch(...)]:
    a throw before the promise exists, a reported or caught error, or
    neither. *)
Inductive create_outcome : Type :=
| CreateThrows (e : thrown)
| CreateError (createErr : failure)
| Created.

(** The error an upload leaves in [resUpload.error]. *)
Definition upload_error (o : upload_outcome) : thrown :=
  match o with
  | UploadThrows e => e
  | UploadError upErr => Some upErr
  | Uploaded => None
  end.

(** The calls made to the storage, with the attempt they belong to. *)
Inductive call : Type :=
| Upload (attempt : nat)
| GetPublicUrl (attempt : nat)
| CreateSignedUrl (attempt : nat)
| CreateBucket.

Definition is_upload (c : call) : bool :=
  match c with Upload _ => true | _ => false end.

Definition is_create (c : call) : bool :=
  match c with CreateBucket => true | _ => false end.

(** What [doUpload] returns. *)
Record attempt_result : Type := mkAttempt {
  ok : bool;
  attempt_url : option string;
  attempt_error : thrown
}.

(** What [uploadFileToSupabase] returns, without the path. *)
Record upload_result : Type := mkResult {
  url : option string;
  error : thrown
}.

Section Upload.

Variable Number_toDecimal : Q -> string.

(** The storage, by attempt: the upload, the public url (when the call
    gives one without an error) and the signed url (likewise). *)
Variable upload : nat -> upload_outcome.
Variable publicUrl : nat -> option string.
Variable signedUrl : nat -> option string.
Variable createBucket : create_outcome.

(** [isBucketNotFound] *)
Definition isBucketNotFound (err : thrown) : bool :=
  match err with
  | None => false
  | Some e =>
      let msg :=
        toLowerCase (if truthy (message e)
                     then ToString Number_toDecimal (message e)
                     else as_text e) in
      includes msg "bucket not found" || includes msg "not found"
      || includes msg "does not exist"
      || match status e with
         | VNum n => Reconciler.same_number n (of_Z 404)
         | _ => false
         end
  end.

(** [doUpload] *)
Definition doUpload (attempt : nat) : attempt_result * list call :=
  match upload attempt with
  | UploadThrows e => (mkAttempt false None e, [Upload attempt])
  | UploadError upErr => (mkAttempt false None (Some upErr), [Upload attempt])
  | Uploaded =>
      match publicUrl attempt with
      | Some u =>
          (mkAttempt true (Some u) None, [Upload attempt; GetPublicUrl attempt])
      | None =>
          (mkAttempt true (signedUrl attempt) None,
           [Upload attempt; GetPublicUrl attempt; CreateSignedUrl attempt])
      end
  end.

Definition finish (resUpload : attempt_result) : upload_result :=
  if negb (ok resUpload) then mkResult None (attempt_error resUpload)
  else mkResult (attempt_url resUpload) (attempt_error resUpload).

(** [uploadFileToSupabase]: what it returns and the calls it made. *)
Definition uploadFileToSupabase : upload_result * list call :=
  let '(res1, calls1) := doUpload 0 in
  if negb (ok res1) && isBucketNotFound (attempt_error res1)
  then
    match createBucket with
    | CreateThrows e => (mkResult None e, calls1 ++ [CreateBucket])
    | CreateError _ =>
        (mkResult None (attempt_error res1), calls1 ++ [CreateBucket])
    | Created =>
        let '(res2, calls2) := doUpload 1 in
        (finish res2, calls1 ++ [CreateBucket] ++ calls2)
    end
  else (finish res1, calls1).

End Upload.

(** A storage whose first upload is refused with "Bucket not found" and
    whose later uploads succeed. *)
Definition missing_bucket_once (attempt : nat) : upload_outcome :=
  match attempt with
  | O => UploadError (mkFailure (VStr "Bucket not found") (VNum (of_Z 400))
                                "StorageApiError: Bucket not found")
  | S _ => Uploaded
  end.

End Uploader.

(** Sample records for the properties of this part. *)

Module MoreRecords.

(** [{item:"dal", calories:"120"}] *)
Definition dal_120 : value :=
  VObj [("item", VStr "dal"); ("calories", VStr "120")].

(** [{type:"food", details:[{item:"dal", calories:"120"}]}] *)
Definition food_dal : value :=
  VObj [("type", VStr "food"); ("details", VArr [dal_120])].

(** Two rows of the [meals] table: 450 kcal on 2024-05-02 and 300 kcal
    on 2024-05-01. *)
Definition two_meals : list (value * Z * string) :=
  [(VObj [("total_calories", VNum (of_Z 450));
          ("created_at", VStr "2024-05-02")], 450%Z, "2024-05-02");
   (VObj [("total_calories", VNum (of_Z 300));
          ("created_at", VStr "2024-05-01")], 300%Z, "2024-05-01")].

(** The body of a request to [/log-analysis] whose analysis is the text
    [null]. *)
Definition request_null : value :=
  VObj [("userId", VStr "919900000000"); ("analysisResult", VStr "null")].

(** A normalised item of 120.4 kcal. *)
Definition bowl_of_dal : Extractor.FoodItem :=
  Extractor.mkFoodItem (VStr "dal") (of_Z 1) (VStr "bowl") (Fin (602 # 5))
    (Extractor.mkMacros (of_Z 7) (of_Z 3) (of_Z 18)) (VStr "") (VStr "vision")
    (Fin (4 # 5)) (Some []).

(** [{type:"food", details:[{item:{toString:1}}]}] *)
Definition food_unnamed : value :=
  VObj [("type", VStr "food");
        ("details",
         VArr [VObj [("item", VObj [("toString", VNum (of_Z 1))])]])].




(** The object built for the item [{item:"dal"}] from the looked-up
    detail [dal_120]. *)
Definition dal_enriched : value :=
  VObj [("item", VStr "dal");
        ("quantity", VNum zero);
        ("unit", VStr "");
        ("calories", VNum (of_Z 120));
        ("macros",
         VObj [("protein", VNum zero); ("fat", VNum zero);
               ("carbs", VNum zero)]);
        ("brand", VStr "");
        ("source", VStr "");
        ("confidence", VNum zero);
        ("assumptions", VArr [])].

(** A row of 450 kcal whose [log_details] give an object with a
    [toString] key as the protein total. *)
Definition meal_odd_protein : value * Z * string :=
  (VObj [("total_calories", VNum (of_Z 450));
         ("created_at", VStr "2024-05-02");
         ("log_details",
          VObj [("totals",
                 VObj [("protein", VObj [("toString", VNum (of_Z 1))])])])],
   450%Z, "2024-05-02").

(** [{item:"dal"}] *)
Definition item_dal : value := VObj [("item", VStr "dal")].



(** The body of a request to [/log-analysis] whose user id is the
    object [{toString:"1"}] and whose analysis is the text [null]. *)
Definition request_odd_user : value :=
  VObj [("userId", VObj [("toString", VStr "1")]);
        ("analysisResult", VStr "null")].

End MoreRecords.

(** * Part II: properties *)

(** ** Facts about strings *)

Module StrFacts.

Lemma append_assoc (a b c : string) :
  ((a ++ b) ++ c = a ++ (b ++ c))%string.
Proof. induction a as [|x a IH]; simpl; [reflexivity | now rewrite IH]. Qed.

Lemma append_nil_r (a : string) : (a ++ "" = a)%string.
Proof. induction a as [|x a IH]; simpl; [reflexivity | now rewrite IH]. Qed.

End StrFacts.

(** ** [StringToNumber] on sample literals *)

Module NumParseFacts.

Example Number_of_string_examples :
  Number_of_string "250" = of_Z 250 /\
  Number_of_string "" = zero /\
  Number_of_string "  12.5 " = Fin (25 # 2) /\
  Number_of_string "1e3" = of_Z 1000 /\
  Number_of_string "-2.5e-1" = Fin (-1 # 4) /\
  Number_of_string ".5" = Fin (1 # 2) /\
  Number_of_string "5." = of_Z 5 /\
  Number_of_string "0x1F" = of_Z 31 /\
  Number_of_string "Infinity" = PInf /\
  Number_of_string "250e" = NaN /\
  Number_of_string "." = NaN /\
  Number_of_string "--2" = NaN /\
  Number_of_string "abc" = NaN.
Proof. repeat split; vm_compute; reflexivity. Qed.

End NumParseFacts.

(** ** Facts about numbers *)

Module NumFacts.

Lemma Qlt_bool_iff (x y : Q) : Qlt_bool x y = true <-> (x < y)%Q.
Proof.
  unfold Qlt_bool. rewrite negb_true_iff. split; intro H.
  - apply Qnot_le_lt. intro Hle. apply Qle_bool_iff in Hle. congruence.
  - destruct (Qle_bool y x) eqn:E; [|reflexivity].
    apply Qle_bool_iff in E. exfalso. exact (Qlt_not_le _ _ H E).
Qed.

Lemma gt_zero_fin (q : Q) : gt (Fin q) zero = true <-> (0 < q)%Q.
Proof. unfold gt, zero, of_Z. apply Qlt_bool_iff. Qed.


Lemma add_finite (a b : number) :
  isFinite a = true -> isFinite b = true -> isFinite (add a b) = true.
Proof. destruct a, b; simpl; congruence. Qed.

(** [Math.round] of a positive finite number is a whole number >= 0. *)
Lemma Math_round_pos (q : Q) : (0 < q)%Q -> is_nat_valued (Math_round (Fin q)).
Proof.
  intro Hq. exists (Qfloor (q + (1 # 2))). split; [|reflexivity].
  change 0%Z with (Qfloor 0). apply Qfloor_resp_le.
  apply Qlt_le_weak in Hq.
  setoid_replace 0%Q with (0 + 0)%Q by ring.
  apply Qplus_le_compat; [exact Hq | discriminate].
Qed.

Lemma ge_refl_fin (q : Q) : ge (Fin q) (Fin q) = true.
Proof. simpl. apply Qle_bool_iff. apply Qle_refl. Qed.

Lemma ge_trans_fin (a b c : Q) :
  ge (Fin a) (Fin b) = true -> ge (Fin b) (Fin c) = true ->
  ge (Fin a) (Fin c) = true.
Proof.
  simpl. rewrite !Qle_bool_iff. intros H1 H2. eapply Qle_trans; eauto.
Qed.

Lemma max2_fin (a b : Q) :
  max2 (Fin a) (Fin b) = (if Qlt_bool a b then Fin b else Fin a).
Proof. reflexivity. Qed.

(** The running maximum of finite numbers, from a finite start. *)
Lemma fold_max2_fin (l : list number) (a : Q) :
  Forall (fun n => isFinite n = true) l ->
  exists m : Q,
    fold_left max2 l (Fin a) = Fin m /\
    (Fin m = Fin a \/ In (Fin m) l) /\
    ge (Fin m) (Fin a) = true /\
    Forall (fun n => ge (Fin m) n = true) l.
Proof.
  revert a. induction l as [|x l IH]; intros a Hall.
  - exists a. split; [reflexivity|]. split; [now left|].
    split; [apply ge_refl_fin | constructor].
  - inversion Hall as [|? ? Hx Hl]; subst.
    destruct x as [b| | |]; try discriminate.
    cbn [fold_left]. rewrite max2_fin.
    destruct (Qlt_bool a b) eqn:E.
    + destruct (IH b Hl) as (m & Hm & Hin & Hge & Hall').
      exists m. repeat split; auto.
      * destruct Hin as [->|Hin]; [right; left; reflexivity | right; right; exact Hin].
      * apply ge_trans_fin with b; [exact Hge|].
        simpl. apply Qle_bool_iff. apply Qlt_le_weak. now apply Qlt_bool_iff.
    + destruct (IH a Hl) as (m & Hm & Hin & Hge & Hall').
      exists m. repeat split; auto.
      * destruct Hin as [Hin|Hin]; [left; exact Hin | right; right; exact Hin].
      * constructor; [|exact Hall'].
        apply ge_trans_fin with a; [exact Hge|].
        simpl. apply Qle_bool_iff.
        unfold Qlt_bool in E. rewrite negb_false_iff in E.
        now apply Qle_bool_iff.
Qed.

(** [Math.max] of a non-empty list of finite numbers is one of them
    and is at least each of them. *)
Lemma Math_max_spec (l : list number) :
  l <> [] ->
  Forall (fun n => isFinite n = true) l ->
  exists m : Q,
    Math_max l = Fin m /\ In (Fin m) l /\
    Forall (fun n => ge (Fin m) n = true) l.
Proof.
  intros Hne Hall. destruct l as [|x l]; [congruence|].
  inversion Hall as [|? ? Hx Hl]; subst.
  destruct x as [a| | |]; try discriminate.
  unfold Math_max. cbn [fold_left].
  change (max2 NInf (Fin a)) with (Fin a).
  destruct (fold_max2_fin l a Hl) as (m & Hm & Hin & Hge & Hall').
  exists m. repeat split; auto.
  destruct Hin as [->|Hin]; [left; reflexivity | right; exact Hin].
Qed.

Lemma fin_eq (x y : Q) : (x == y)%Q -> fin x = fin y.
Proof. intro H. unfold fin. f_equal. now apply Qred_complete. Qed.

Lemma add_comm (a b : number) : add a b = add b a.
Proof.
  destruct a as [x| | |], b as [y| | |]; try reflexivity.
  unfold add. apply fin_eq. ring.
Qed.

Lemma add_assoc (a b c : number) : add (add a b) c = add a (add b c).
Proof.
  destruct a as [x| | |], b as [y| | |], c as [z| | |]; try reflexivity.
  unfold add, fin. f_equal. apply Qred_complete.
  rewrite !Qred_correct. ring.
Qed.

Lemma normal_zero : normal zero.
Proof. reflexivity. Qed.

Lemma normal_add (a b : number) : normal (add a b).
Proof.
  unfold normal. destruct a as [x| | |], b as [y| | |]; try reflexivity.
  unfold add, fin, zero, of_Z. f_equal. apply Qred_complete.
  rewrite !Qred_correct. ring.
Qed.

Section Sums.
Context {A : Type} (g : A -> number).

Lemma fold_left_add_from (l : list A) (s : number) :
  normal s ->
  fold_left (fun acc x => add acc (g x)) l s
  = add s (fold_right (fun x rest => add (g x) rest) zero l).
Proof.
  revert s. induction l as [|x l IH]; intros s Hs; simpl.
  - symmetry. exact Hs.
  - rewrite IH by apply normal_add. apply add_assoc.
Qed.

Lemma normal_fold_right (l : list A) :
  normal (fold_right (fun x rest => add (g x) rest) zero l).
Proof. destruct l; simpl; [apply normal_zero | apply normal_add]. Qed.

(** Summing from the left, as [reduce] and [+=] do, is the sum. *)
Lemma fold_left_add_sum (l : list A) :
  fold_left (fun acc x => add acc (g x)) l zero
  = fold_right (fun x rest => add (g x) rest) zero l.
Proof.
  rewrite fold_left_add_from by apply normal_zero.
  rewrite add_comm. apply normal_fold_right.
Qed.

End Sums.

End NumFacts.

(** ** CalorieResolver *)

Module CalorieResolverFacts.
Import Str CalorieResolver NumFacts.

Lemma truthy_not_nullish (v : value) : truthy v = true -> nullish v = false.
Proof. destruct v; simpl; congruence. Qed.

Lemma get_ok (v : value) (k : string) :
  nullish v = false -> get v k = Ok (prop v k).
Proof. unfold get. now intros ->. Qed.

Lemma num_cases (x : value) (def : number) :
  num x def = def \/ isFinite (num x def) = true.
Proof.
  destruct x as [| | b | n | s | xs | ps]; simpl; auto.
  - destruct (isFinite n) eqn:E; auto.
  - destruct (isFinite (Number_of_string (strip_non_numeric s))) eqn:E; auto.
Qed.

Lemma num_zero_finite (x : value) : isFinite (num x zero) = true.
Proof. destruct (num_cases x zero) as [-> | H]; [reflexivity | exact H]. Qed.

Lemma first_key_returns (it : value) (keys : list string) :
  nullish it = false ->
  exists r, first_key it keys = Ok r /\
            match r with Some v => isFinite v = true | None => True end.
Proof.
  intro Hit. induction keys as [|k keys IH]; simpl.
  - now exists None.
  - rewrite (get_ok _ k Hit). cbn [bind].
    destruct (nullish (prop it k)); [exact IH|].
    destruct (Num.truthy (num (prop it k) zero)); [|exact IH].
    exists (Some (num (prop it k) zero)). split; [reflexivity|].
    apply num_zero_finite.
Qed.

Lemma sum_step_returns (s : number) (it : value) :
  isFinite s = true ->
  exists s', sum_step s it = Ok s' /\ isFinite s' = true.
Proof.
  intro Hs. unfold sum_step.
  destruct (truthy it) eqn:Ht; cbn [negb orb]; [|eauto].
  destruct (typeof_object it); cbn [negb orb]; [|eauto].
  pose proof (truthy_not_nullish _ Ht) as Hn.
  destruct (first_key_returns it ["calories_burned"; "calories"] Hn)
    as (r & -> & Hr).
  cbn [bind]. destruct r as [v|].
  - eexists; split; [reflexivity|]. now apply add_finite.
  - rewrite (get_ok _ "calories_text" Hn). cbn [bind].
    destruct (truthy (prop it "calories_text")); [|eauto].
    destruct (Num.truthy (num (prop it "calories_text") zero)); [|eauto].
    eexists; split; [reflexivity|].
    apply add_finite; [exact Hs | apply num_zero_finite].
Qed.

Lemma foldM_sum_step_returns (xs : list value) (s : number) :
  isFinite s = true ->
  exists s', foldM sum_step xs s = Ok s' /\ isFinite s' = true.
Proof.
  revert s. induction xs as [|x xs IH]; intros s Hs; simpl.
  - eauto.
  - destruct (sum_step_returns s x Hs) as (s1 & -> & Hs1). cbn [bind].
    apply IH, Hs1.
Qed.

(** [trySumDetails] never throws and its sum is finite. *)
Lemma trySumDetails_returns (arr : value) :
  exists s, trySumDetails arr = Ok s /\ isFinite s = true.
Proof.
  destruct arr; simpl; try (exists zero; split; reflexivity).
  now apply foldM_sum_step_returns.
Qed.

Lemma push_if_present_returns (o : value) (k : string) (seen : list number) :
  nullish o = false -> all_finite seen ->
  exists seen',
    push_if_present o k seen = Ok seen' /\ all_finite seen' /\
    incl seen seen' /\
    (nullish (prop o k) = false -> In (num (prop o k) zero) seen').
Proof.
  intros Ho Hseen. unfold push_if_present. rewrite (get_ok _ k Ho). cbn [bind].
  eexists; split; [reflexivity|].
  destruct (nullish (prop o k)).
  - repeat split; [exact Hseen | apply incl_refl | discriminate].
  - repeat split.
    + apply Forall_app; split; [exact Hseen|].
      constructor; [apply num_zero_finite | constructor].
    + apply incl_appl, incl_refl.
    + intros _. apply in_or_app. right. now left.
Qed.

Lemma push_pair_returns (o : value) (k1 k2 : string) (seen : list number) :
  all_finite seen ->
  exists seen',
    (if truthy o
     then seen1 <- push_if_present o k1 seen ;; push_if_present o k2 seen1
     else Ok seen) = Ok seen' /\ all_finite seen' /\
    incl seen seen' /\
    (truthy o = true -> nullish (prop o k1) = false ->
     In (num (prop o k1) zero) seen') /\
    (truthy o = true -> nullish (prop o k2) = false ->
     In (num (prop o k2) zero) seen').
Proof.
  intro Hseen. destruct (truthy o) eqn:Ht.
  - pose proof (truthy_not_nullish _ Ht) as Hn.
    destruct (push_if_present_returns o k1 seen Hn Hseen)
      as (s1 & -> & H1 & I1 & M1).
    cbn [bind].
    destruct (push_if_present_returns o k2 s1 Hn H1)
      as (s2 & -> & H2 & I2 & M2).
    exists s2. repeat split; auto.
    eapply incl_tran; eauto.
  - exists seen. repeat split; auto using incl_refl; discriminate.
Qed.

Lemma guarded_get_returns (o : value) (k : string) :
  exists v, (if truthy o then get o k else Ok o) = Ok v.
Proof.
  destruct (truthy o) eqn:Ht; [|eauto].
  rewrite (get_ok _ k (truthy_not_nullish _ Ht)). eauto.
Qed.

Lemma push_if_positive_spec (sum : number) (seen : list number) :
  isFinite sum = true -> all_finite seen ->
  all_finite (push_if_positive sum seen) /\
  incl seen (push_if_positive sum seen) /\
  (gt sum zero = true -> In sum (push_if_positive sum seen)).
Proof.
  intros Hs Hseen. unfold push_if_positive.
  destruct (gt sum zero).
  - repeat split.
    + apply Forall_app; split; [exact Hseen | now repeat constructor].
    + apply incl_appl, incl_refl.
    + intros _. apply in_or_app. right. now left.
  - repeat split; [exact Hseen | apply incl_refl | discriminate].
Qed.

(** Steps 1 to 3 never throw on a value that is neither [null] nor
    [undefined]; every candidate they collect is finite; the coerced
    top-level totals and the sum over the top-level [details] are among
    the candidates when they are present. *)
Lemma collect_spec (analysis : value) :
  nullish analysis = false ->
  exists seen,
    collect analysis = Ok seen /\ all_finite seen /\
    (forall k,
        In k ["calories_burned"; "calories"] ->
        truthy (prop analysis "totals") = true ->
        nullish (prop (prop analysis "totals") k) = false ->
        In (num (prop (prop analysis "totals") k) zero) seen) /\
    (forall s, trySumDetails (prop analysis "details") = Ok s ->
               gt s zero = true -> In s seen).
Proof.
  intro Hn. unfold collect.
  rewrite (get_ok _ "totals" Hn). cbn [bind].
  destruct (push_pair_returns (prop analysis "totals")
              "calories_burned" "calories" [] (Forall_nil _))
    as (s1 & -> & H1 & _ & M0 & M1). cbn [bind].
  rewrite (get_ok _ "workout" Hn). cbn [bind].
  destruct (guarded_get_returns (prop analysis "workout") "totals")
    as (wt & ->). cbn [bind].
  destruct (push_pair_returns wt "calories_burned" "calories" s1 H1)
    as (s2 & -> & H2 & I2 & _). cbn [bind].
  rewrite (get_ok _ "food" Hn). cbn [bind].
  destruct (guarded_get_returns (prop analysis "food") "totals")
    as (ft & ->). cbn [bind].
  destruct (push_pair_returns ft "calories" "calories_burned" s2 H2)
    as (s3 & -> & H3 & I3 & _). cbn [bind].
  rewrite (get_ok _ "details" Hn). cbn [bind].
  destruct (trySumDetails_returns (prop analysis "details"))
    as (d1 & Ed1 & Hd1). rewrite Ed1. cbn [bind].
  destruct (guarded_get_returns (prop analysis "workout") "details")
    as (wd & ->). cbn [bind].
  destruct (trySumDetails_returns wd) as (d2 & -> & Hd2). cbn [bind].
  destruct (guarded_get_returns (prop analysis "food") "details")
    as (fd & ->). cbn [bind].
  destruct (trySumDetails_returns fd) as (d3 & -> & Hd3). cbn [bind].
  destruct (push_if_positive_spec d1 s3 Hd1 H3) as (F4 & I4 & M4).
  destruct (push_if_positive_spec d2 _ Hd2 F4) as (F5 & I5 & _).
  destruct (push_if_positive_spec d3 _ Hd3 F5) as (F6 & I6 & _).
  eexists; split; [reflexivity|]. split; [exact F6|]. split.
  - intros k Hk Ht Hc. apply I6, I5, I4, I3, I2.
    destruct Hk as [<- | [<- | []]]; [now apply M0 | now apply M1].
  - intros s Es Hs. injection Es as <-.
    apply I6, I5. now apply M4.
Qed.

Lemma positives_spec (seen : list number) (n : number) :
  In n (positives seen) <->
  In n seen /\ isFinite n = true /\ gt n zero = true.
Proof.
  unfold positives. rewrite filter_In, andb_true_iff. tauto.
Qed.

Lemma positives_finite (seen : list number) : all_finite (positives seen).
Proof.
  apply Forall_forall. intros n Hn. now apply positives_spec in Hn.
Qed.

(** The rounded maximum of a non-empty list of positive candidates is a
    whole number >= 0. *)
Lemma round_max_positives (seen : list number) :
  positives seen <> [] ->
  is_nat_valued (Math_round (Math_max (positives seen))).
Proof.
  intro Hne.
  destruct (Math_max_spec _ Hne (positives_finite seen)) as (m & -> & Hin & _).
  apply positives_spec in Hin. destruct Hin as (_ & _ & Hpos).
  apply Math_round_pos. now apply gt_zero_fin.
Qed.

Lemma last_resort_nat_valued (f : Q -> string) (analysis : value) (t : number) :
  last_resort f analysis = Some t -> is_nat_valued t.
Proof.
  unfold last_resort.
  destruct (JSON_stringify f analysis) as [json|]; [|discriminate].
  destruct (first_numeric_token _) as [m|]; [|discriminate].
  set (n := Number_of_chars (replace_first_comma m)).
  destruct (isFinite (Math_round n) && gt (Math_round n) zero) eqn:E;
    [|discriminate].
  intros [= <-]. apply andb_true_iff in E. destruct E as [Hf Hg].
  destruct n as [q| | |]; try discriminate.
  exists (Qfloor (q + (1 # 2))). split; [|reflexivity].
  unfold Math_round, of_Z in Hg. apply gt_zero_fin in Hg.
  change 0%Q with (inject_Z 0) in Hg. rewrite <- Zlt_Qlt in Hg. lia.
Qed.

End CalorieResolverFacts.

Module CalorieResolverClaims.
Import Str CalorieResolver NumFacts CalorieResolverFacts.



(** C2.  For every input value, [extractCaloriesFromAnalysis] returns,
    without throwing, a finite whole number that is at least 0; on
    the empty record it returns 0. *)
Theorem extractCalories_returns_natural (f : Q -> string) :
  (forall analysis : value,
      exists z : Z,
        (0 <= z)%Z /\ extractCaloriesFromAnalysis f analysis = Ok (of_Z z)) /\
  extractCaloriesFromAnalysis f (VObj []) = Ok zero.
Proof.
  split; [|reflexivity].
  intro analysis. unfold extractCaloriesFromAnalysis.
  destruct (truthy analysis) eqn:Ht; cbn [negb orb];
    [|exists 0%Z; split; [lia | reflexivity]].
  destruct (typeof_object analysis); cbn [negb orb];
    [|exists 0%Z; split; [lia | reflexivity]].
  destruct (collect_spec analysis (truthy_not_nullish _ Ht))
    as (seen & -> & _). cbn [bind].
  assert (Hfb : exists z : Z, (0 <= z)%Z /\
            match last_resort f analysis with
            | Some total => Ok total
            | None => Ok zero
            end = Ok (of_Z z)).
  { destruct (last_resort f analysis) as [t|] eqn:E.
    - destruct (last_resort_nat_valued f analysis t E) as (z & Hz & ->).
      now exists z.
    - exists 0%Z. split; [lia | reflexivity]. }
  destruct seen as [|n seen]; [exact Hfb|].
  destruct (positives (n :: seen)) as [|p ps] eqn:Ep; [exact Hfb|].
  rewrite <- Ep.
  destruct (round_max_positives (n :: seen)) as (z & Hz & ->).
  - rewrite Ep. discriminate.
  - now exists z.
Qed.

(** C1, as amended.  For every analysis record in which a positive
    top-level total ([totals.calories] or [totals.calories_burned]) and
    a positive sum over the top-level [details] are both present,
    [extractCaloriesFromAnalysis] returns the largest of the positive
    candidates rounded to the nearest whole number, not their sum: the
    two are among the positive candidates, the chosen candidate is one
    of them and is at least each of them.  On [{totals:{calories:450},
    details:[{calories:100},{calories:120}]}] it returns 450. *)
Theorem extractCalories_rounded_max (f : Q -> string) :
  (forall (analysis : value) (k : string) (s : number),
      truthy analysis = true ->
      typeof_object analysis = true ->
      In k ["calories_burned"; "calories"] ->
      truthy (prop analysis "totals") = true ->
      nullish (prop (prop analysis "totals") k) = false ->
      gt (num (prop (prop analysis "totals") k) zero) zero = true ->
      trySumDetails (prop analysis "details") = Ok s ->
      gt s zero = true ->
      exists (seen : list number) (m : Q),
        collect analysis = Ok seen /\
        In (num (prop (prop analysis "totals") k) zero) (positives seen) /\
        In s (positives seen) /\
        In (Fin m) (positives seen) /\
        Forall (fun n => ge (Fin m) n = true) (positives seen) /\
        extractCaloriesFromAnalysis f analysis = Ok (Math_round (Fin m))) /\
  extractCaloriesFromAnalysis f Records.totals_450_details_220
  = Ok (of_Z 450).
Proof.
  split; [|reflexivity].
  intros analysis k s Ht Hobj Hk Htot Hc Hcpos Hs Hspos.
  destruct (collect_spec analysis (truthy_not_nullish _ Ht))
    as (seen & Ecol & Hfin & Mc & Ms).
  assert (Hc_in : In (num (prop (prop analysis "totals") k) zero)
                     (positives seen)).
  { apply positives_spec. repeat split; auto using num_zero_finite. }
  assert (Hs_in : In s (positives seen)).
  { apply positives_spec. repeat split; auto.
    destruct (trySumDetails_returns (prop analysis "details"))
      as (s' & Es' & Hs'). congruence. }
  assert (Hne : positives seen <> []).
  { intro E. rewrite E in Hs_in. exact Hs_in. }
  destruct (Math_max_spec _ Hne (positives_finite seen))
    as (m & Em & Hm_in & Hm_ge).
  exists seen, m. repeat split; auto.
  unfold extractCaloriesFromAnalysis.
  rewrite Ht, Hobj, Ecol. cbn [negb orb bind].
  destruct seen as [|n seen]; [contradiction|].
  destruct (positives (n :: seen)) as [|p ps] eqn:Ep; [contradiction|].
  rewrite Em. reflexivity.
Qed.

(** The hypotheses of [extractCalories_rounded_max] hold of the record
    with total 450 and detail calories 100 and 120. *)
Lemma extractCalories_rounded_max_witness :
  exists (seen : list number) (m : Q),
    collect Records.totals_450_details_220 = Ok seen /\
    In (of_Z 450) (positives seen) /\
    In (of_Z 220) (positives seen) /\
    In (Fin m) (positives seen) /\
    Forall (fun n => ge (Fin m) n = true) (positives seen) /\
    extractCaloriesFromAnalysis Records.no_fraction_printer
      Records.totals_450_details_220 = Ok (Math_round (Fin m)).
Proof.
  apply (proj1 (extractCalories_rounded_max Records.no_fraction_printer)
           Records.totals_450_details_220 "calories" (of_Z 220));
    vm_compute; try reflexivity.
  right. left. reflexivity.
Defined.

(** C1, as stated, fails on a total that is not a whole number: the
    positive candidates of [{totals:{calories:450.6},
    details:[{calories:100},{calories:120}]}] are 450.6 and 220, their
    maximum is 450.6, and the resolver returns 451. *)
Lemma extractCalories_not_the_maximum :
  collect Records.totals_450_6_details_220
  = Ok [Fin (2253 # 5); of_Z 220] /\
  Math_max (positives [Fin (2253 # 5); of_Z 220]) = Fin (2253 # 5) /\
  extractCaloriesFromAnalysis Records.no_fraction_printer
    Records.totals_450_6_details_220 = Ok (of_Z 451) /\
  extractCaloriesFromAnalysis Records.no_fraction_printer
    Records.totals_450_6_details_220
  <> Ok (Math_max (positives [Fin (2253 # 5); of_Z 220])).
Proof.
  repeat split; try (vm_compute; reflexivity).
  vm_compute. discriminate.
Qed.

End CalorieResolverClaims.

(** ** ReplyComposer *)

Module CoercionFacts.
Import Str ReplyComposer.

Lemma unprintable_truthy (v : value) : unprintable v = true -> truthy v = true.
Proof. destruct v; cbn; try discriminate; reflexivity. Qed.

Lemma unprintable_nullish (v : value) :
  unprintable v = true -> nullish v = false.
Proof. destruct v; cbn; try discriminate; reflexivity. Qed.

Lemma unprintable_not_string (v : value) (lit : string) :
  unprintable v = true -> is_string v lit = false.
Proof. destruct v; cbn; try discriminate; reflexivity. Qed.

Lemma unprintable_or_else (v d : value) :
  unprintable d = false -> unprintable (or_else v d) = unprintable v.
Proof.
  intro Hd. unfold or_else. destruct (truthy v) eqn:E; [reflexivity|].
  destruct (unprintable v) eqn:U; [|exact Hd].
  apply unprintable_truthy in U. congruence.
Qed.

Lemma to_number_or_else (f : Q -> string) (v d : value) :
  unprintable d = false ->
  to_number f (or_else v d)
  = if unprintable v then Throw TypeError
    else Ok (ToNumber f (or_else v d)).
Proof. intro Hd. unfold to_number. now rewrite unprintable_or_else. Qed.

Lemma to_string_or_else (f : Q -> string) (v d : value) :
  unprintable d = false ->
  to_string f (or_else v d)
  = if unprintable v then Throw TypeError
    else Ok (ToString f (or_else v d)).
Proof. intro Hd. unfold to_string. now rewrite unprintable_or_else. Qed.

(** An array has a [length] that is not 0 unless it is empty. *)
Lemma length_truthy (xs : list value) :
  truthy (opt_get (VArr xs) "length")
  = match xs with [] => false | _ :: _ => true end.
Proof. destruct xs; reflexivity. Qed.

End CoercionFacts.

Module ReplyComposerFacts.
Import Str StrFacts ReplyComposer NumFacts CoercionFacts.

Section WithPrinter.

Variable f : Q -> string.

Lemma burned_step_cases (s : number) (d : value) :
  burned_step f s d
  = if nullish d || unprintable (opt_get d "calories_burned")
    then Throw TypeError
    else Ok (add s (or_zero (ToNumber f (prop d "calories_burned")))).
Proof.
  unfold burned_step, get, opt_get, to_number.
  destruct (nullish d); cbn [bind orb]; [reflexivity|].
  destruct (unprintable (prop d "calories_burned")); reflexivity.
Qed.

Lemma foldM_burned_cases (ds : list value) (s : number) :
  foldM (burned_step f) ds s
  = if forallb (fun d => negb (nullish d
                               || unprintable (opt_get d "calories_burned"))) ds
    then Ok (fold_left
               (fun acc d =>
                  add acc (or_zero (ToNumber f (prop d "calories_burned"))))
               ds s)
    else Throw TypeError.
Proof.
  revert s. induction ds as [|d ds IH]; intro s; [reflexivity|].
  cbn [foldM forallb fold_left]. rewrite burned_step_cases.
  destruct (nullish d || unprintable (opt_get d "calories_burned"));
    cbn [bind negb andb]; [reflexivity | apply IH].
Qed.

(** The line of a workout detail is built exactly when its fields
    convert; a [TypeError] is thrown otherwise. *)
Lemma workout_line_cases (d : value) :
  (printable_line d = true /\ exists l, workout_line f d = Ok l) \/
  (printable_line d = false /\ workout_line f d = Throw TypeError).
Proof.
  unfold workout_line, printable_line.
  rewrite !to_number_or_else by reflexivity.
  destruct (unprintable (opt_get d "duration_min"));
    cbn [bind negb andb]; [now right|].
  destruct (unprintable (opt_get d "calories_burned"));
    cbn [bind negb andb]; [now right|].
  unfold to_string.
  destruct (unprintable (opt_get d "intensity")) eqn:Ei; cbn [negb andb].
  { rewrite (unprintable_truthy _ Ei), (unprintable_not_string _ _ Ei).
    cbn [negb andb bind]. now right. }
  assert (Hi : exists s,
             (if truthy (opt_get d "intensity")
                 && negb (is_string (opt_get d "intensity") "unknown")
              then shown <- Ok (ToString f (opt_get d "intensity")) ;;
                   Ok (", " ++ shown)%string
              else Ok "") = Ok s).
  { destruct (_ && _); cbn [bind]; eauto. }
  destruct Hi as (si & ->). cbn [bind].
  destruct (unprintable (opt_get d "confidence")) eqn:Ec; cbn [negb andb].
  { rewrite (unprintable_nullish _ Ec). cbn [negb bind]. now right. }
  assert (Hc : exists s,
             (if negb (nullish (opt_get d "confidence"))
              then shown <- Ok (ToString f (opt_get d "confidence")) ;;
                   Ok (" (conf: " ++ shown ++ ")")%string
              else Ok "") = Ok s).
  { destruct (negb _); cbn [bind]; eauto. }
  destruct Hc as (sc & ->). cbn [bind].
  assert (Ha : (printable_assumptions (opt_get d "assumptions") = true /\
                exists s,
                  (if truthy (opt_get (opt_get d "assumptions") "length")
                   then match opt_get d "assumptions" with
                        | VArr xs =>
                            joined <- join_elements f xs "; " ;;
                            Ok (nl ++ "   assumptions: " ++ joined)%string
                        | _ => Throw TypeError
                        end
                   else Ok "") = Ok s) \/
               (printable_assumptions (opt_get d "assumptions") = false /\
                (if truthy (opt_get (opt_get d "assumptions") "length")
                 then match opt_get d "assumptions" with
                      | VArr xs =>
                          joined <- join_elements f xs "; " ;;
                          Ok (nl ++ "   assumptions: " ++ joined)%string
                      | _ => Throw TypeError
                      end
                 else Ok "") = Throw TypeError)).
  { destruct (opt_get d "assumptions") as [| |b|n|s|xs|ps] eqn:Ea;
      try (unfold printable_assumptions;
           destruct (truthy (opt_get _ "length"));
           cbn [negb]; [right | left]; split; eauto; fail).
    unfold printable_assumptions, join_elements. rewrite length_truthy.
    destruct xs as [|x xs]; [left; split; [reflexivity | eauto]|].
    destruct (unprintable (VArr (x :: xs))); cbn [negb bind];
      [right | left]; split; eauto. }
  destruct Ha as [[-> (sa & ->)] | [-> ->]]; cbn [bind andb]; [|now right].
  rewrite unprintable_or_else by reflexivity.
  destruct (unprintable (opt_get d "activity")); cbn [negb bind];
    [now right | left; split; eauto].
Qed.

Lemma mapM_workout_line_cases (ds : list value) :
  (forallb printable_line ds = true /\
   exists ls, mapM (workout_line f) ds = Ok ls) \/
  (forallb printable_line ds = false /\
   mapM (workout_line f) ds = Throw TypeError).
Proof.
  induction ds as [|d ds IH]; [left; split; [reflexivity | cbn; eauto]|].
  cbn [mapM forallb].
  destruct (workout_line_cases d) as [[-> (l & ->)] | [-> ->]];
    cbn [bind andb]; [|now right].
  destruct IH as [[-> (ls & ->)] | [-> ->]]; cbn [bind];
    [left; split; eauto | now right].
Qed.

Lemma printable_activity_alt (d : value) :
  printable_activity d
  = negb (nullish d || unprintable (opt_get d "calories_burned"))
    && printable_line d.
Proof.
  unfold printable_activity, printable_line.
  destruct (nullish d); [reflexivity|].
  destruct (unprintable (opt_get d "calories_burned")); [|reflexivity].
  cbn [negb andb orb]. now rewrite andb_false_r.
Qed.

Lemma printable_activity_split (ds : list value) :
  forallb printable_activity ds
  = forallb (fun d => negb (nullish d
                            || unprintable (opt_get d "calories_burned"))) ds
    && forallb printable_line ds.
Proof.
  induction ds as [|d ds IH]; [reflexivity|].
  cbn [forallb]. rewrite IH, printable_activity_alt.
  destruct (negb _), (printable_line d), (forallb _ ds), (forallb _ ds);
    reflexivity.
Qed.

(** The workout reply is produced exactly when every detail is
    printable, with the described total in its last line; a
    [TypeError] is thrown otherwise. *)
Lemma workout_reply_cases (ds : list value) :
  (forallb printable_activity ds = true /\
   exists lines : list string,
     workout_reply f ds
     = Ok ("Workout:" ++ nl ++ join nl lines ++ nl
             ++ "Total estimated calories: "
             ++ Number_toString f (Math_round (sum_calories_burned f ds))
             ++ ".")%string) \/
  (forallb printable_activity ds = false /\
   workout_reply f ds = Throw TypeError).
Proof.
  rewrite printable_activity_split. unfold workout_reply.
  rewrite foldM_burned_cases.
  destruct (forallb _ ds); cbn [bind andb]; [|now right].
  destruct (mapM_workout_line_cases ds) as [[-> (ls & ->)] | [-> ->]];
    cbn [bind]; [|now right].
  left. split; [reflexivity|]. exists ls.
  unfold sum_calories_burned.
  now rewrite (fold_left_add_sum
                 (fun d => or_zero (ToNumber f (prop d "calories_burned")))).
Qed.

(** The totals after one more item. *)
Lemma food_step_cases (t : food_totals) (ls : list string) (i : value) :
  (printable_item f i = true /\
   exists line : string,
     food_step f (t, ls) i
     = Ok (mkTotals
             (add (totalCalories t) (nearest_whole f (opt_get i "calories")))
             (add (totalProtein t)
                  (nearest_whole f (opt_get (opt_get i "macros") "protein")))
             (add (totalFat t)
                  (nearest_whole f (opt_get (opt_get i "macros") "fat")))
             (add (totalCarbs t)
                  (nearest_whole f (opt_get (opt_get i "macros") "carbs"))),
           ls ++ [line])) \/
  (printable_item f i = false /\ food_step f (t, ls) i = Throw TypeError).
Proof.
  unfold food_step, rounded_field, printable_item.
  rewrite !to_number_or_else by reflexivity.
  destruct (unprintable (opt_get i "quantity"));
    cbn [bind negb andb]; [now right|].
  destruct (unprintable (opt_get i "calories"));
    cbn [bind negb andb]; [now right|].
  destruct (unprintable (opt_get (opt_get i "macros") "protein"));
    cbn [bind negb andb]; [now right|].
  destruct (unprintable (opt_get (opt_get i "macros") "fat"));
    cbn [bind negb andb]; [now right|].
  destruct (unprintable (opt_get (opt_get i "macros") "carbs"));
    cbn [bind negb andb]; [now right|].
  assert (Hp : (Num.truthy (ToNumber f (or_else (opt_get i "quantity") (VNum zero)))
                && unprintable (opt_get i "unit") = false /\
                exists s,
                  (if Num.truthy (ToNumber f (or_else (opt_get i "quantity")
                                                      (VNum zero)))
                      && truthy (or_else (opt_get i "unit") (VStr ""))
                   then shown <- to_string f (or_else (opt_get i "unit")
                                                      (VStr "")) ;;
                        Ok (" (" ++ Number_toString f
                                      (ToNumber f (or_else (opt_get i "quantity")
                                                           (VNum zero)))
                              ++ " " ++ shown ++ ")")%string
                   else if Num.truthy (ToNumber f (or_else (opt_get i "quantity")
                                                           (VNum zero)))
                   then Ok (" (" ++ Number_toString f
                                      (ToNumber f (or_else (opt_get i "quantity")
                                                           (VNum zero)))
                              ++ ")")%string
                   else Ok "") = Ok s) \/
               (Num.truthy (ToNumber f (or_else (opt_get i "quantity") (VNum zero)))
                && unprintable (opt_get i "unit") = true /\
                (if Num.truthy (ToNumber f (or_else (opt_get i "quantity")
                                                    (VNum zero)))
                    && truthy (or_else (opt_get i "unit") (VStr ""))
                 then shown <- to_string f (or_else (opt_get i "unit")
                                                    (VStr "")) ;;
                      Ok (" (" ++ Number_toString f
                                    (ToNumber f (or_else (opt_get i "quantity")
                                                         (VNum zero)))
                            ++ " " ++ shown ++ ")")%string
                 else if Num.truthy (ToNumber f (or_else (opt_get i "quantity")
                                                         (VNum zero)))
                 then Ok (" (" ++ Number_toString f
                                    (ToNumber f (or_else (opt_get i "quantity")
                                                         (VNum zero)))
                            ++ ")")%string
                 else Ok "") = Throw TypeError)).
  { rewrite to_string_or_else by reflexivity.
    destruct (Num.truthy _); cbn [andb]; [|left; split; eauto].
    destruct (unprintable (opt_get i "unit")) eqn:Eu.
    - right. split; [reflexivity|].
      unfold or_else at 1. rewrite (unprintable_truthy _ Eu).
      now rewrite (unprintable_truthy _ Eu).
    - left. split; [reflexivity|].
      destruct (truthy (or_else (opt_get i "unit") (VStr ""))); cbn [bind]; eauto. }
  destruct Hp as [[-> (sp & ->)] | [-> ->]]; cbn [bind negb andb];
    [|now right].
  rewrite to_string_or_else by reflexivity.
  destruct (unprintable (opt_get i "item")); cbn [negb bind];
    [now right | left; split; eauto].
Qed.

Lemma foldM_food_step_cases (ds : list value) (t : food_totals)
      (ls : list string) :
  (forallb (printable_item f) ds = true /\
   exists ls' : list string,
     foldM (food_step f) ds (t, ls)
     = Ok (mkTotals
             (fold_left
                (fun acc i => add acc (nearest_whole f (opt_get i "calories")))
                ds (totalCalories t))
             (fold_left
                (fun acc i =>
                   add acc (nearest_whole f (opt_get (opt_get i "macros") "protein")))
                ds (totalProtein t))
             (fold_left
                (fun acc i =>
                   add acc (nearest_whole f (opt_get (opt_get i "macros") "fat")))
                ds (totalFat t))
             (fold_left
                (fun acc i =>
                   add acc (nearest_whole f (opt_get (opt_get i "macros") "carbs")))
                ds (totalCarbs t)),
           ls ++ ls')) \/
  (forallb (printable_item f) ds = false /\
   foldM (food_step f) ds (t, ls) = Throw TypeError).
Proof.
  revert t ls. induction ds as [|d ds IH]; intros t ls.
  - left. split; [reflexivity|]. exists []. destruct t. cbn.
    now rewrite app_nil_r.
  - cbn [foldM forallb fold_left].
    destruct (food_step_cases t ls d) as [[-> (l & ->)] | [-> ->]];
      cbn [bind andb]; [|now right].
    match goal with
    | |- context [foldM _ ds (?t', ?ls')] =>
        destruct (IH t' ls') as [[-> (ls2 & ->)] | [-> ->]]
    end; [left | now right].
    split; [reflexivity|]. exists (l :: ls2).
    cbn [totalCalories totalProtein totalFat totalCarbs].
    now rewrite <- app_assoc.
Qed.

(** The food reply is produced exactly when every item is printable,
    with the described totals in its summary; a [TypeError] is thrown
    otherwise. *)
Lemma food_reply_cases (ds : list value) :
  (forallb (printable_item f) ds = true /\
   exists lines_part : string,
     food_reply f ds
     = Ok ("Food:" ++ nl ++ lines_part
             ++ food_summary f (described_food_totals f ds)
             ++ reference)%string) \/
  (forallb (printable_item f) ds = false /\
   food_reply f ds = Throw TypeError).
Proof.
  unfold food_reply.
  destruct (foldM_food_step_cases ds no_totals [])
    as [[-> (ls & ->)] | [-> ->]]; cbn [bind]; [left | now right].
  split; [reflexivity|].
  unfold described_food_totals, sum_rounded, no_totals.
  cbn [totalCalories totalProtein totalFat totalCarbs app].
  rewrite !fold_left_add_sum.
  destruct ls as [|l ls].
  - now exists "".
  - exists (join nl (l :: ls) ++ nl)%string.
    now rewrite !append_assoc.
Qed.

(** The summary line, spelled out. *)
Lemma food_summary_described (ds : list value) :
  food_summary f (described_food_totals f ds)
  = ("Totals — Calories: "
       ++ Number_toString f (sum_rounded f (fun i => opt_get i "calories") ds)
       ++ ", Protein: "
       ++ Number_toString f
            (sum_rounded f (fun i => opt_get (opt_get i "macros") "protein") ds)
       ++ "g, Fat: "
       ++ Number_toString f
            (sum_rounded f (fun i => opt_get (opt_get i "macros") "fat") ds)
       ++ "g, Carbs: "
       ++ Number_toString f
            (sum_rounded f (fun i => opt_get (opt_get i "macros") "carbs") ds)
       ++ "g")%string.
Proof. reflexivity. Qed.

(** A record with a type is truthy and its type is a string that is
    not empty when it is "workout". *)
Lemma workout_type_truthy (analysis : value) :
  is_string (prop analysis "type") "workout" = true ->
  truthy (prop analysis "type") = true.
Proof.
  destruct (prop analysis "type"); try discriminate.
  destruct s; [discriminate | reflexivity].
Qed.

(** The composer on a record with a type: the reply of its branch. *)
Lemma buildReply_typed (analysis : value) :
  truthy analysis = true ->
  truthy (prop analysis "type") = true ->
  buildReplyForAnalysis f analysis
  = if is_string (prop analysis "type") "workout"
    then workout_reply f (details_of analysis)
    else food_reply f (details_of analysis).
Proof. intros Ha Ht. unfold buildReplyForAnalysis. now rewrite Ha, Ht. Qed.

Lemma workout_reply_not_apology (ds : list value) :
  workout_reply f ds <> Ok apology.
Proof.
  destruct (workout_reply_cases ds) as [[_ (ls & ->)] | [_ ->]];
    discriminate.
Qed.

Lemma food_reply_not_apology (ds : list value) :
  food_reply f ds <> Ok apology.
Proof.
  destruct (food_reply_cases ds) as [[_ (ls & ->)] | [_ ->]];
    discriminate.
Qed.

End WithPrinter.

End ReplyComposerFacts.

Module ReplyComposerClaims.
Import Str StrFacts ReplyComposer NumFacts ReplyComposerFacts.

(** C6, as amended.  [buildReplyForAnalysis] returns the fixed apology
    string for every input that is [null] or otherwise falsy and for
    every input whose [type] is absent or falsy, and for no other
    input: an input with any [type], recognised or not, is not answered
    with the apology. *)
Theorem buildReply_apology_only_without_type (f : Q -> string) (analysis : value) :
  buildReplyForAnalysis f analysis = Ok apology <->
  (truthy analysis = false \/ truthy (prop analysis "type") = false).
Proof.
  split.
  - intro H.
    destruct (truthy analysis) eqn:Ha; [|now left].
    destruct (truthy (prop analysis "type")) eqn:Ht; [|now right].
    exfalso. rewrite (buildReply_typed f analysis Ha Ht) in H.
    destruct (is_string _ _).
    + exact (workout_reply_not_apology f _ H).
    + exact (food_reply_not_apology f _ H).
  - unfold buildReplyForAnalysis. intros [-> | H]; [reflexivity|].
    rewrite H. now destruct (truthy analysis).
Qed.

(** [buildReply_apology_only_without_type] at [null], which gets the
    apology, and at [{type:"sleep"}], which does not. *)
Lemma buildReply_apology_only_without_type_witness :
  buildReplyForAnalysis Records.no_fraction_printer VNull = Ok apology /\
  buildReplyForAnalysis Records.no_fraction_printer Records.typed_sleep
  <> Ok apology.
Proof.
  split.
  - apply (proj2 (buildReply_apology_only_without_type
                    Records.no_fraction_printer VNull)).
    left. reflexivity.
  - intro H.
    apply (proj1 (buildReply_apology_only_without_type
                    Records.no_fraction_printer Records.typed_sleep)) in H.
    destruct H as [H | H]; vm_compute in H; discriminate H.
Defined.

(** C6, as stated, fails on an unrecognised type: [{type:"sleep"}] is
    answered with the food reply. *)
Lemma buildReply_unrecognised_type_is_food :
  buildReplyForAnalysis Records.no_fraction_printer Records.typed_sleep
  = Ok ("Food:" ++ nl
          ++ "Totals — Calories: 0, Protein: 0g, Fat: 0g, Carbs: 0g"
          ++ reference)%string /\
  buildReplyForAnalysis Records.no_fraction_printer Records.typed_sleep
  <> Ok apology.
Proof. split; [vm_compute; reflexivity | vm_compute; discriminate]. Qed.

(** C10.  The reply is a function of the record's [type] and [details]
    alone, so the [totals] object is never read.  Every workout reply
    ends with the rounded sum of the detail-level [calories_burned],
    and one is produced whenever every detail is printable.  Every food
    reply shows, after its lines, the sums of the calories and of the
    three macros of the items, each value rounded to the nearest whole
    number before it is added, and one is produced whenever every item
    is printable.  With a populated [totals] and an empty [details]
    every total shown is 0. *)
Theorem buildReply_totals_from_details (f : Q -> string) :
  (forall ps ps' : list (string * value),
      lookup "type" ps = lookup "type" ps' ->
      lookup "details" ps = lookup "details" ps' ->
      buildReplyForAnalysis f (VObj ps) = buildReplyForAnalysis f (VObj ps')) /\
  (forall analysis : value,
      truthy analysis = true ->
      is_string (prop analysis "type") "workout" = true ->
      (forall reply : string,
          buildReplyForAnalysis f analysis = Ok reply ->
          exists lines : list string,
            reply = ("Workout:" ++ nl ++ join nl lines ++ nl
                       ++ "Total estimated calories: "
                       ++ Number_toString f
                            (Math_round
                               (sum_calories_burned f (details_of analysis)))
                       ++ ".")%string) /\
      (forallb printable_activity (details_of analysis) = true ->
       returns (buildReplyForAnalysis f analysis))) /\
  (forall analysis : value,
      truthy analysis = true ->
      truthy (prop analysis "type") = true ->
      is_string (prop analysis "type") "workout" = false ->
      (forall reply : string,
          buildReplyForAnalysis f analysis = Ok reply ->
          exists lines_part : string,
            reply
            = ("Food:" ++ nl ++ lines_part
                 ++ "Totals — Calories: "
                 ++ Number_toString f
                      (sum_rounded f (fun i => opt_get i "calories")
                         (details_of analysis))
                 ++ ", Protein: "
                 ++ Number_toString f
                      (sum_rounded f
                         (fun i => opt_get (opt_get i "macros") "protein")
                         (details_of analysis))
                 ++ "g, Fat: "
                 ++ Number_toString f
                      (sum_rounded f
                         (fun i => opt_get (opt_get i "macros") "fat")
                         (details_of analysis))
                 ++ "g, Carbs: "
                 ++ Number_toString f
                      (sum_rounded f
                         (fun i => opt_get (opt_get i "macros") "carbs")
                         (details_of analysis))
                 ++ "g" ++ reference)%string) /\
      (forallb (printable_item f) (details_of analysis) = true ->
       returns (buildReplyForAnalysis f analysis))) /\
  (forall totals : value,
      buildReplyForAnalysis f
        (VObj [("type", VStr "workout"); ("details", VArr []); ("totals", totals)])
      = Ok ("Workout:" ++ nl ++ nl ++ "Total estimated calories: 0.")%string /\
      buildReplyForAnalysis f
        (VObj [("type", VStr "food"); ("details", VArr []); ("totals", totals)])
      = Ok ("Food:" ++ nl
              ++ "Totals — Calories: 0, Protein: 0g, Fat: 0g, Carbs: 0g"
              ++ reference)%string).
Proof.
  split; [|split; [|split]].
  - intros ps ps' Hty Hd. unfold buildReplyForAnalysis, details_of.
    cbn [prop truthy negb orb]. now rewrite Hty, Hd.
  - intros analysis Ht Hw.
    rewrite (buildReply_typed f analysis Ht (workout_type_truthy _ Hw)), Hw.
    destruct (workout_reply_cases f (details_of analysis))
      as [[Hp (ls & E)] | [Hp E]]; rewrite E, Hp.
    + split; [intros reply [= <-]; now exists ls|].
      intros _. eexists. reflexivity.
    + split; [discriminate | discriminate].
  - intros analysis Ht Hty Hw.
    rewrite (buildReply_typed f analysis Ht Hty), Hw.
    destruct (food_reply_cases f (details_of analysis))
      as [[Hp (lp & E)] | [Hp E]];
      [rewrite food_summary_described, !append_assoc in E|];
      rewrite E, Hp.
    + split; [|intros _; eexists; reflexivity].
      intros reply H. exists lp. congruence.
    + split; [discriminate | discriminate].
  - intro totals. split; reflexivity.
Qed.

(** [buildReply_totals_from_details] on two records whose [totals] say
    999: a food record whose two items, of 100.5 and 120.5 calories,
    round to 101 and 121 and add up to 222, and a workout whose details
    add up to 312.5. *)
Lemma buildReply_totals_from_details_witness :
  (exists lines_part : string,
      ("Food:" ++ nl
         ++ "• dal — 101 kcal, P:0g, F:0g, C:0g" ++ nl
         ++ "• rice — 121 kcal, P:3g, F:0g, C:0g" ++ nl
         ++ "Totals — Calories: 222, Protein: 3g, Fat: 0g, Carbs: 0g"
         ++ reference)%string
      = ("Food:" ++ nl ++ lines_part
           ++ "Totals — Calories: "
           ++ Number_toString Records.no_fraction_printer
                (sum_rounded Records.no_fraction_printer
                   (fun i => opt_get i "calories")
                   (details_of Records.food_halves))
           ++ ", Protein: "
           ++ Number_toString Records.no_fraction_printer
                (sum_rounded Records.no_fraction_printer
                   (fun i => opt_get (opt_get i "macros") "protein")
                   (details_of Records.food_halves))
           ++ "g, Fat: "
           ++ Number_toString Records.no_fraction_printer
                (sum_rounded Records.no_fraction_printer
                   (fun i => opt_get (opt_get i "macros") "fat")
                   (details_of Records.food_halves))
           ++ "g, Carbs: "
           ++ Number_toString Records.no_fraction_printer
                (sum_rounded Records.no_fraction_printer
                   (fun i => opt_get (opt_get i "macros") "carbs")
                   (details_of Records.food_halves))
           ++ "g" ++ reference)%string) /\
  (exists lines : list string,
      ("Workout:" ++ nl ++ "• run — 0 min ≈ 301 kcal" ++ nl
         ++ "• Activity — 0 min ≈ 12 kcal" ++ nl
         ++ "Total estimated calories: 313.")%string
      = ("Workout:" ++ nl ++ join nl lines ++ nl
           ++ "Total estimated calories: "
           ++ Number_toString Records.no_fraction_printer
                (Math_round
                   (sum_calories_burned Records.no_fraction_printer
                      (details_of Records.workout_run)))
           ++ ".")%string).
Proof.
  split.
  - apply (proj1 (proj1 (proj2 (proj2 (buildReply_totals_from_details
                                         Records.no_fraction_printer)))
                    Records.food_halves eq_refl eq_refl eq_refl)).
    vm_compute. reflexivity.
  - apply (proj1 (proj1 (proj2 (buildReply_totals_from_details
                                  Records.no_fraction_printer))
                    Records.workout_run eq_refl eq_refl)).
    vm_compute. reflexivity.
Defined.

End ReplyComposerClaims.


(** ** Extractor *)

Module ExtractorFacts.
Import Str Extractor NumFacts.

Lemma or_zero_not_NaN (n : number) : isNaN (or_zero n) = false.
Proof. destruct n; reflexivity || (unfold or_zero; simpl; now destruct (negb _)). Qed.

Lemma or_zero_kept (n : number) : Num.truthy n = true -> or_zero n = n.
Proof. unfold or_zero. now intros ->. Qed.

Lemma or_zero_unit (q : Q) :
  (0 <= q)%Q -> (q <= 1)%Q -> in_unit_interval (or_zero (Fin q)).
Proof.
  intros H0 H1. unfold or_zero. destruct (Num.truthy (Fin q)).
  - now exists q.
  - exists 0%Q. repeat split; discriminate.
Qed.

Lemma clamp_unit (n : number) :
  in_unit_interval (or_zero (max2 zero (min2 (of_Z 1) n))).
Proof.
  destruct n as [q| | |].
  - unfold min2, of_Z, gt.
    destruct (Qlt_bool q (inject_Z 1)) eqn:E1.
    + unfold max2, zero, of_Z, gt.
      destruct (Qlt_bool (inject_Z 0) q) eqn:E0.
      * apply or_zero_unit; apply Qlt_le_weak; now apply Qlt_bool_iff.
      * apply or_zero_unit; discriminate.
    + apply or_zero_unit; discriminate.
  - exists 0%Q. repeat split; discriminate.
  - apply or_zero_unit; discriminate.
  - apply or_zero_unit; discriminate.
Qed.

Section WithPrinter.

Variable f : Q -> string.

Lemma number_or_zero_not_NaN (v : value) : isNaN (number_or_zero f v) = false.
Proof. apply or_zero_not_NaN. Qed.

Lemma number_or_zero_absent (v : value) :
  nullish v = true -> number_or_zero f v = zero.
Proof. unfold number_or_zero, coalesce. now intros ->. Qed.

Lemma number_or_zero_invalid (v : value) :
  isNaN (ToNumber f v) = true -> number_or_zero f v = zero.
Proof.
  unfold number_or_zero, coalesce. destruct (nullish v); [reflexivity|].
  destruct (ToNumber f v); now try discriminate.
Qed.

Lemma number_or_zero_kept (v : value) :
  nullish v = false -> Num.truthy (ToNumber f v) = true ->
  number_or_zero f v = ToNumber f v.
Proof.
  unfold number_or_zero, coalesce. intros ->. apply or_zero_kept.
Qed.

Lemma clamp_confidence_unit (v : value) :
  in_unit_interval (clamp_confidence f v).
Proof. apply clamp_unit. Qed.

Lemma clamp_confidence_absent (v : value) :
  nullish v = true \/ isNaN (ToNumber f v) = true ->
  clamp_confidence f v = zero.
Proof.
  unfold clamp_confidence, coalesce. intros [-> | H]; [reflexivity|].
  destruct (nullish v); [reflexivity|].
  destruct (ToNumber f v); now try discriminate.
Qed.

Lemma read_macros_not_NaN (d : value) :
  isNaN (protein (read_macros f d)) = false /\
  isNaN (fat (read_macros f d)) = false /\
  isNaN (carbs (read_macros f d)) = false.
Proof. repeat split; apply number_or_zero_not_NaN. Qed.

Lemma well_coerced_intro (d : value) (it : FoodItem) :
  quantity it = number_or_zero f (opt_get d "quantity") ->
  calories it = number_or_zero f (opt_get d "calories") ->
  macros it = read_macros f d ->
  confidence it = clamp_confidence f (opt_get d "confidence") ->
  well_coerced f d it.
Proof.
  intros Hq Hc Hm Hconf. unfold well_coerced, numeric_fields.
  rewrite Hq, Hc, Hm, Hconf. repeat split.
  - destruct (read_macros_not_NaN d) as (Hp & Hf & Hcb).
    repeat constructor; auto using number_or_zero_not_NaN.
  - apply clamp_confidence_unit.
Qed.

End WithPrinter.

End ExtractorFacts.

Module ExtractorClaims.
Import Str Extractor NumFacts ExtractorFacts.

(** C5, as amended.  On the text, image and vision paths every numeric
    field of a normalised item (quantity, calories, macros.protein,
    macros.fat, macros.carbs) is [Number(field ?? 0) || 0]: it is
    never [NaN], it is 0 when the input is absent or does not convert
    to a number, and any other input number is kept as it is, whatever
    its sign or size.  Confidence is a finite number in [0,1], 0 when
    the input is absent or invalid. *)
Theorem normalized_fields_never_NaN (f : Q -> string) :
  (forall d : value,
      well_coerced f d (normalize_text_detail f d) /\
      well_coerced f d (normalize_image_detail f d) /\
      well_coerced f d (normalize_vision_detail f d)) /\
  (forall v : value,
      isNaN (number_or_zero f v) = false /\
      in_unit_interval (clamp_confidence f v)) /\
  (forall v : value,
      nullish v = true \/ isNaN (ToNumber f v) = true ->
      number_or_zero f v = zero /\ clamp_confidence f v = zero) /\
  (forall v : value,
      nullish v = false -> Num.truthy (ToNumber f v) = true ->
      number_or_zero f v = ToNumber f v).
Proof.
  split; [|split; [|split]].
  - intro d. split; [|split]; now apply well_coerced_intro.
  - intro v. split;
      [apply number_or_zero_not_NaN | apply clamp_confidence_unit].
  - intros v H. split; [|now apply clamp_confidence_absent].
    destruct H as [H | H];
      [now apply number_or_zero_absent | now apply number_or_zero_invalid].
  - intros v. apply number_or_zero_kept.
Qed.

(** The defaulting and the keeping cases of
    [normalized_fields_never_NaN] on [{quantity:-5, calories:"abc",
    confidence:7}]: calories becomes 0, quantity stays -5. *)
Lemma normalized_fields_never_NaN_witness :
  (number_or_zero Records.no_fraction_printer (VStr "abc") = zero /\
   clamp_confidence Records.no_fraction_printer (VStr "abc") = zero) /\
  number_or_zero Records.no_fraction_printer (VNum (of_Z (-5))) = of_Z (-5).
Proof.
  split.
  - apply (proj1 (proj2 (proj2 (normalized_fields_never_NaN
                                  Records.no_fraction_printer)))).
    right. reflexivity.
  - apply (proj2 (proj2 (proj2 (normalized_fields_never_NaN
                                  Records.no_fraction_printer)))
             (VNum (of_Z (-5)))); reflexivity.
Defined.

(** C5, as stated, fails: a negative quantity and an infinite calorie
    value pass through the normalisation unchanged. *)
Lemma normalized_quantity_negative :
  quantity (normalize_text_detail Records.no_fraction_printer
              Records.negative_quantity) = of_Z (-5) /\
  quantity (normalize_image_detail Records.no_fraction_printer
              Records.negative_quantity) = of_Z (-5) /\
  quantity (normalize_vision_detail Records.no_fraction_printer
              Records.negative_quantity) = of_Z (-5) /\
  ge (of_Z (-5)) zero = false /\
  calories (normalize_text_detail Records.no_fraction_printer
              (VObj [("calories", VNum PInf)])) = PInf.
Proof. repeat split. Qed.

End ExtractorClaims.

(** ** Reconciler *)

Module ReconcilerFacts.
Import Str Extractor Reconciler.



Lemma is_empty_false (s : string) : is_empty s = false <-> s <> "".
Proof. destruct s; simpl; split; congruence. Qed.



Section WithPrinter.

Variable f : Q -> string.















End WithPrinter.

End ReconcilerFacts.

Module ReconcilerClaims.
Import Str Extractor Reconciler ReconcilerFacts.




End ReconcilerClaims.

(** ** MediaFetcher *)

Module MediaFetcherFacts.
Import MediaFetcher.

Section Loop.

Variable net : network.
Variable maxRetries baseDelay : Z.
Variable u : string.
Variable ty : option string.

Let loop := download_loop net maxRetries baseDelay u ty.
Let delay_after (attempt : Z) : Z := baseDelay * 2 ^ (attempt + 1).

(** The loop is left once [fuel] exceeds the attempts that remain. *)
Lemma download_loop_terminates (fuel : nat) :
  forall (attempt : Z) (trace : list event),
    (Z.to_nat (maxRetries + 1 - attempt) < fuel)%nat ->
    exists r, loop fuel attempt trace = Some r.
Proof.
  induction fuel as [|fuel IH]; intros attempt trace Hfuel; [lia|].
  unfold loop in *. cbn [download_loop].
  destruct (attempt <=? maxRetries)%Z eqn:E; [|eauto].
  apply Z.leb_le in E.
  assert (Hnext : exists r,
             download_loop net maxRetries baseDelay u ty fuel (attempt + 1)
               ((trace ++ [Download u (0 <? attempt)%Z])
                  ++ [Sleep (baseDelay * 2 ^ (attempt + 1))]) = Some r).
  { apply IH. lia. }
  destruct (download net attempt u (0 <? attempt)%Z) as [status data|err];
    [|exact Hnext].
  destruct (is_success status); [eauto | exact Hnext].
Qed.

(** When every remaining attempt fails, the loop ends in
    [MediaUnavailable] after having tried each of them. *)
Lemma download_loop_all_fail (n : nat) :
  forall (fuel : nat) (attempt : Z) (trace : list event),
    (n < fuel)%nat ->
    n = Z.to_nat (maxRetries + 1 - attempt) ->
    (forall k, attempt <= k <= maxRetries ->
               fails (download net k u (0 <? k)%Z)) ->
    loop fuel attempt trace
    = Some (Throw MediaUnavailable,
            trace ++ failed_rounds u delay_after attempt n).
Proof.
  induction n as [|n IH]; intros fuel attempt trace Hfuel Hn Hfail;
    (destruct fuel as [|fuel]; [lia|]); unfold loop in *;
    cbn [download_loop failed_rounds].
  - assert (E : (attempt <=? maxRetries)%Z = false)
      by (apply Z.leb_gt; lia).
    rewrite E, app_nil_r. reflexivity.
  - assert (E : (attempt <=? maxRetries)%Z = true)
      by (apply Z.leb_le; lia).
    rewrite E.
    assert (Hnext :
              download_loop net maxRetries baseDelay u ty fuel (attempt + 1)
                ((trace ++ [Download u (0 <? attempt)%Z])
                   ++ [Sleep (baseDelay * 2 ^ (attempt + 1))])
              = Some (Throw MediaUnavailable,
                      trace ++ Download u (0 <? attempt)%Z
                        :: Sleep (delay_after attempt)
                        :: failed_rounds u delay_after (attempt + 1) n)).
    { rewrite IH; [| lia | lia | intros k Hk; apply Hfail; lia].
      rewrite <- !app_assoc. reflexivity. }
    specialize (Hfail attempt ltac:(lia)).
    destruct (download net attempt u (0 <? attempt)%Z) as [status data|err];
      [|exact Hnext].
    cbn [fails] in Hfail. rewrite Hfail. exact Hnext.
Qed.

(** When the attempts before number [attempt + n] fail and that one
    succeeds, its bytes are returned. *)
Lemma download_loop_first_success (n : nat) :
  forall (fuel : nat) (attempt : Z) (trace : list event)
         (status : Z) (data : bytes),
    (n < fuel)%nat ->
    attempt + Z.of_nat n <= maxRetries ->
    (forall k, attempt <= k < attempt + Z.of_nat n ->
               fails (download net k u (0 <? k)%Z)) ->
    download net (attempt + Z.of_nat n) u (0 <? attempt + Z.of_nat n)%Z
    = Response status data ->
    is_success status = true ->
    loop fuel attempt trace
    = Some (Ok (mkMedia data (or_default ty "application/octet-stream")),
            trace ++ failed_rounds u delay_after attempt n
              ++ [Download u (0 <? attempt + Z.of_nat n)%Z]).
Proof.
  induction n as [|n IH];
    intros fuel attempt trace status data Hfuel Hle Hfail Hresp Hok;
    (destruct fuel as [|fuel]; [lia|]); unfold loop in *;
    cbn [download_loop failed_rounds].
  - replace (attempt + Z.of_nat 0) with attempt in * by lia.
    assert (E : (attempt <=? maxRetries)%Z = true)
      by (apply Z.leb_le; lia).
    rewrite E, Hresp, Hok. reflexivity.
  - assert (E : (attempt <=? maxRetries)%Z = true)
      by (apply Z.leb_le; lia).
    rewrite E.
    replace (attempt + Z.of_nat (S n)) with (attempt + 1 + Z.of_nat n)
      in * by lia.
    assert (Hnext :
              download_loop net maxRetries baseDelay u ty fuel (attempt + 1)
                ((trace ++ [Download u (0 <? attempt)%Z])
                   ++ [Sleep (baseDelay * 2 ^ (attempt + 1))])
              = Some (Ok (mkMedia data
                            (or_default ty "application/octet-stream")),
                      trace ++ (Download u (0 <? attempt)%Z
                        :: Sleep (delay_after attempt)
                        :: failed_rounds u delay_after (attempt + 1) n)
                        ++ [Download u (0 <? attempt + 1 + Z.of_nat n)%Z])).
    { rewrite (IH fuel (attempt + 1) _ status data);
        [| lia | lia | intros k Hk; apply Hfail; lia | exact Hresp | exact Hok].
      rewrite <- !app_assoc. reflexivity. }
    specialize (Hfail attempt ltac:(lia)).
    destruct (download net attempt u (0 <? attempt)%Z) as [st dt|err];
      [|exact Hnext].
    cbn [fails] in Hfail. rewrite Hfail. exact Hnext.
Qed.

End Loop.

End MediaFetcherFacts.

Module MediaFetcherClaims.
Import MediaFetcher MediaFetcherFacts.

(** C4, as amended.  Once the media object has given a URL, the
    download of attempt 0 is sent without the bearer credential and
    that of every attempt numbered 1 or higher with it; the delay
    slept after the failed attempt numbered [attempt] is
    [base * 2^(attempt + 1)], the counter being incremented before the
    delay is computed (base 300 ms by default); the call always comes
    to an end; the first successful attempt returns its bytes; and
    after 1 + maxRetries failed attempts (maxRetries 3 by default) the
    fetch fails with [MediaUnavailable]. *)
Theorem fetch_escalates_then_gives_up
        (net : network) (mediaId u : string) (ty : option string)
        (opts : options) (fuel : nat) :
  let maxRetries := match opt_maxRetries opts with Some n => n | None => 3 end in
  let baseDelay := match opt_retryDelayMs opts with Some n => n | None => 300 end in
  let delay_after := fun attempt : Z => baseDelay * 2 ^ (attempt + 1) in
  lookup_media net mediaId = Ok (mkMediaObject (Some u) ty) ->
  Str.is_empty u = false ->
  (Z.to_nat (maxRetries + 1) < fuel)%nat ->
  (exists r, fetchMetaMediaBytes net fuel mediaId opts = Some r) /\
  ((forall k, 0 <= k <= maxRetries -> fails (download net k u (0 <? k)%Z)) ->
   fetchMetaMediaBytes net fuel mediaId opts
   = Some (Throw MediaUnavailable,
           Lookup mediaId
             :: failed_rounds u delay_after 0 (Z.to_nat (maxRetries + 1)))) /\
  (forall (n : nat) (status : Z) (data : bytes),
      Z.of_nat n <= maxRetries ->
      (forall k, 0 <= k < Z.of_nat n -> fails (download net k u (0 <? k)%Z)) ->
      download net (Z.of_nat n) u (0 <? Z.of_nat n)%Z = Response status data ->
      is_success status = true ->
      fetchMetaMediaBytes net fuel mediaId opts
      = Some (Ok (mkMedia data (or_default ty "application/octet-stream")),
              Lookup mediaId
                :: failed_rounds u delay_after 0 n
                ++ [Download u (0 <? Z.of_nat n)%Z])) /\
  (forall (attempt : Z) (n : nat),
      failed_rounds u delay_after attempt (S n)
      = Download u (0 <? attempt)%Z
          :: Sleep (baseDelay * 2 ^ (attempt + 1))
          :: failed_rounds u delay_after (attempt + 1) n) /\
  (forall attempt : Z, (0 <? attempt)%Z = true <-> 1 <= attempt).
Proof.
  intros maxRetries baseDelay delay_after Hlookup Hu Hfuel.
  unfold fetchMetaMediaBytes. rewrite Hlookup. cbn [url mime_type].
  rewrite Hu. fold maxRetries baseDelay.
  split; [|split; [|split; [|split]]].
  - apply download_loop_terminates.
    replace (maxRetries + 1 - 0) with (maxRetries + 1) by lia. exact Hfuel.
  - intro Hfail.
    rewrite (download_loop_all_fail net maxRetries baseDelay u ty
               (Z.to_nat (maxRetries + 1)));
      [reflexivity | exact Hfuel | f_equal; lia | exact Hfail].
  - intros n status data Hn Hfail Hresp Hok.
    rewrite (download_loop_first_success net maxRetries baseDelay u ty
               n fuel 0 _ status data);
      [reflexivity | lia | lia | intros k Hk; apply Hfail; lia
       | exact Hresp | exact Hok].
  - reflexivity.
  - intro attempt. rewrite Z.ltb_lt. lia.
Qed.

(** The hypotheses of [fetch_escalates_then_gives_up] hold on a
    network that refuses every download, with the default options:
    four attempts, the first without the credential, and the delays
    600, 1200, 2400 and 4800 ms. *)
Lemma fetch_escalates_then_gives_up_witness :
  fetchMetaMediaBytes (refusing "https://cdn/m") 5 "m1" no_options
  = Some (Throw MediaUnavailable,
          [Lookup "m1";
           Download "https://cdn/m" false; Sleep 600;
           Download "https://cdn/m" true; Sleep 1200;
           Download "https://cdn/m" true; Sleep 2400;
           Download "https://cdn/m" true; Sleep 4800]).
Proof.
  refine (proj1 (proj2 (fetch_escalates_then_gives_up
                          (refusing "https://cdn/m") "m1" "https://cdn/m"
                          None no_options 5 eq_refl eq_refl _)) _).
  - vm_compute. lia.
  - intros k _. reflexivity.
Defined.

(** C4, as stated, fails on the delays: with the default base of 300 ms
    the delay slept after the failed attempt 0 is 600 ms, not
    [300 * 2^0] = 300 ms. *)
Lemma first_delay_is_twice_the_base :
  fetchMetaMediaBytes (refusing "https://cdn/m") 5 "m1" no_options
  = Some (Throw MediaUnavailable,
          [Lookup "m1";
           Download "https://cdn/m" false; Sleep 600;
           Download "https://cdn/m" true; Sleep 1200;
           Download "https://cdn/m" true; Sleep 2400;
           Download "https://cdn/m" true; Sleep 4800]) /\
  fetchMetaMediaBytes (refusing "https://cdn/m") 5 "m1" no_options
  <> Some (Throw MediaUnavailable,
           Lookup "m1"
             :: failed_rounds "https://cdn/m"
                  (fun attempt => 300 * 2 ^ attempt) 0 4).
Proof. split; [reflexivity | vm_compute; discriminate]. Qed.

End MediaFetcherClaims.

(** ** Classifier *)

Module ClassifierClaims.
Import Str Classifier.

(** C7.  The text classifier and the image classifier return "workout"
    exactly when the inference call answers and its lower-cased result
    contains "workout"; any other result gives "food", and so does a
    call that throws.  (The text classifier does not call the
    inference on blank input: it returns "food".) *)
Theorem classifier_defaults_to_food
        (create_text : string -> completion)
        (create_image : string -> string -> completion) :
  (forall text : string,
      classifyFoodOrWorkoutFromText create_text text = "workout" <->
      is_empty (trim text) = false /\
      exists c : option string,
        create_text (text_prompt (trim text)) = Completed c /\
        includes (toLowerCase (content_or c "")) "workout" = true) /\
  (forall text : string,
      classifyFoodOrWorkoutFromText create_text text = "workout" \/
      classifyFoodOrWorkoutFromText create_text text = "food") /\
  (forall (text : string) (err : error),
      create_text (text_prompt (trim text)) = Rejected err ->
      classifyFoodOrWorkoutFromText create_text text = "food") /\
  (forall image mime : string,
      classifyFoodOrWorkoutFromImage create_image image mime = "workout" <->
      exists c : option string,
        create_image image mime = Completed c /\
        includes (toLowerCase (trim (content_or c "food"))) "workout" = true) /\
  (forall image mime : string,
      classifyFoodOrWorkoutFromImage create_image image mime = "workout" \/
      classifyFoodOrWorkoutFromImage create_image image mime = "food") /\
  (forall (image mime : string) (err : error),
      create_image image mime = Rejected err ->
      classifyFoodOrWorkoutFromImage create_image image mime = "food") /\
  classifyFoodOrWorkoutFromText
    (fun _ => Completed (Some "Workout.")) "ran 5 km" = "workout" /\
  classifyFoodOrWorkoutFromText
    (fun _ => Completed (Some "Food")) "ran 5 km" = "food".
Proof.
  split; [|split; [|split; [|split; [|split; [|split; [|split]]]]]].
  - intro text. unfold classifyFoodOrWorkoutFromText.
    destruct (is_empty (trim text)).
    + split; [discriminate | intros [H _]; discriminate].
    + destruct (create_text (text_prompt (trim text))) as [err|c].
      * split; [discriminate | intros (_ & c & H & _); discriminate].
      * destruct (includes (toLowerCase (content_or c "")) "workout") eqn:E.
        -- split; [|reflexivity]. intros _. split; [reflexivity|].
           exists c. now split.
        -- split; [discriminate|].
           intros (_ & c' & [= <-] & H). congruence.
  - intro text. unfold classifyFoodOrWorkoutFromText.
    destruct (is_empty (trim text)); [now right|].
    destruct (create_text _) as [err|c]; [now right|].
    destruct (includes _ "workout"); [now left | now right].
  - intros text err H. unfold classifyFoodOrWorkoutFromText.
    rewrite H. now destruct (is_empty (trim text)).
  - intros image mime. unfold classifyFoodOrWorkoutFromImage.
    destruct (create_image image mime) as [err|c].
    + split; [discriminate | intros (c & H & _); discriminate].
    + destruct (includes (toLowerCase (trim (content_or c "food"))) "workout")
        eqn:E.
      * split; [|reflexivity]. intros _. exists c. now split.
      * split; [discriminate|]. intros (c' & [= <-] & H). congruence.
  - intros image mime. unfold classifyFoodOrWorkoutFromImage.
    destruct (create_image image mime) as [err|c]; [now right|].
    destruct (includes _ "workout"); [now left | now right].
  - intros image mime err H. unfold classifyFoodOrWorkoutFromImage.
    now rewrite H.
  - reflexivity.
  - reflexivity.
Qed.

(** The throwing case of [classifier_defaults_to_food] on an inference
    call that is always rejected. *)
Lemma classifier_defaults_to_food_witness :
  classifyFoodOrWorkoutFromText (fun _ => Rejected (Error "timeout"))
    "45 minute workout" = "food" /\
  classifyFoodOrWorkoutFromImage (fun _ _ => Rejected (Error "timeout"))
    "aGk=" "image/jpeg" = "food".
Proof.
  pose proof (classifier_defaults_to_food
                (fun _ => Rejected (Error "timeout"))
                (fun _ _ => Rejected (Error "timeout")))
    as (_ & _ & Htext & _ & _ & Himage & _).
  split.
  - apply (Htext "45 minute workout" (Error "timeout")). reflexivity.
  - apply (Himage "aGk=" "image/jpeg" (Error "timeout")). reflexivity.
Defined.

End ClassifierClaims.

(** ** AudioPreprocessor *)

Module AudioPreprocessorClaims.
Import Str AudioPreprocessor.

(** C8.  When the ffmpeg invocation is rejected, whatever the reason,
    [preprocessAudio] does not throw and returns the path of the raw
    audio; the transcription stage then reads the bytes that were
    written there, the original audio, as long as the failed run left
    that file alone. *)
Theorem preprocess_failure_returns_raw
        (model : option path)
        (execPromise : string -> filesystem -> exec_outcome)
        (fs : filesystem) (rawPath cleanedPath : path)
        (audioBuffer : bytes) (err : error) (fs' : filesystem) :
  execPromise
    (ffmpeg_command model (writeFileSync fs rawPath audioBuffer)
                    rawPath cleanedPath)
    (writeFileSync fs rawPath audioBuffer)
  = ExecRejected err fs' ->
  preprocessAudio model execPromise (writeFileSync fs rawPath audioBuffer)
                  rawPath cleanedPath
  = (rawPath, fs') /\
  (fs' rawPath = Some audioBuffer ->
   transcription_input model execPromise fs rawPath cleanedPath audioBuffer
   = Ok audioBuffer).
Proof.
  intro Hrej. split.
  - unfold preprocessAudio. now rewrite Hrej.
  - intro Hkept. unfold transcription_input, preprocessAudio.
    now rewrite Hrej, Hkept.
Qed.

(** The hypotheses of [preprocess_failure_returns_raw] hold on a shell
    that rejects every command. *)
Lemma preprocess_failure_returns_raw_witness :
  fst (preprocessAudio None broken_shell
         (writeFileSync no_files "/tmp/1-raw.audio" ["O"; "g"; "g"; "S"]%char)
         "/tmp/1-raw.audio" "/tmp/1-cleaned.wav")
  = "/tmp/1-raw.audio" /\
  transcription_input None broken_shell no_files
    "/tmp/1-raw.audio" "/tmp/1-cleaned.wav" ["O"; "g"; "g"; "S"]%char
  = Ok ["O"; "g"; "g"; "S"]%char.
Proof.
  destruct (preprocess_failure_returns_raw None broken_shell no_files
              "/tmp/1-raw.audio" "/tmp/1-cleaned.wav"
              ["O"; "g"; "g"; "S"]%char (Error "ffmpeg: not found")
              (writeFileSync no_files "/tmp/1-raw.audio"
                 ["O"; "g"; "g"; "S"]%char) eq_refl)
    as [Hpath Hbytes].
  split.
  - now rewrite Hpath.
  - apply Hbytes. reflexivity.
Defined.

End AudioPreprocessorClaims.

(** ** Worked cases *)

Module Samples.
Import Str CalorieResolver Extractor Reconciler.

Example num_samples :
  num (VStr "250") zero = of_Z 250 /\
  num (VNum (of_Z 250)) zero = of_Z 250 /\
  num (VStr "about 1.5e2 kcal") zero = of_Z 150 /\
  num (VStr "250 calories") (of_Z 7) = of_Z 7 /\
  num (VNum NaN) (of_Z 7) = of_Z 7 /\
  num (VNum PInf) (of_Z 7) = of_Z 7 /\
  num (VBool true) (of_Z 7) = of_Z 7 /\
  num (VStr "") (of_Z 7) = zero.
Proof. repeat split; vm_compute; reflexivity. Qed.

Example JSON_stringify_sample :
  JSON_stringify Records.no_fraction_printer
    (VObj [("a", VArr [VNum (of_Z 1); VUndefined; VNull; VBool true]);
           ("skipped", VUndefined);
           ("n", VNum NaN);
           ("s", VStr "x")])
  = Some (str (chars "{" ++ [dquote] ++ chars "a" ++ [dquote]
                 ++ chars ":[1,null,null,true]," ++ [dquote] ++ chars "n"
                 ++ [dquote] ++ chars ":null," ++ [dquote] ++ chars "s"
                 ++ [dquote] ++ chars ":" ++ [dquote] ++ chars "x" ++ [dquote]
                 ++ chars "}")).
Proof. vm_compute. reflexivity. Qed.

(** The last resort reads the first run of two to five digits in the
    serialised record. *)
Example last_resort_samples :
  extractCaloriesFromAnalysis Records.no_fraction_printer
    (VObj [("cal", VStr "about 320kcal")]) = Ok (of_Z 320) /\
  extractCaloriesFromAnalysis Records.no_fraction_printer
    (VObj [("cal", VStr "7 or 12345678 kcal")]) = Ok (of_Z 12345) /\
  extractCaloriesFromAnalysis Records.no_fraction_printer
    (VObj [("cal", VStr "99,5")]) = Ok (of_Z 100) /\
  extractCaloriesFromAnalysis Records.no_fraction_printer
    (VArr [VNum (of_Z 5); VStr "00"]) = Ok zero.
Proof. repeat split; vm_compute; reflexivity. Qed.

(** The composite shape of the audio path: the largest of the nested
    totals and detail sums. *)
Example composite_sample :
  extractCaloriesFromAnalysis Records.no_fraction_printer
    (VObj [("food", VObj [("totals", VObj [("calories", VStr "300 kcal")]);
                          ("details", VArr [VObj [("calories", VNum (of_Z 310))]])]);
           ("workout", VObj [("totals", VObj [("calories_burned", VNum (of_Z 200))])]);
           ("transcript", VStr "ate dal, ran 20 min")])
  = Ok (of_Z 310).
Proof. vm_compute. reflexivity. Qed.

Example normalizeName_samples :
  normalizeName Records.no_fraction_printer (VStr "  Banana-Smoothie (large)! ")
  = "bananasmoothie large" /\
  normalizeName Records.no_fraction_printer VUndefined = "" /\
  normalizeName Records.no_fraction_printer (VStr "???") = "" /\
  split_ws " a  b " = [""; "a"; "b"; ""] /\
  tokens " a  b " = ["a"; "b"].
Proof. repeat split; vm_compute; reflexivity. Qed.

(** A conflicting vision item leaves its assumptions, once each, and its
    confidence on the caption item. *)
Example merge_sample :
  merge Records.no_fraction_printer
    [normalize_caption_detail Records.no_fraction_printer
       (VObj [("item", VStr "Banana Smoothie"); ("calories", VNum (of_Z 250));
              ("assumptions", VArr [VStr "medium glass"])])]
    [normalize_vision_detail Records.no_fraction_printer
       (VObj [("item", VStr "smoothie"); ("confidence", VNum (of_Z 1));
              ("assumptions", VArr [VStr "medium glass"; VStr "with milk"])])]
  = [mkFoodItem (VStr "Banana Smoothie") zero (VStr "") (of_Z 250)
       (mkMacros zero zero zero) (VStr "") (VStr "user_caption")
       (Fin (9 # 10))
       (Some [VStr "medium glass"; VStr "with milk"; VStr "vision_conf:1"])].
Proof. vm_compute. reflexivity. Qed.

End Samples.

(** * Part II, continued: the code around the pipeline *)

(** ** The resolver copy inside [/log-analysis] *)

Module LogAnalysisFacts.
Import Str CalorieResolver LogAnalysis NumFacts CalorieResolverFacts.

Lemma eqb_char (c d : ascii) : Ascii.eqb c d = true -> c = d.
Proof. apply Ascii.eqb_eq. Qed.

(** One step of the replacement, when it is not inside a run of [s]. *)
Lemma replace_step (c : ascii) (r : list ascii) :
  (Ascii.eqb c "\" = true /\
   replace_backslash_s_from false (c :: r)
   = " "%char :: replace_backslash_s_from true r) \/
  replace_backslash_s_from false (c :: r)
  = c :: replace_backslash_s_from false r.
Proof.
  cbn [replace_backslash_s_from andb].
  destruct (Ascii.eqb c "\") eqn:E; cbn [andb]; [|now right].
  destruct r as [|d r]; [now right|].
  destruct (Ascii.eqb d "s") eqn:Es.
  - apply eqb_char in Es. subst d. left. now split.
  - right. destruct d as [[] [] [] [] [] [] [] []]; try reflexivity.
    discriminate Es.
Qed.

Lemma backslash_not_digit (c : ascii) :
  Ascii.eqb c "\" = true -> is_digit c = false.
Proof. intro E. apply eqb_char in E. now subst. Qed.

Lemma head_is_digit_replace (l : list ascii) :
  head_is_digit (replace_backslash_s_from false l) = head_is_digit l.
Proof.
  destruct l as [|c r]; [reflexivity|].
  destruct (replace_step c r) as [[E ->] | ->]; [|reflexivity].
  cbn [head_is_digit]. now rewrite (backslash_not_digit _ E).
Qed.

Lemma takeWhile_digit_replace (l : list ascii) :
  takeWhile is_digit (replace_backslash_s_from false l) = takeWhile is_digit l.
Proof.
  induction l as [|c r IH]; [reflexivity|].
  destruct (replace_step c r) as [[E ->] | ->]; cbn [takeWhile].
  - now rewrite (backslash_not_digit _ E).
  - now rewrite IH.
Qed.

Lemma take_digits_replace (n : nat) :
  forall l : list ascii,
    take_digits n (replace_backslash_s_from false l)
    = (fst (take_digits n l),
       replace_backslash_s_from false (snd (take_digits n l))).
Proof.
  induction n as [|n IH]; intro l.
  - destruct l; reflexivity.
  - destruct l as [|c r]; [reflexivity|].
    destruct (replace_step c r) as [[E Hr] | Hr].
    + rewrite Hr. cbn [take_digits].
      rewrite (backslash_not_digit _ E). cbn [fst snd]. now rewrite Hr.
    + rewrite Hr. cbn [take_digits]. destruct (is_digit c) eqn:Ed.
      * rewrite IH. destruct (take_digits n r). reflexivity.
      * cbn [fst snd]. now rewrite Hr.
Qed.

(** What follows the integer digits is read the same way after the
    replacement. *)
Lemma fraction_replace (ds rest : list ascii) :
  match replace_backslash_s_from false rest with
  | sep :: (d :: _) as frac =>
      if (Ascii.eqb sep "." || Ascii.eqb sep ",") && is_digit d
      then ds ++ sep :: takeWhile is_digit frac
      else ds
  | _ => ds
  end
  = match rest with
    | sep :: (d :: _) as frac =>
        if (Ascii.eqb sep "." || Ascii.eqb sep ",") && is_digit d
        then ds ++ sep :: takeWhile is_digit frac
        else ds
    | _ => ds
    end.
Proof.
  destruct rest as [|x rest]; [reflexivity|].
  destruct (replace_step x rest) as [[E ->] | ->].
  - apply eqb_char in E. subst x.
    destruct (replace_backslash_s_from true rest); destruct rest as [|y t];
      try reflexivity;
      destruct (is_digit y); reflexivity.
  - pose proof (head_is_digit_replace rest) as Hh.
    pose proof (takeWhile_digit_replace rest) as Ht.
    destruct rest as [|y t].
    + reflexivity.
    + destruct (replace_backslash_s_from false (y :: t)) as [|y' t'] eqn:Er.
      * destruct (replace_step y t) as [[_ H] | H]; rewrite H in Er;
          discriminate Er.
      * cbn [head_is_digit] in Hh. rewrite Hh.
        destruct ((Ascii.eqb x "." || Ascii.eqb x ",") && is_digit y);
          [|reflexivity].
        now rewrite Ht.
Qed.

Lemma token_at_replace (l : list ascii) :
  token_at (replace_backslash_s_from false l) = token_at l.
Proof.
  unfold token_at. rewrite take_digits_replace.
  destruct (take_digits 5 l) as [ds rest]. cbn [fst snd].
  apply fraction_replace.
Qed.

(** The first numeric token is not touched by the replacement of
    backslash-[s] runs. *)
Lemma first_numeric_token_replace (skipping : bool) (l : list ascii) :
  first_numeric_token (replace_backslash_s_from skipping l)
  = first_numeric_token l.
Proof.
  revert skipping. induction l as [|c r IH]; intro skipping; [reflexivity|].
  assert (Hfalse : first_numeric_token (replace_backslash_s_from false (c :: r))
                   = first_numeric_token (c :: r)).
  { destruct (replace_step c r) as [[E Hr] | Hr].
    - rewrite Hr. cbn [first_numeric_token].
      rewrite (backslash_not_digit _ E). cbn [andb]. apply IH.
    - cbn [first_numeric_token].
      change (match r with d :: _ => is_digit d | [] => false end)
        with (head_is_digit r).
      rewrite <- (head_is_digit_replace r), <- (IH false), <- token_at_replace.
      rewrite Hr. reflexivity. }
  destruct skipping; [|exact Hfalse].
  destruct (Ascii.eqb c "s") eqn:Es.
  - cbn [replace_backslash_s_from andb]. rewrite Es.
    apply eqb_char in Es. subst c. cbn [first_numeric_token]. apply IH.
  - rewrite <- Hfalse. cbn [replace_backslash_s_from andb]. now rewrite Es.
Qed.

Section WithPrinter.

Variable f : Q -> string.

Lemma last_resort_scan (a : value) : last_resort f a = scan_serialised f a.
Proof.
  unfold last_resort, scan_serialised.
  destruct (JSON_stringify f a) as [json|]; [|reflexivity].
  unfold replace_backslash_s, chars, str.
  rewrite list_ascii_of_string_of_list_ascii.
  now rewrite first_numeric_token_replace.
Qed.

End WithPrinter.

Lemma sumDetails_step_sum_step (s : number) (it : value) :
  sumDetails_step s it = sum_step s it.
Proof.
  unfold sumDetails_step, sum_step.
  destruct (negb (truthy it) || negb (typeof_object it)); [reflexivity|].
  cbn [first_key]. unfold get. destruct (nullish it); [reflexivity|].
  cbn [bind].
  destruct (nullish (prop it "calories_burned")).
  - destruct (nullish (prop it "calories")); [reflexivity|].
    destruct (Num.truthy (num (prop it "calories") zero)); reflexivity.
  - destruct (Num.truthy (num (prop it "calories_burned") zero));
      [reflexivity|].
    destruct (nullish (prop it "calories")); [reflexivity|].
    destruct (Num.truthy (num (prop it "calories") zero)); reflexivity.
Qed.

Lemma foldM_ext {A B : Type} (g h : B -> A -> result B) (l : list A) :
  (forall b a, g b a = h b a) ->
  forall b, foldM g l b = foldM h l b.
Proof.
  intro E. induction l as [|x l IH]; intro b; simpl; [reflexivity|].
  rewrite E. destruct (h b x); simpl; [apply IH | reflexivity].
Qed.

Lemma sumDetails_trySumDetails (arr : value) :
  sumDetails arr = trySumDetails arr.
Proof.
  destruct arr; try reflexivity. simpl.
  apply foldM_ext. exact sumDetails_step_sum_step.
Qed.

Lemma bind_ext {A B : Type} (r : result A) (k k' : A -> result B) :
  (forall x, k x = k' x) -> bind r k = bind r k'.
Proof. intro E. destruct r; simpl; [apply E | reflexivity]. Qed.

Lemma candidates_collect (a : value) : candidates a = collect a.
Proof.
  unfold candidates, collect.
  repeat first [ reflexivity
               | rewrite sumDetails_trySumDetails
               | apply bind_ext; intro ].
Qed.

(** ** What is stored by [/log-analysis] *)

Lemma Math_round_whole (z : Z) : Math_round (of_Z z) = of_Z z.
Proof.
  unfold Math_round, of_Z. f_equal. f_equal.
  assert (H : (Qfloor (inject_Z z + (1 # 2)) = z)%Z); [|exact H].
  assert (Hle : (z <= Qfloor (inject_Z z + (1 # 2)))%Z).
  { rewrite <- (Qfloor_Z z) at 1. apply Qfloor_resp_le.
    rewrite <- (Qplus_0_r (inject_Z z)) at 1.
    apply Qplus_le_compat; [apply Qle_refl | discriminate]. }
  assert (Hlt : (Qfloor (inject_Z z + (1 # 2)) < z + 1)%Z).
  { rewrite Zlt_Qlt. eapply Qle_lt_trans; [apply Qfloor_le|].
    rewrite inject_Z_plus. apply Qplus_lt_r. reflexivity. }
  lia.
Qed.

Lemma resolver_natural (f : Q -> string) (analysis : value) :
  exists z : Z,
    (0 <= z)%Z /\ extractCaloriesFromAnalysis f analysis = Ok (of_Z z).
Proof.
  unfold extractCaloriesFromAnalysis.
  destruct (truthy analysis) eqn:Ht; cbn [negb orb];
    [|exists 0%Z; split; [lia | reflexivity]].
  destruct (typeof_object analysis); cbn [negb orb];
    [|exists 0%Z; split; [lia | reflexivity]].
  destruct (collect_spec analysis (truthy_not_nullish _ Ht))
    as (seen & -> & _). cbn [bind].
  assert (Hfb : exists z : Z, (0 <= z)%Z /\
            match last_resort f analysis with
            | Some total => Ok total
            | None => Ok zero
            end = Ok (of_Z z)).
  { destruct (last_resort f analysis) as [t|] eqn:E.
    - destruct (last_resort_nat_valued f analysis t E) as (z & Hz & ->).
      now exists z.
    - exists 0%Z. split; [lia | reflexivity]. }
  destruct seen as [|n seen]; [exact Hfb|].
  destruct (positives (n :: seen)) as [|p ps] eqn:Ep; [exact Hfb|].
  rewrite <- Ep.
  destruct (round_max_positives (n :: seen)) as (z & Hz & ->).
  - rewrite Ep. discriminate.
  - now exists z.
Qed.

(** The route's copy, in terms of the helper's parts. *)
Lemma route_unfold (f : Q -> string) (a : value) :
  route_extractCalories f a
  = if negb (truthy a) || negb (typeof_object a) then Ok zero
    else
      cs <- collect a ;;
      match positives cs with
      | _ :: _ => Ok (Math_round (Math_max (positives cs)))
      | [] =>
          match last_resort f a with
          | Some parsed => Ok parsed
          | None => Ok zero
          end
      end.
Proof.
  unfold route_extractCalories.
  destruct (negb (truthy a) || negb (typeof_object a)); [reflexivity|].
  rewrite candidates_collect. apply bind_ext. intro cs.
  now rewrite last_resort_scan.
Qed.

Lemma route_returns_natural (f : Q -> string) (a : value) :
  exists z : Z,
    (0 <= z)%Z /\ route_extractCalories f a = Ok (of_Z z).
Proof.
  destruct (resolver_natural f a) as (z & Hz & E).
  exists z. split; [exact Hz|].
  rewrite <- E. unfold route_extractCalories, extractCaloriesFromAnalysis.
  destruct (negb (truthy a) || negb (typeof_object a)); [reflexivity|].
  rewrite candidates_collect, last_resort_scan. apply bind_ext. intro cs.
  destruct cs as [|c cs]; reflexivity.
Qed.

End LogAnalysisFacts.

Module LogAnalysisClaims.
Import Str CalorieResolver LogAnalysis NumFacts CalorieResolverFacts
       LogAnalysisFacts.

(** X1.  The copy of [extractCaloriesFromAnalysis] declared inside the
    [/log-analysis] route computes, on every value, what the helper of
    the same name computes: unrolling the key loop and dropping the
    backslash-[s] replacement change nothing. *)
Theorem route_resolver_agrees (f : Q -> string) (a : value) :
  route_extractCalories f a = extractCaloriesFromAnalysis f a.
Proof.
  unfold route_extractCalories, extractCaloriesFromAnalysis.
  destruct (negb (truthy a) || negb (typeof_object a)); [reflexivity|].
  rewrite candidates_collect. apply bind_ext. intro cs.
  rewrite last_resort_scan.
  destruct cs as [|c cs]; reflexivity.
Qed.

(** X2.  The [total_calories] written to the [meals] row is the resolved
    total itself: the route's result is a whole number that is at least
    0, and the finiteness guard and the second rounding leave it as it
    is. *)
Theorem stored_total_is_resolved_total (f : Q -> string) (a : value) :
  exists z : Z,
    (0 <= z)%Z /\
    route_extractCalories f a = Ok (of_Z z) /\
    stored_total (of_Z z) = of_Z z.
Proof.
  destruct (route_returns_natural f a) as (z & Hz & E).
  exists z. split; [exact Hz|]. split.
  - exact E.
  - unfold stored_total. cbn [isFinite of_Z]. apply Math_round_whole.
Qed.

End LogAnalysisClaims.

(** ** File names of [uploadFileToSupabase] *)

Module FileNameFacts.
Import Str LogAnalysis.

Lemma chars_append (a b : string) : chars (a ++ b)%string = chars a ++ chars b.
Proof.
  unfold chars. induction a as [|c a IH]; simpl; [reflexivity | now rewrite IH].
Qed.

Lemma chars_str (l : list ascii) : chars (str l) = l.
Proof. apply list_ascii_of_string_of_list_ascii. Qed.

Lemma digit_is_safe (c : ascii) : is_digit c = true -> is_safe_char c = true.
Proof.
  intro H. unfold is_safe_char. rewrite H.
  now rewrite !orb_true_r.
Qed.

Lemma all_safe_app (a b : list ascii) : all_safe a -> all_safe b -> all_safe (a ++ b).
Proof. intros Ha Hb. apply Forall_app. now split. Qed.

Lemma all_safe_filter (l : list ascii) : all_safe (filter is_safe_char l).
Proof.
  apply Forall_forall. intros c Hc. now apply filter_In in Hc.
Qed.

Lemma skipn_Forall {A : Type} (P : A -> Prop) (n : nat) (l : list A) :
  Forall P l -> Forall P (skipn n l).
Proof.
  revert l. induction n as [|n IH]; intros l H; [exact H|].
  destruct l as [|x l]; [constructor|]. inversion H; subst. now apply IH.
Qed.

Lemma uint_chars_safe (d : Decimal.uint) :
  all_safe (chars (NilEmpty.string_of_uint d)).
Proof.
  induction d; simpl; constructor; try reflexivity; assumption.
Qed.

Lemma string_of_Z_safe (z : Z) : all_safe (chars (string_of_Z z)).
Proof.
  unfold string_of_Z, NilZero.string_of_int, NilZero.string_of_uint.
  destruct (Z.to_int z) as [d | d].
  - destruct d; try apply uint_chars_safe. repeat constructor.
  - constructor; [reflexivity|].
    destruct d; try apply uint_chars_safe. repeat constructor.
Qed.

Lemma id_part_digits (userId : string) :
  id_part userId = "user" \/
  (Forall (fun c => is_digit c = true) (chars (id_part userId)) /\
   (0 < List.length (chars (id_part userId)) <= 12)%nat).
Proof.
  unfold id_part, last_chars.
  set (ds := filter is_digit (chars userId)).
  destruct (skipn (List.length ds - 12) ds) as [|c r] eqn:E; [now left|].
  right. rewrite chars_str, <- E. split.
  - apply skipn_Forall. apply Forall_forall. intros x Hx.
    now apply filter_In in Hx.
  - rewrite length_skipn. split; [|lia].
    assert (H : List.length (skipn (List.length ds - 12) ds) = S (List.length r))
      by now rewrite E.
    rewrite length_skipn in H. lia.
Qed.

End FileNameFacts.

Module FileNameClaims.
Import Str LogAnalysis FileNameFacts.

(** X3.  The object name built for an upload holds only letters,
    digits, [_], [.] and [-], whatever the user id, the clock and the
    original file name are: no slash, no white space.  Its first part is
    the last twelve digits of the user id at most, or "user" when the id
    has no digit. *)
Theorem safeName_has_safe_characters
        (userId : string) (now : Z) (origName : option string) :
  all_safe (chars (safeName userId now origName)) /\
  ~ In "/"%char (chars (safeName userId now origName)) /\
  (forall c, In c (chars (safeName userId now origName)) -> is_space c = false) /\
  (id_part userId = "user" \/
   (Forall (fun c => is_digit c = true) (chars (id_part userId)) /\
    (0 < List.length (chars (id_part userId)) <= 12)%nat)).
Proof.
  assert (Hsafe : all_safe (chars (safeName userId now origName))).
  { unfold safeName. rewrite !chars_append.
    repeat apply all_safe_app.
    - destruct (id_part_digits userId) as [-> | [Hd _]].
      + repeat constructor.
      + apply Forall_forall. intros c Hc. apply digit_is_safe.
        revert c Hc. now apply Forall_forall.
    - repeat constructor.
    - apply string_of_Z_safe.
    - repeat constructor.
    - unfold clean_name. rewrite chars_str. apply all_safe_filter. }
  split; [exact Hsafe|]. split; [|split].
  - intro Hin. pose proof (proj1 (Forall_forall _ _) Hsafe _ Hin) as H.
    discriminate H.
  - intros c Hin. pose proof (proj1 (Forall_forall _ _) Hsafe _ Hin) as H.
    destruct (is_space c) eqn:Es; [|reflexivity].
    unfold is_space, between, code in Es. unfold is_safe_char, is_lower,
      is_digit, between, code in H.
    destruct c as [[] [] [] [] [] [] [] []]; vm_compute in Es;
      try discriminate Es; vm_compute in H; discriminate H.
  - apply id_part_digits.
Qed.

End FileNameClaims.

(** ** What a fetch can return, and what it costs *)

Module FetchCostFacts.
Import MediaFetcher MediaFetcherFacts FetchCost.

Lemma downloads_app (a b : list event) :
  downloads (a ++ b) = (downloads a + downloads b)%nat.
Proof. unfold downloads. now rewrite filter_app, length_app. Qed.

Lemma total_sleep_app (a b : list event) :
  total_sleep (a ++ b) = total_sleep a + total_sleep b.
Proof.
  induction a as [|e a IH]; [reflexivity|].
  destruct e; cbn [app total_sleep]; rewrite IH; lia.
Qed.

Lemma downloads_failed_rounds (u : string) (d : Z -> Z) (n : nat) :
  forall a : Z, downloads (failed_rounds u d a n) = n.
Proof.
  induction n as [|n IH]; intro a; [reflexivity|].
  cbn [failed_rounds]. unfold downloads in *. cbn [filter is_download Datatypes.length].
  now rewrite IH.
Qed.

(** The delays of [n] failed attempts in a row add up to a difference of
    two powers of 2. *)
Lemma total_sleep_failed_rounds (u : string) (base : Z) (n : nat) :
  forall a : Z,
    0 <= a ->
    total_sleep (failed_rounds u (fun k => base * 2 ^ (k + 1)) a n)
    = base * (2 ^ (a + Z.of_nat n + 1) - 2 ^ (a + 1)).
Proof.
  induction n as [|n IH]; intros a Ha.
  - cbn [failed_rounds total_sleep].
    replace (a + Z.of_nat 0 + 1) with (a + 1) by lia. lia.
  - cbn [failed_rounds total_sleep]. rewrite IH by lia.
    replace (a + 1 + Z.of_nat n + 1) with (a + Z.of_nat (S n) + 1) by lia.
    replace (a + 1 + 1) with (Z.succ (a + 1)) by lia.
    rewrite Z.pow_succ_r by lia. lia.
Qed.

Section Loop.

Variable net : network.
Variable maxRetries baseDelay : Z.
Variable u : string.
Variable ty : option string.

(** Every way out of the loop: either all the remaining attempts were
    made and failed, or some attempt was answered with a 2xx status and
    its body is what is returned. *)
Lemma download_loop_outcome (fuel : nat) :
  forall (attempt : Z) (trace trace' : list event) (r : result media),
    download_loop net maxRetries baseDelay u ty fuel attempt trace
    = Some (r, trace') ->
    (r = Throw MediaUnavailable /\
     trace' = trace ++ failed_rounds u (fun k => baseDelay * 2 ^ (k + 1))
                         attempt (Z.to_nat (maxRetries + 1 - attempt))) \/
    (exists (n : nat) (status : Z) (data : bytes),
        attempt + Z.of_nat n <= maxRetries /\
        download net (attempt + Z.of_nat n) u (0 <? attempt + Z.of_nat n)%Z
        = Response status data /\
        is_success status = true /\
        r = Ok (mkMedia data (or_default ty "application/octet-stream")) /\
        trace' = trace ++ failed_rounds u (fun k => baseDelay * 2 ^ (k + 1))
                            attempt n
                       ++ [Download u (0 <? attempt + Z.of_nat n)%Z]).
Proof.
  induction fuel as [|fuel IH]; intros attempt trace trace' r; [discriminate|].
  cbn [download_loop].
  destruct (attempt <=? maxRetries)%Z eqn:E.
  - apply Z.leb_le in E.
    assert (Hretry :
              download_loop net maxRetries baseDelay u ty fuel (attempt + 1)
                ((trace ++ [Download u (0 <? attempt)%Z])
                   ++ [Sleep (baseDelay * 2 ^ (attempt + 1))])
              = Some (r, trace') ->
              (r = Throw MediaUnavailable /\
               trace' = trace ++ failed_rounds u
                          (fun k => baseDelay * 2 ^ (k + 1)) attempt
                          (Z.to_nat (maxRetries + 1 - attempt))) \/
              (exists (n : nat) (status : Z) (data : bytes),
                  attempt + Z.of_nat n <= maxRetries /\
                  download net (attempt + Z.of_nat n) u
                           (0 <? attempt + Z.of_nat n)%Z
                  = Response status data /\
                  is_success status = true /\
                  r = Ok (mkMedia data
                            (or_default ty "application/octet-stream")) /\
                  trace' = trace ++ failed_rounds u
                             (fun k => baseDelay * 2 ^ (k + 1)) attempt n
                             ++ [Download u (0 <? attempt + Z.of_nat n)%Z])).
    { intro H. apply IH in H.
      destruct H as [[Hr Ht] | (n & status & data & Hn & Hd & Hs & Hr & Ht)].
      - left. split; [exact Hr|]. rewrite Ht.
        replace (Z.to_nat (maxRetries + 1 - attempt))
          with (S (Z.to_nat (maxRetries + 1 - (attempt + 1)))) by lia.
        cbn [failed_rounds]. rewrite <- !app_assoc. reflexivity.
      - right. exists (S n), status, data.
        replace (attempt + Z.of_nat (S n)) with (attempt + 1 + Z.of_nat n)
          by lia.
        repeat split; auto. rewrite Ht. cbn [failed_rounds].
        rewrite <- !app_assoc. reflexivity. }
    destruct (download net attempt u (0 <? attempt)%Z) as [status data|err] eqn:Ed;
      [|exact Hretry].
    destruct (is_success status) eqn:Es; [|exact Hretry].
    intros [= <- <-]. right. exists 0%nat, status, data.
    replace (attempt + Z.of_nat 0) with attempt by lia.
    repeat split; auto.
  - apply Z.leb_gt in E. intros [= <- <-]. left. split; [reflexivity|].
    replace (Z.to_nat (maxRetries + 1 - attempt)) with 0%nat by lia.
    cbn [failed_rounds]. now rewrite app_nil_r.
Qed.

(** The downloads of a run of failed attempts and the one after them,
    in order: each carries the credential unless it is attempt 0. *)
Lemma nth_download (d : Z -> Z) (n : nat) :
  forall (a : Z) (k : nat) (e : event),
    nth_error
      (filter is_download
         (failed_rounds u d a n ++ [Download u (0 <? a + Z.of_nat n)%Z])) k
    = Some e ->
    e = Download u (0 <? a + Z.of_nat k)%Z.
Proof.
  induction n as [|n IH]; intros a k e.
  - cbn [failed_rounds app filter is_download].
    destruct k as [|[|k]]; cbn [nth_error]; try discriminate.
    now intros [= <-].
  - cbn [failed_rounds app filter is_download].
    replace (a + Z.of_nat (S n)) with (a + 1 + Z.of_nat n) by lia.
    destruct k as [|k]; cbn [nth_error].
    + intros [= <-]. now replace (a + Z.of_nat 0) with a by lia.
    + intro H. apply IH in H. rewrite H.
      now replace (a + Z.of_nat (S k)) with (a + 1 + Z.of_nat k) by lia.
Qed.

(** A way out of the loop with media: some attempt was answered with
    a 2xx status, and every attempt before it had failed. *)
Lemma download_loop_success (fuel : nat) :
  forall (attempt : Z) (trace trace' : list event) (m : media),
    download_loop net maxRetries baseDelay u ty fuel attempt trace
    = Some (Ok m, trace') ->
    exists (n : nat) (status : Z),
      attempt + Z.of_nat n <= maxRetries /\
      download net (attempt + Z.of_nat n) u (0 <? attempt + Z.of_nat n)%Z
      = Response status (buffer m) /\
      is_success status = true /\
      mimeType m = or_default ty "application/octet-stream" /\
      (forall k : nat,
          (k < n)%nat ->
          fails (download net (attempt + Z.of_nat k) u
                          (0 <? attempt + Z.of_nat k)%Z)) /\
      trace' = trace ++ failed_rounds u (fun k => baseDelay * 2 ^ (k + 1))
                          attempt n
                     ++ [Download u (0 <? attempt + Z.of_nat n)%Z].
Proof.
  induction fuel as [|fuel IH]; intros attempt trace trace' m; [discriminate|].
  cbn [download_loop].
  destruct (attempt <=? maxRetries)%Z eqn:E; [|discriminate].
  apply Z.leb_le in E.
  assert (Hretry :
            fails (download net attempt u (0 <? attempt)%Z) ->
            download_loop net maxRetries baseDelay u ty fuel (attempt + 1)
              ((trace ++ [Download u (0 <? attempt)%Z])
                 ++ [Sleep (baseDelay * 2 ^ (attempt + 1))])
            = Some (Ok m, trace') ->
            exists (n : nat) (status : Z),
              attempt + Z.of_nat n <= maxRetries /\
              download net (attempt + Z.of_nat n) u
                       (0 <? attempt + Z.of_nat n)%Z
              = Response status (buffer m) /\
              is_success status = true /\
              mimeType m = or_default ty "application/octet-stream" /\
              (forall k : nat,
                  (k < n)%nat ->
                  fails (download net (attempt + Z.of_nat k) u
                                  (0 <? attempt + Z.of_nat k)%Z)) /\
              trace' = trace ++ failed_rounds u
                         (fun k => baseDelay * 2 ^ (k + 1)) attempt n
                         ++ [Download u (0 <? attempt + Z.of_nat n)%Z]).
  { intros Hfail H. apply IH in H.
    destruct H as (n & status & Hn & Hd & Hs & Hm & Hbefore & Ht).
    exists (S n), status.
    replace (attempt + Z.of_nat (S n)) with (attempt + 1 + Z.of_nat n) by lia.
    split; [exact Hn|]. split; [exact Hd|]. split; [exact Hs|].
    split; [exact Hm|]. split.
    - intros [|k] Hk.
      + replace (attempt + Z.of_nat 0) with attempt by lia. exact Hfail.
      + replace (attempt + Z.of_nat (S k)) with (attempt + 1 + Z.of_nat k)
          by lia.
        apply Hbefore. lia.
    - rewrite Ht. cbn [failed_rounds]. rewrite <- !app_assoc. reflexivity. }
  destruct (download net attempt u (0 <? attempt)%Z) as [status data|err] eqn:Ed;
    [|apply Hretry; exact I].
  destruct (is_success status) eqn:Es; [|apply Hretry; exact Es].
  intros [= <- <-]. exists 0%nat, status.
  replace (attempt + Z.of_nat 0) with attempt by lia.
  cbn [buffer mimeType failed_rounds app].
  repeat split; auto. intros k Hk. lia.
Qed.

End Loop.

End FetchCostFacts.

Module FetchCostClaims.
Import MediaFetcher MediaFetcherFacts FetchCost FetchCostFacts.

(** What [fetchMetaMediaBytes] did when it came back at all, once the
    lookup had given the URL [u]. *)
Lemma fetch_outcome (net : network) (fuel : nat) (mediaId : string)
      (opts : options) (r : result media) (trace : list event) :
  fetchMetaMediaBytes net fuel mediaId opts = Some (r, trace) ->
  (downloads trace = 0%nat /\ total_sleep trace = 0 /\
   exists e, r = Throw e) \/
  (exists (u : string) (ty : option string),
      lookup_media net mediaId = Ok (mkMediaObject (Some u) ty) /\
      Str.is_empty u = false /\
      ((r = Throw MediaUnavailable /\
        trace = Lookup mediaId
                  :: failed_rounds u (fun k => baseDelay_of opts * 2 ^ (k + 1))
                       0 (Z.to_nat (maxRetries_of opts + 1))) \/
       (exists (n : nat) (status : Z) (data : bytes),
           Z.of_nat n <= maxRetries_of opts /\
           download net (Z.of_nat n) u (0 <? Z.of_nat n)%Z
           = Response status data /\
           is_success status = true /\
           r = Ok (mkMedia data (or_default ty "application/octet-stream")) /\
           trace = Lookup mediaId
                     :: failed_rounds u
                          (fun k => baseDelay_of opts * 2 ^ (k + 1)) 0 n
                     ++ [Download u (0 <? Z.of_nat n)%Z]))).
Proof.
  unfold fetchMetaMediaBytes. fold (maxRetries_of opts) (baseDelay_of opts).
  destruct (lookup_media net mediaId) as [[[u|] ty]|err] eqn:El; cbn [url mime_type].
  - destruct (Str.is_empty u) eqn:Eu.
    + intros [= <- <-]. left. repeat split. eauto.
    + intro H. right. exists u, ty. split; [reflexivity|]. split; [exact Eu|].
      apply download_loop_outcome in H.
      destruct H as [[Hr Ht] | (n & status & data & Hn & Hd & Hs & Hr & Ht)].
      * left. split; [exact Hr|]. rewrite Ht.
        replace (maxRetries_of opts + 1 - 0) with (maxRetries_of opts + 1)
          by lia.
        reflexivity.
      * right. exists n, status, data. cbn [Z.add] in *.
        repeat split; auto.
  - intros [= <- <-]. left. repeat split. eauto.
  - intros [= <- <-]. left. repeat split. eauto.
Qed.

(** X4.  Bytes are returned only from a download that was answered with
    a 2xx status: when the fetch returns media, the media object had a
    URL, some attempt within the retry budget got a status from 200 to
    299, every attempt before it was made, failed and was slept after,
    nothing happened after it, and the returned buffer is the body of
    that response, with the declared MIME type or the octet-stream
    default.  The download without the credential is the first one
    made, before any refusal can have been seen; every later download
    carries the credential, whatever the statuses were. *)
Theorem fetch_returns_only_2xx_bytes
        (net : network) (fuel : nat) (mediaId : string) (opts : options)
        (m : media) (trace : list event) :
  fetchMetaMediaBytes net fuel mediaId opts = Some (Ok m, trace) ->
  exists (u : string) (ty : option string) (n : nat) (status : Z),
    lookup_media net mediaId = Ok (mkMediaObject (Some u) ty) /\
    Str.is_empty u = false /\
    Z.of_nat n <= maxRetries_of opts /\
    download net (Z.of_nat n) u (0 <? Z.of_nat n)%Z
    = Response status (buffer m) /\
    200 <= status < 300 /\
    mimeType m = or_default ty "application/octet-stream" /\
    trace = Lookup mediaId
              :: failed_rounds u (fun k => baseDelay_of opts * 2 ^ (k + 1)) 0 n
              ++ [Download u (0 <? Z.of_nat n)%Z] /\
    (forall k : nat,
        (k < n)%nat ->
        fails (download net (Z.of_nat k) u (0 <? Z.of_nat k)%Z)) /\
    (forall (k : nat) (e : event),
        nth_error (filter is_download trace) k = Some e ->
        e = Download u (negb (Nat.eqb k 0))).
Proof.
  unfold fetchMetaMediaBytes. fold (maxRetries_of opts) (baseDelay_of opts).
  destruct (lookup_media net mediaId) as [[[u|] ty]|err] eqn:El;
    cbn [url mime_type]; try discriminate.
  destruct (Str.is_empty u) eqn:Eu; [discriminate|].
  intro H. apply download_loop_success in H.
  destruct H as (n & status & Hn & Hd & Hs & Hm & Hbefore & Ht).
  cbn [Z.add] in *.
  exists u, ty, n, status.
  split; [reflexivity|]. split; [exact Eu|]. split; [exact Hn|].
  split; [exact Hd|]. split.
  { unfold is_success in Hs. apply andb_true_iff in Hs as [H1 H2].
    split; [now apply Z.leb_le | now apply Z.ltb_lt]. }
  split; [exact Hm|]. split; [exact Ht|]. split; [exact Hbefore|].
  intros k e. rewrite Ht. cbn [filter is_download]. intro H.
  apply nth_download in H. rewrite H. f_equal.
  destruct k; [reflexivity|]. cbn [Nat.eqb negb]. apply Z.ltb_lt. lia.
Qed.

(** The hypothesis of [fetch_returns_only_2xx_bytes] holds on a network
    that wants the credential: the second attempt succeeds. *)
Lemma fetch_returns_only_2xx_bytes_witness :
  exists (u : string) (ty : option string) (n : nat) (status : Z),
    lookup_media (wants_auth "https://cdn/m" ["J"; "P"; "G"]%char) "m1"
    = Ok (mkMediaObject (Some u) ty) /\
    Str.is_empty u = false /\
    Z.of_nat n <= maxRetries_of no_options /\
    download (wants_auth "https://cdn/m" ["J"; "P"; "G"]%char)
             (Z.of_nat n) u (0 <? Z.of_nat n)%Z
    = Response status ["J"; "P"; "G"]%char /\
    200 <= status < 300 /\
    "image/jpeg" = or_default ty "application/octet-stream" /\
    [Lookup "m1"; Download "https://cdn/m" false; Sleep 600;
     Download "https://cdn/m" true]
    = Lookup "m1"
        :: failed_rounds u (fun k => baseDelay_of no_options * 2 ^ (k + 1)) 0 n
        ++ [Download u (0 <? Z.of_nat n)%Z] /\
    (forall k : nat,
        (k < n)%nat ->
        fails (download (wants_auth "https://cdn/m" ["J"; "P"; "G"]%char)
                        (Z.of_nat k) u (0 <? Z.of_nat k)%Z)) /\
    (forall (k : nat) (e : event),
        nth_error
          (filter is_download
             [Lookup "m1"; Download "https://cdn/m" false; Sleep 600;
              Download "https://cdn/m" true]) k = Some e ->
        e = Download u (negb (Nat.eqb k 0))).
Proof.
  apply (fetch_returns_only_2xx_bytes
           (wants_auth "https://cdn/m" ["J"; "P"; "G"]%char) 5 "m1" no_options
           (mkMedia ["J"; "P"; "G"]%char "image/jpeg")).
  reflexivity.
Defined.

Lemma pow2_le (a b : Z) : 0 <= a <= b -> 2 ^ a <= 2 ^ b.
Proof. intro H. apply Z.pow_le_mono_r; lia. Qed.

(** X5.  The retry budget bounds every fetch: at most 1 + maxRetries
    downloads are issued and, for a base delay that is not negative, at
    most [base * (2^(maxRetries + 2) - 2)] milliseconds are slept; a
    fetch that gives up after the downloads has issued exactly that
    many and slept exactly that long, the last delay included.  With
    the default options that is 4 downloads and 9000 ms. *)
Theorem fetch_cost_is_bounded
        (net : network) (fuel : nat) (mediaId : string) (opts : options)
        (r : result media) (trace : list event) :
  fetchMetaMediaBytes net fuel mediaId opts = Some (r, trace) ->
  -1 <= maxRetries_of opts ->
  (downloads trace <= Z.to_nat (maxRetries_of opts + 1))%nat /\
  (0 <= baseDelay_of opts ->
   total_sleep trace
   <= baseDelay_of opts * (2 ^ (maxRetries_of opts + 2) - 2)) /\
  (r = Throw MediaUnavailable ->
   (0 < downloads trace)%nat ->
   downloads trace = Z.to_nat (maxRetries_of opts + 1) /\
   total_sleep trace
   = baseDelay_of opts * (2 ^ (maxRetries_of opts + 2) - 2)) /\
  Z.to_nat (maxRetries_of no_options + 1) = 4%nat /\
  baseDelay_of no_options * (2 ^ (maxRetries_of no_options + 2) - 2) = 9000.
Proof.
  intros H HR.
  set (R := maxRetries_of opts) in *. set (B := baseDelay_of opts) in *.
  assert (Hpow : 2 <= 2 ^ (R + 2)).
  { change 2 with (2 ^ 1) at 1. apply pow2_le. lia. }
  apply fetch_outcome in H. fold R B in H.
  destruct H as [(Hd & Hs & e & He) | (u & ty & Hl & Hu & H)].
  - rewrite Hd, Hs. split; [lia|]. split; [intro HB; nia|].
    split; [intros _ Hpos; lia | split; reflexivity].
  - destruct H as [[Hr Ht] | (n & status & data & Hn & Hd & Hs & Hr & Ht)].
    + assert (Hdl : downloads trace = Z.to_nat (R + 1)).
      { rewrite Ht. change (Lookup mediaId :: ?l) with ([Lookup mediaId] ++ l).
        rewrite downloads_app, downloads_failed_rounds. reflexivity. }
      assert (Hsl : total_sleep trace = B * (2 ^ (R + 2) - 2)).
      { rewrite Ht. cbn [total_sleep].
        rewrite total_sleep_failed_rounds by lia.
        replace (0 + Z.of_nat (Z.to_nat (R + 1)) + 1) with (R + 2) by lia.
        reflexivity. }
      rewrite Hdl, Hsl. split; [lia|]. split; [lia|].
      split; [intros _ _; split; reflexivity | split; reflexivity].
    + assert (Hdl : downloads trace = S n).
      { rewrite Ht. change (Lookup mediaId :: ?l) with ([Lookup mediaId] ++ l).
        rewrite !downloads_app, downloads_failed_rounds.
        cbn. lia. }
      assert (Hsl : total_sleep trace = B * (2 ^ (Z.of_nat n + 1) - 2)).
      { rewrite Ht. cbn [total_sleep]. rewrite total_sleep_app.
        rewrite total_sleep_failed_rounds by lia. cbn [total_sleep].
        replace (0 + Z.of_nat n + 1) with (Z.of_nat n + 1) by lia.
        change (2 ^ (0 + 1)) with 2. lia. }
      rewrite Hdl, Hsl. split; [lia|]. split; [|split; [|split; reflexivity]].
      * intro HB.
        assert (2 ^ (Z.of_nat n + 1) <= 2 ^ (R + 2)) by (apply pow2_le; lia).
        nia.
      * intro Hthrow. rewrite Hr in Hthrow. discriminate Hthrow.
Qed.

(** The hypotheses of [fetch_cost_is_bounded] hold on the network that
    refuses every download: 4 downloads, 9000 ms. *)
Lemma fetch_cost_is_bounded_witness :
  (downloads
     [Lookup "m1";
      Download "https://cdn/m" false; Sleep 600;
      Download "https://cdn/m" true; Sleep 1200;
      Download "https://cdn/m" true; Sleep 2400;
      Download "https://cdn/m" true; Sleep 4800] <= 4)%nat /\
  total_sleep
    [Lookup "m1";
     Download "https://cdn/m" false; Sleep 600;
     Download "https://cdn/m" true; Sleep 1200;
     Download "https://cdn/m" true; Sleep 2400;
     Download "https://cdn/m" true; Sleep 4800] = 9000.
Proof.
  pose proof (fetch_cost_is_bounded (refusing "https://cdn/m") 5 "m1"
                no_options (Throw MediaUnavailable) _ eq_refl
                ltac:(vm_compute; discriminate))
    as (Hd & _ & Hexact & _).
  split; [exact Hd|].
  apply Hexact; [reflexivity | vm_compute; lia].
Defined.

End FetchCostClaims.

(** ** Transcription and its temporary files *)

Module TranscriberFacts.
Import Str AudioPreprocessor Transcriber.

Lemma remove_at (g : filesystem) (p : path) : remove_if_present g p p = None.
Proof.
  unfold remove_if_present, existsSync, unlinkSync.
  destruct (g p) eqn:E; [now rewrite String.eqb_refl | exact E].
Qed.

Lemma remove_other (g : filesystem) (p q : path) :
  q <> p -> remove_if_present g p q = g q.
Proof.
  intro H. apply String.eqb_neq in H.
  unfold remove_if_present, existsSync, unlinkSync.
  destruct (g p); [now rewrite H | reflexivity].
Qed.

Lemma remove_keeps_absent (g : filesystem) (p q : path) :
  g q = None -> remove_if_present g p q = None.
Proof.
  intro H. unfold remove_if_present, existsSync, unlinkSync.
  destruct (g p); [|exact H]. now destruct (String.eqb q p).
Qed.

End TranscriberFacts.

Module TranscriberClaims.
Import Str AudioPreprocessor Transcriber TranscriberFacts.

(** X6.  Whatever ffmpeg and the transcription service do,
    [transcribeAudioWithWhisper] leaves neither of its two temporary
    files behind and touches no other file beyond what ffmpeg did; it
    either throws the one error "Failed to transcribe audio." or returns
    the text the service gave ("" when the response has none) for the
    bytes of the file chosen by [preprocessAudio]. *)
Theorem transcribe_cleans_up
        (model : option path)
        (execPromise : string -> filesystem -> exec_outcome)
        (whisper : bytes -> transcription)
        (fs : filesystem) (stamp : Z) (audioBuffer : bytes) :
  let run := transcribeAudioWithWhisper model execPromise whisper fs stamp
                                        audioBuffer in
  let rawPath := rawPath_of stamp in
  let cleanedPath := cleanedPath_of stamp in
  let staged := writeFileSync fs rawPath audioBuffer in
  snd run rawPath = None /\
  snd run cleanedPath = None /\
  (forall p : path,
      p <> rawPath -> p <> cleanedPath ->
      snd run p
      = files_after
          (execPromise (ffmpeg_command model staged rawPath cleanedPath) staged)
          p) /\
  (forall e : error, fst run = Throw e -> e = transcribe_failed) /\
  (forall text : string,
      fst run = Ok text ->
      exists stream : bytes,
        transcription_input model execPromise fs rawPath cleanedPath
                            audioBuffer = Ok stream /\
        (whisper stream = Transcribed (Some text) \/
         whisper stream = Transcribed None /\ text = "")).
Proof.
  cbv zeta.
  unfold transcribeAudioWithWhisper, transcription_input, preprocessAudio.
  set (rawPath := rawPath_of stamp). set (cleanedPath := cleanedPath_of stamp).
  set (staged := writeFileSync fs rawPath audioBuffer).
  set (cmd := ffmpeg_command model staged rawPath cleanedPath).
  assert (Hclean : forall g : filesystem,
             let g' := fold_left remove_if_present [rawPath; cleanedPath] g in
             g' rawPath = None /\ g' cleanedPath = None /\
             forall p, p <> rawPath -> p <> cleanedPath -> g' p = g p).
  { intro g. cbn [fold_left]. split; [|split].
    - apply remove_keeps_absent, remove_at.
    - apply remove_at.
    - intros p Hr Hc. now rewrite !remove_other. }
  destruct (execPromise cmd staged) as [g|err g];
    cbn [fst snd files_after];
    (destruct (Hclean g) as (H1 & H2 & H3);
     split; [exact H1|]; split; [exact H2|]; split; [exact H3|]; split;
     [ intros e He;
       match type of He with
       | context [g ?p] => destruct (g p) as [stream|]
       end;
       [destruct (whisper stream) as [?|[?|]]|]; congruence
     | intros text Ht;
       match type of Ht with
       | context [g ?p] => destruct (g p) as [stream|]
       end; [|discriminate];
       exists stream; split; [reflexivity|];
       destruct (whisper stream) as [?|[t|]]; [discriminate| |];
       injection Ht as <-; [now left | now right] ]).
Qed.

End TranscriberClaims.

(** ** Acknowledgements and captions of the webhook *)

Module WebhookFacts.
Import Str Webhook.

Lemma string_recipients_app (a b : list (value * value)) :
  string_recipients (a ++ b) = string_recipients a ++ string_recipients b.
Proof. unfold string_recipients. apply flat_map_app. Qed.

Lemma has_sender (s : string) (sent : list (value * value)) :
  existsb (Reconciler.same_value_zero (VStr s)) (map fst sent) = true
  <-> In s (string_recipients sent).
Proof.
  induction sent as [|[to ctx] sent IH]; cbn [map existsb fst].
  - split; [discriminate | intros []].
  - unfold string_recipients. cbn [flat_map fst].
    fold (string_recipients sent).
    rewrite Bool.orb_true_iff, IH, in_app_iff.
    destruct to; cbn [Reconciler.same_value_zero In];
      try (split; [intros [H|H]; [discriminate | now right]
                  | intros [[]|H]; now right]).
    rewrite String.eqb_eq.
    split; (intros [H|H]; [left; auto | now right]).
    destruct H as [H|[]]. now symmetry.
Qed.

Lemma ack_step_eq (acked : list value) (sent : list (value * value))
      (t : task) :
  ack_step (acked, sent) t
  = if truthy (from t)
       && negb (existsb (Reconciler.same_value_zero (from t)) acked)
    then (acked ++ [from t], sent ++ [(from t, msgId t)])
    else (acked, sent).
Proof. reflexivity. Qed.

(** What the acknowledgement loop keeps true from any state in which
    [acked] holds the recipients so far. *)
Lemma ack_fold (tasks : list task) :
  forall (acked : list value) (sent : list (value * value)),
    acked = map fst sent ->
    NoDup (string_recipients sent) ->
    let sent' := snd (fold_left ack_step tasks (acked, sent)) in
    NoDup (string_recipients sent') /\
    (forall s : string,
        In s (string_recipients sent') <->
        In s (string_recipients sent) \/
        (s <> "" /\ exists t, In t tasks /\ from t = VStr s)) /\
    (forall to ctx,
        In (to, ctx) sent' ->
        In (to, ctx) sent \/
        exists t, In t tasks /\ from t = to /\ msgId t = ctx
                  /\ truthy to = true) /\
    (List.length sent' <= List.length sent + List.length tasks)%nat.
Proof.
  induction tasks as [|t tasks IH]; intros acked sent Hacked Hnd.
  - cbn [fold_left snd]. split; [exact Hnd|]. split; [|split].
    + intro s. split; [now left|]. intros [H|(_ & t & [] & _)]. exact H.
    + intros to ctx H. now left.
    + lia.
  - cbv zeta. cbn [fold_left]. rewrite ack_step_eq.
    destruct (truthy (from t)
              && negb (existsb (Reconciler.same_value_zero (from t)) acked))
      eqn:Estep; cbv iota.
    + apply Bool.andb_true_iff in Estep as [Htr Hnew].
      apply Bool.negb_true_iff in Hnew.
      assert (Hacked' : acked ++ [from t] = map fst (sent ++ [(from t, msgId t)])).
      { rewrite map_app. cbn. now rewrite Hacked. }
      assert (Hnd' : NoDup (string_recipients (sent ++ [(from t, msgId t)]))).
      { rewrite string_recipients_app. unfold string_recipients at 2.
        cbn [flat_map fst]. rewrite app_nil_r.
        destruct (from t) as [| | | |s| |] eqn:Ef;
          try (rewrite app_nil_r; exact Hnd).
        apply NoDup_app; [exact Hnd | repeat constructor; intros [] |].
        intros x Hx [<-|[]].
        apply (has_sender s sent) in Hx. rewrite <- Hacked in Hx. congruence. }
      destruct (IH _ _ Hacked' Hnd') as (I1 & I2 & I3 & I4).
      split; [exact I1|]. split; [|split].
      * intro s. rewrite I2, string_recipients_app, in_app_iff.
        unfold string_recipients at 2. cbn [flat_map fst]. rewrite app_nil_r.
        split.
        -- intros [[H|H]|(Hs & u & Hu & Eu)].
           ++ now left.
           ++ right. destruct (from t) as [| | | |s'| |] eqn:Ef;
                try (now destruct H).
              destruct H as [<-|[]].
              split; [|exists t; split; [now left | exact Ef]].
              intros ->. discriminate.
           ++ right. split; [exact Hs|]. exists u. split; [now right | exact Eu].
        -- intros [H|(Hs & u & [<-|Hu] & Eu)].
           ++ left. now left.
           ++ left. right. rewrite Eu. now left.
           ++ right. split; [exact Hs|]. now exists u.
      * intros to ctx H. destruct (I3 to ctx H) as [H'|(u & Hu & Eu)].
        -- apply in_app_iff in H' as [H'|[H'|[]]]; [now left|].
           right. exists t. injection H' as <- <-.
           split; [now left|]. now repeat split.
        -- right. exists u. split; [now right | exact Eu].
      * rewrite length_app in I4. cbn [List.length] in *. lia.
    + destruct (IH _ _ Hacked Hnd) as (I1 & I2 & I3 & I4).
      split; [exact I1|]. split; [|split].
      * intro s. rewrite I2. split.
        -- intros [H|(Hs & u & Hu & Eu)]; [now left|].
           right. split; [exact Hs|]. exists u. split; [now right | exact Eu].
        -- intros [H|(Hs & u & [<-|Hu] & Eu)]; [now left| |].
           ++ left. rewrite Eu in Estep. cbn [truthy] in Estep.
              destruct (is_empty s) eqn:Es.
              { destruct s; [now destruct Hs | discriminate]. }
              cbn [negb andb] in Estep.
              apply Bool.negb_false_iff in Estep.
              rewrite Hacked in Estep. now apply has_sender.
           ++ right. split; [exact Hs|]. now exists u.
      * intros to ctx H. destruct (I3 to ctx H) as [H'|(u & Hu & Eu)];
          [now left|].
        right. exists u. split; [now right | exact Eu].
      * cbn [List.length]. lia.
Qed.

Lemma dropWhile_nonspace (l : list ascii) :
  has_nonspace l = true ->
  exists h t, dropWhile is_space l = h :: t /\ is_space h = false.
Proof.
  induction l as [|c l IH]; [discriminate|].
  cbn [has_nonspace existsb dropWhile]. destruct (is_space c) eqn:E.
  - cbn [negb orb]. exact IH.
  - intros _. now exists c, l.
Qed.

Lemma dropWhile_all_space (l : list ascii) :
  has_nonspace l = false -> dropWhile is_space l = [].
Proof.
  induction l as [|c l IH]; [reflexivity|].
  cbn [has_nonspace existsb dropWhile]. destruct (is_space c); [exact IH|].
  discriminate.
Qed.

Lemma dropWhile_keeps_last (a : list ascii) (h : ascii) :
  is_space h = false ->
  dropWhile is_space (a ++ [h]) = dropWhile is_space a ++ [h].
Proof.
  intro Hh. induction a as [|x a IH]; cbn [app dropWhile].
  - now rewrite Hh.
  - destruct (is_space x); [exact IH | reflexivity].
Qed.

Lemma trim_head (l : list ascii) :
  has_nonspace l = true ->
  exists h t, trim_chars l = h :: t /\ is_space h = false.
Proof.
  intro H. destruct (dropWhile_nonspace l H) as (h & t & E & Hh).
  unfold trim_chars. rewrite E. cbn [rev].
  rewrite (dropWhile_keeps_last _ _ Hh), rev_app_distr. cbn [rev app].
  now exists h, (rev (dropWhile is_space (rev t))).
Qed.

Lemma trim_blank (l : list ascii) :
  has_nonspace l = false -> trim_chars l = [].
Proof.
  intro H. unfold trim_chars. now rewrite (dropWhile_all_space l H).
Qed.

Lemma has_nonspace_head (h : ascii) (t : list ascii) :
  is_space h = false -> has_nonspace (h :: t) = true.
Proof. intro H. cbn [has_nonspace existsb]. now rewrite H. Qed.

Lemma flatten_keeps_nonspace (l : list ascii) :
  forall b, has_nonspace (flatten_newlines b l) = has_nonspace l.
Proof.
  unfold has_nonspace.
  induction l as [|c l IH]; intro b; [reflexivity|].
  cbn [flatten_newlines].
  destruct (Ascii.eqb c LF) eqn:E1.
  - apply Ascii.eqb_eq in E1. subst c.
    destruct b; cbn [existsb]; rewrite (IH true); reflexivity.
  - destruct (Ascii.eqb c CR
              && match l with d :: _ => Ascii.eqb d LF | [] => false end) eqn:E2.
    + apply Bool.andb_true_iff in E2 as [E2 _].
      apply Ascii.eqb_eq in E2. subst c.
      cbn [existsb]. rewrite (IH true). reflexivity.
    + cbn [existsb]. f_equal. apply IH.
Qed.

Lemma flatten_no_LF (l : list ascii) :
  forall b, ~ In LF (flatten_newlines b l).
Proof.
  induction l as [|c l IH]; intros b H; [exact H|].
  cbn [flatten_newlines] in H.
  destruct (Ascii.eqb c LF) eqn:E1.
  - destruct b; [exact (IH _ H)|].
    destruct H as [H|H]; [discriminate | exact (IH _ H)].
  - destruct (Ascii.eqb c CR
              && match l with d :: _ => Ascii.eqb d LF | [] => false end).
    + destruct H as [H|H]; [discriminate | exact (IH _ H)].
    + destruct H as [H|H]; [|exact (IH _ H)].
      subst c. discriminate.
Qed.

Lemma In_dropWhile (p : ascii -> bool) (c : ascii) (l : list ascii) :
  In c (dropWhile p l) -> In c l.
Proof.
  induction l as [|x l IH]; [auto|].
  cbn [dropWhile]. destruct (p x); [right; auto | auto].
Qed.

Lemma In_trim (c : ascii) (l : list ascii) : In c (trim_chars l) -> In c l.
Proof.
  unfold trim_chars. intro H.
  apply (proj2 (in_rev _ _)) in H. apply In_dropWhile in H.
  apply (proj2 (in_rev _ _)) in H. exact (In_dropWhile _ _ _ H).
Qed.

Lemma truncate800_length (l : list ascii) :
  (List.length (truncate800 l) <= 803)%nat.
Proof.
  unfold truncate800. destruct (Nat.ltb 800 (List.length l)) eqn:E.
  - rewrite length_app, length_firstn. cbn [List.length]. lia.
  - apply Nat.ltb_ge in E. lia.
Qed.

Lemma truncate800_In (c : ascii) (l : list ascii) :
  In c (truncate800 l) -> In c l \/ c = "."%char.
Proof.
  unfold truncate800. destruct (Nat.ltb 800 (List.length l)); [|now left].
  rewrite in_app_iff. intros [H|H].
  - left. rewrite <- (firstn_skipn 800 l). apply in_app_iff. now left.
  - right. cbn in H. intuition congruence.
Qed.

Lemma truncate800_head (h : ascii) (t : list ascii) :
  exists t', truncate800 (h :: t) = h :: t'.
Proof.
  unfold truncate800. destruct (Nat.ltb 800 (List.length (h :: t))).
  - cbn [firstn app]. eauto.
  - eauto.
Qed.

Lemma first_caption_blank (ps : list value) :
  first_caption ps = "" <-> forall p, In p ps -> is_caption p = false.
Proof.
  induction ps as [|p ps IH]; cbn [first_caption].
  - split; [intros _ p [] | reflexivity].
  - destruct (is_caption p) eqn:E.
    + split.
      * intro H. destruct p; try discriminate.
        cbn [is_caption] in E. rewrite H in E. discriminate.
      * intro H. rewrite (H p (or_introl eq_refl)) in E. discriminate.
    + rewrite IH. split.
      * intros H x [<-|Hx]; auto.
      * intros H x Hx. apply H. now right.
Qed.

Lemma first_caption_visible (ps : list value) :
  first_caption ps <> "" -> has_nonspace (chars (first_caption ps)) = true.
Proof.
  induction ps as [|p ps IH]; cbn [first_caption]; [congruence|].
  destruct (is_caption p) eqn:E; [|exact IH].
  destruct p; try discriminate. cbn [is_caption] in E. intros _.
  unfold trim in *. unfold chars at 1. unfold str.
  rewrite list_ascii_of_string_of_list_ascii.
  destruct (has_nonspace (chars s)) eqn:Hs.
  - destruct (trim_head _ Hs) as (h & t & -> & Hh).
    now apply has_nonspace_head.
  - rewrite (trim_blank _ Hs) in E. discriminate.
Qed.

End WebhookFacts.

Module WebhookClaims.
Import Str Webhook WebhookFacts.

(** X7.  The acknowledgement loop of the webhook sends "Processing your
    request..." once to every sender: a phone number receives an
    acknowledgement exactly when it is the non-empty [from] of some
    task, never twice however many of its messages the delivery holds;
    every acknowledgement goes to the sender of a task as a reply to
    that task's message, and there are no more of them than tasks. *)
Theorem one_ack_per_sender (tasks : list task) :
  let sent := snd (acknowledge tasks) in
  NoDup (string_recipients sent) /\
  (forall s : string,
      In s (string_recipients sent) <->
      s <> "" /\ exists t, In t tasks /\ from t = VStr s) /\
  (forall to ctx,
      In (to, ctx) sent ->
      exists t, In t tasks /\ from t = to /\ msgId t = ctx
                /\ truthy to = true) /\
  (List.length sent <= List.length tasks)%nat.
Proof.
  cbv zeta. unfold acknowledge.
  destruct (ack_fold tasks [] [] eq_refl (NoDup_nil _)) as (H1 & H2 & H3 & H4).
  split; [exact H1|]. split; [|split].
  - intro s. rewrite H2. split; [intros [[]|H]; exact H | now right].
  - intros to ctx H. destruct (H3 to ctx H) as [[]|H']. exact H'.
  - exact H4.
Qed.

(** X8.  The caption taken from a message is one short line: it holds
    no line feed, it is at most 803 characters long, it is empty exactly
    when none of the five places looked at holds a string with a
    non-blank character, and when it is not empty it starts with a
    non-blank character. *)
Theorem caption_is_one_short_line (message : value) :
  let c := chars (captionText message) in
  ~ In LF c /\
  (List.length c <= 803)%nat /\
  (captionText message = "" <->
   forall p, In p (captionCandidates message) -> is_caption p = false) /\
  (captionText message <> "" ->
   exists h t, c = h :: t /\ is_space h = false).
Proof.
  cbv zeta. unfold captionText.
  set (ps := captionCandidates message).
  destruct (is_empty (first_caption ps)) eqn:E.
  - assert (E0 : first_caption ps = "") by (destruct (first_caption ps);
                                             [reflexivity | discriminate]).
    rewrite E0. cbn [chars list_ascii_of_string List.length In].
    split; [tauto|]. split; [lia|]. split; [|congruence].
    split; [intros _; now apply first_caption_blank | reflexivity].
  - assert (E0 : first_caption ps <> "") by (intros H; rewrite H in E;
                                              discriminate).
    pose proof (first_caption_visible ps E0) as Hv.
    rewrite <- (flatten_keeps_nonspace _ false) in Hv.
    destruct (trim_head _ Hv) as (h & t & Et & Hh).
    unfold chars at 1 2 3. unfold str.
    rewrite !list_ascii_of_string_of_list_ascii.
    split; [|split; [|split]].
    + intro H. apply truncate800_In in H as [H|H]; [|discriminate].
      apply In_trim in H. exact (flatten_no_LF _ _ H).
    + apply truncate800_length.
    + rewrite Et. destruct (truncate800_head h t) as (t' & ->).
      split; [discriminate|].
      intro H. apply first_caption_blank in H. contradiction.
    + intros _. rewrite Et. destruct (truncate800_head h t) as (t' & ->).
      now exists h, t'.
Qed.

End WebhookClaims.

(** ** The totals of the merged record *)

Module MergeTotalsFacts.
Import Str Extractor Reconciler ReconcilerFacts MergeTotals NumFacts.

Section WithPrinter.

Variable f : Q -> string.







End WithPrinter.


End MergeTotalsFacts.

Module MergeTotalsClaims.
Import Str Extractor Reconciler MergeTotals MergeTotalsFacts.


End MergeTotalsClaims.

(** ** When the reply composer throws *)

Module ReplyFacts.
Import Str StrFacts ReplyComposer NumFacts CoercionFacts ReplyComposerFacts.

Section WithPrinter.

Variable f : Q -> string.

(** The four shapes of the composer's outcome. *)
Lemma buildReply_cases (analysis : value) :
  buildReplyForAnalysis f analysis = Ok apology \/
  (exists rest, buildReplyForAnalysis f analysis = Ok ("Workout:" ++ rest)%string) \/
  (exists rest, buildReplyForAnalysis f analysis = Ok ("Food:" ++ rest)%string) \/
  buildReplyForAnalysis f analysis = Throw TypeError.
Proof.
  unfold buildReplyForAnalysis.
  destruct (negb (truthy analysis) || negb (truthy (prop analysis "type")));
    [now left|].
  destruct (is_string (prop analysis "type") "workout").
  - destruct (workout_reply_cases f (details_of analysis))
      as [[_ (ls & ->)]|[_ ->]]; [right; left; eauto | now right; right; right].
  - destruct (food_reply_cases f (details_of analysis))
      as [[_ (lp & ->)]|[_ ->]]; [right; right; left; eauto | now right; right; right].
Qed.

(** A reply is never the empty text. *)
Lemma buildReply_not_empty (analysis : value) (reply : string) :
  buildReplyForAnalysis f analysis = Ok reply -> reply <> "".
Proof.
  intro H.
  destruct (buildReply_cases analysis)
    as [E | [(r & E) | [(r & E) | E]]]; rewrite E in H;
    try discriminate; injection H as <-; discriminate.
Qed.

Lemma buildReply_throws_TypeError (analysis : value) (e : error) :
  buildReplyForAnalysis f analysis = Throw e -> e = TypeError.
Proof.
  intro H.
  destruct (buildReply_cases analysis)
    as [E | [(r & E) | [(r & E) | E]]]; congruence.
Qed.

(** The records on which the composer throws. *)
Lemma buildReply_throws_iff (analysis : value) :
  buildReplyForAnalysis f analysis = Throw TypeError <->
  truthy analysis = true /\
  truthy (prop analysis "type") = true /\
  (if is_string (prop analysis "type") "workout"
   then forallb printable_activity (details_of analysis)
   else forallb (printable_item f) (details_of analysis)) = false.
Proof.
  unfold buildReplyForAnalysis.
  destruct (truthy analysis); cbn [negb orb];
    [|split; [discriminate | intros [H _]; discriminate]].
  destruct (truthy (prop analysis "type")); cbn [negb];
    [|split; [discriminate | intros (_ & H & _); discriminate]].
  destruct (is_string (prop analysis "type") "workout").
  - destruct (workout_reply_cases f (details_of analysis))
      as [[-> (ls & ->)]|[-> ->]];
      [split; [discriminate | intros (_ & _ & H); discriminate] | tauto].
  - destruct (food_reply_cases f (details_of analysis))
      as [[-> (lp & ->)]|[-> ->]];
      [split; [discriminate | intros (_ & _ & H); discriminate] | tauto].
Qed.

End WithPrinter.

End ReplyFacts.

Module ReplyErrorClaims.
Import Str ReplyComposer ReplyFacts.

(** X10.  [buildReplyForAnalysis] throws exactly when the record has a
    type and its [details] hold an entry the composer cannot print: in
    a workout an entry that is [null], that has a field which converts
    to neither a text nor a number, or whose [assumptions] has a
    non-zero [length] without being an array; under any other type an
    item with a field that does not convert.  What it throws then is a
    [TypeError]; on every other record it returns a reply. *)
Theorem buildReply_throws_on_unprintable_detail
        (f : Q -> string) (analysis : value) :
  (forall e : error,
      buildReplyForAnalysis f analysis = Throw e -> e = TypeError) /\
  (buildReplyForAnalysis f analysis = Throw TypeError <->
   truthy analysis = true /\
   truthy (prop analysis "type") = true /\
   (if is_string (prop analysis "type") "workout"
    then forallb printable_activity (details_of analysis)
    else forallb (printable_item f) (details_of analysis)) = false).
Proof.
  split.
  - intros e. apply buildReply_throws_TypeError.
  - apply buildReply_throws_iff.
Qed.

(** A food record whose item is named by an object with a [toString]
    key, [{type:"food", details:[{item:{toString:1}}]}], makes the
    composer throw, and so does a workout with a [null] detail. *)
Lemma buildReply_throws_on_unprintable_detail_witness :
  buildReplyForAnalysis Records.no_fraction_printer MoreRecords.food_unnamed
  = Throw TypeError /\
  buildReplyForAnalysis Records.no_fraction_printer
    (VObj [("type", VStr "workout"); ("details", VArr [VNull])])
  = Throw TypeError.
Proof.
  split.
  - apply (proj2 (buildReply_throws_on_unprintable_detail
                    Records.no_fraction_printer MoreRecords.food_unnamed)).
    repeat split; reflexivity.
  - apply (proj2 (buildReply_throws_on_unprintable_detail
                    Records.no_fraction_printer
                    (VObj [("type", VStr "workout"); ("details", VArr [VNull])]))).
    repeat split; reflexivity.
Defined.

End ReplyErrorClaims.

(** ** The reply to a voice note *)

Module VoiceReplyClaims.
Import Str ReplyComposer ReplyFacts VoiceReply.

(** X11.  The reply built for a voice note is never the empty text,
    whatever the analysis holds.  It is the reply composed for the food
    part, for the workout part or for the whole record; or the replies
    composed for the two parts, separated by an empty line; or the
    fixed text that nothing could be extracted, with a note that is
    empty or quotes the transcript; or the fixed text on an unexpected
    format.  Building it fails only with a [TypeError]. *)
Theorem voice_reply_is_never_empty (f : Q -> string) (c : value) :
  match voice_reply f c with
  | Ok reply =>
      reply <> "" /\
      (buildReplyForAnalysis f (prop c "food") = Ok reply \/
       buildReplyForAnalysis f (prop c "workout") = Ok reply \/
       buildReplyForAnalysis f c = Ok reply \/
       (exists fr w : string,
           buildReplyForAnalysis f (prop c "food") = Ok fr /\
           buildReplyForAnalysis f (prop c "workout") = Ok w /\
           reply = (fr ++ nl ++ nl ++ w)%string) \/
       (exists note : string,
           reply
           = ("Sorry, I couldn't confidently extract food or workout from the voice note. "
                ++ note ++ nl
                ++ "Try a short 3–8s voice note or type it.")%string /\
           (note = "" \/
            exists quoted : string,
              note = ("Transcript: " ++ str [dquote] ++ quoted
                        ++ str [dquote])%string)) \/
       reply
       = "Sorry — analysis returned an unexpected format. Try text or a short voice note.")
  | Throw e => e = TypeError
  end.
Proof.
  assert (Hone : forall a,
             match buildReplyForAnalysis f a with
             | Ok reply => reply <> ""
             | Throw e => e = TypeError
             end).
  { intro a. destruct (buildReplyForAnalysis f a) as [r|e] eqn:E.
    - exact (buildReply_not_empty f a r E).
    - exact (buildReply_throws_TypeError f a e E). }
  unfold voice_reply.
  destruct (truthy (prop c "food") || truthy (prop c "workout")).
  - destruct (has_details (prop c "food") && negb (has_details (prop c "workout"))).
    { specialize (Hone (prop c "food")).
      destruct (buildReplyForAnalysis f (prop c "food")); [|exact Hone].
      split; [exact Hone | now left]. }
    destruct (has_details (prop c "workout") && negb (has_details (prop c "food"))).
    { specialize (Hone (prop c "workout")).
      destruct (buildReplyForAnalysis f (prop c "workout")); [|exact Hone].
      split; [exact Hone | now right; left]. }
    destruct (has_details (prop c "food") && has_details (prop c "workout")).
    + pose proof (Hone (prop c "food")) as Hf.
      pose proof (Hone (prop c "workout")) as Hw.
      destruct (buildReplyForAnalysis f (prop c "food")) as [fr|e];
        cbn [bind]; [|exact Hf].
      destruct (buildReplyForAnalysis f (prop c "workout")) as [w|e];
        cbn [bind]; [|exact Hw].
      split.
      * destruct fr; [congruence | discriminate].
      * right. right. right. left. now exists fr, w.
    + unfold nothing_extracted, transcript_note, to_string.
      destruct (truthy (prop c "transcript")); cbn [bind].
      * destruct (unprintable (prop c "transcript")); cbn [bind];
          [reflexivity|].
        split; [discriminate|].
        right. right. right. right. left. eexists. split; [reflexivity|].
        right. eexists. reflexivity.
      * split; [discriminate|].
        right. right. right. right. left. exists "". split; [reflexivity|].
        now left.
  - destruct (truthy (prop c "type")).
    + specialize (Hone c).
      destruct (buildReplyForAnalysis f c); [|exact Hone].
      split; [exact Hone | now right; right; left].
    + split; [unfold unexpected_format; discriminate|].
      right. right. right. right. right. reflexivity.
Qed.

End VoiceReplyClaims.

(** ** The records the analyzers return *)

Module AnalyzerFacts.
Import Str Extractor Classifier ReplyComposer ReplyComposerFacts ReplyFacts
       Analyzer.

Lemma lookup_set_same (k : string) (v : value) (ps : list (string * value)) :
  lookup k (set_prop k v ps) = v.
Proof.
  induction ps as [|[k' v'] ps IH]; cbn [set_prop lookup].
  - now rewrite String.eqb_refl.
  - destruct (String.eqb k k') eqn:E; cbn [lookup]; rewrite ?String.eqb_refl;
      [reflexivity | now rewrite E].
Qed.

Lemma lookup_set_other (k k0 : string) (v : value)
      (ps : list (string * value)) :
  k0 <> k -> lookup k0 (set_prop k v ps) = lookup k0 ps.
Proof.
  intro Hk. apply String.eqb_neq in Hk.
  induction ps as [|[k' v'] ps IH]; cbn [set_prop lookup].
  - now rewrite Hk.
  - destruct (String.eqb k k') eqn:E; cbn [lookup].
    + apply String.eqb_eq in E. subst k'. now rewrite Hk.
    + now rewrite IH.
Qed.




Lemma unprintable_coalesce (v d : value) :
  unprintable d = false -> unprintable (coalesce v d) = unprintable v.
Proof.
  intro Hd. unfold coalesce. destruct (nullish v) eqn:E; [|reflexivity].
  destruct v; try discriminate; exact Hd.
Qed.

Section Normalisation.

Variable f : Q -> string.

Lemma converted_or_zero_cases (v : value) :
  converted_or_zero f v
  = if unprintable v then Throw TypeError else Ok (number_or_zero f v).
Proof.
  unfold converted_or_zero, to_number, number_or_zero.
  rewrite unprintable_coalesce by reflexivity.
  now destruct (unprintable v).
Qed.

Lemma converted_confidence_cases (v : value) :
  converted_confidence f v
  = if unprintable v then Throw TypeError else Ok (clamp_confidence f v).
Proof.
  unfold converted_confidence, to_number, clamp_confidence.
  rewrite unprintable_coalesce by reflexivity.
  now destruct (unprintable v).
Qed.

(** The normalisation of a detail gives the normalised item, unless
    one of its numeric fields does not convert. *)
Lemma text_detail_cases (d : value) :
  text_detail f d
  = if convertible_detail d then Ok (normalize_text_detail f d)
    else Throw TypeError.
Proof.
  unfold text_detail, converted_macros, convertible_detail.
  rewrite !converted_or_zero_cases, converted_confidence_cases.
  destruct (unprintable (opt_get d "quantity")); cbn [negb andb bind];
    [reflexivity|].
  destruct (unprintable (opt_get d "calories")); cbn [negb andb bind];
    [reflexivity|].
  destruct (unprintable (opt_get (opt_get d "macros") "protein"));
    cbn [negb andb bind]; [reflexivity|].
  destruct (unprintable (opt_get (opt_get d "macros") "fat"));
    cbn [negb andb bind]; [reflexivity|].
  destruct (unprintable (opt_get (opt_get d "macros") "carbs"));
    cbn [negb andb bind]; [reflexivity|].
  destruct (unprintable (opt_get d "confidence")); reflexivity.
Qed.

Lemma image_detail_cases (d : value) :
  image_detail f d
  = if convertible_detail d then Ok (normalize_image_detail f d)
    else Throw TypeError.
Proof. exact (text_detail_cases d). Qed.

End Normalisation.

Section Finish.

Variable f : Q -> string.
Variable normalize : value -> result FoodItem.
Variable normalized : value -> FoodItem.
Hypothesis normalize_cases :
  forall d, normalize d
            = if convertible_detail d then Ok (normalized d)
              else Throw TypeError.




End Finish.

End AnalyzerFacts.

Module AnalyzerClaims.
Import Str Extractor Classifier ReplyComposer ReplyFacts Analyzer AnalyzerFacts.



End AnalyzerClaims.

(** ** The details rebuilt by [analyzeAudioWithGPT] *)

Module AudioAnalyzerFacts.
Import Str Extractor ReplyComposer ExtractorFacts CoercionFacts
       ReplyComposerFacts AudioAnalyzer.

Section WithPrinter.

Variable f : Q -> string.

Lemma to_number_or_zero_cases (v : value) :
  to_number_or_zero f v
  = if unprintable v then Throw TypeError
    else Ok (VNum (or_zero (ToNumber f v))).
Proof.
  unfold to_number_or_zero, to_number. now destruct (unprintable v).
Qed.

Lemma or_zero_is_number (n : number) : is_number (VNum (or_zero n)).
Proof. eexists. split; [reflexivity | apply or_zero_not_NaN]. Qed.







Lemma itemName_of_cases (item : value) :
  (unnameable item = false /\ exists name, itemName_of f item = Ok name) \/
  (unnameable item = true /\ itemName_of f item = Throw TypeError).
Proof.
  unfold itemName_of, unnameable, to_string.
  destruct (truthy item); cbn [andb]; [|left; split; eauto].
  destruct (unprintable (prop item "item")) eqn:U.
  - rewrite (unprintable_truthy _ U). cbn [bind]. now right.
  - left. split; [reflexivity|].
    destruct (truthy (prop item "item")); cbn [bind]; eauto.
Qed.

Variable lookup_nutrition : nat -> string -> option value.

Lemma enrich_step_cases (acc : list value) (item : value) :
  (unnameable item = false /\
   exists x : value,
     enrich_step f lookup_nutrition acc item = Ok (acc ++ [x]) /\
     enriched_at f lookup_nutrition (List.length acc) item x) \/
  (unnameable item = true /\
   enrich_step f lookup_nutrition acc item = Throw TypeError).
Proof.
  unfold enrich_step.
  destruct (itemName_of_cases item) as [(-> & name & E) | (-> & ->)];
    [left | now right].
  split; [reflexivity|]. rewrite E. cbn [bind].
  unfold enriched_at, usable_detail.
  destruct (is_empty name) eqn:En.
  - exists item. split; [reflexivity|]. exists name. rewrite En. now split.
  - destruct (lookup_nutrition (List.length acc) name) as [parsed|] eqn:El.
    + destruct (first_food_detail parsed) as [pd|] eqn:Ef.
      * destruct (enriched_object f name item pd) as [o|e] eqn:Eo.
        -- exists o. split; [reflexivity|]. exists name.
           rewrite En, El, Ef, Eo. now split.
        -- exists item. split; [reflexivity|]. exists name.
           rewrite En, El, Ef, Eo. now split.
      * exists item. split; [reflexivity|]. exists name.
        rewrite En, El, Ef. now split.
    + exists item. split; [reflexivity|]. exists name.
      rewrite En, El. now split.
Qed.

Lemma enrich_from (details : list value) :
  forall acc : list value,
    (existsb unnameable details = false /\
     exists rest : list value,
       foldM (enrich_step f lookup_nutrition) details acc = Ok (acc ++ rest) /\
       List.length rest = List.length details /\
       forall (i : nat) (item : value),
         nth_error details i = Some item ->
         exists x : value,
           nth_error rest i = Some x /\
           enriched_at f lookup_nutrition (List.length acc + i) item x) \/
    (existsb unnameable details = true /\
     foldM (enrich_step f lookup_nutrition) details acc = Throw TypeError).
Proof.
  induction details as [|item details IH]; intro acc.
  - left. split; [reflexivity|]. exists []. cbn [foldM].
    rewrite app_nil_r. split; [reflexivity|]. split; [reflexivity|].
    intros [|i] it; discriminate.
  - cbn [foldM existsb].
    destruct (enrich_step_cases acc item) as [(-> & x & -> & Hx) | (-> & ->)];
      cbn [bind orb]; [|now right].
    destruct (IH (acc ++ [x])) as [(-> & rest & -> & Hlen & Hrest) | (-> & ->)];
      [left | now right].
    split; [reflexivity|]. exists (x :: rest).
    split; [now rewrite <- app_assoc|]. split; [cbn; now rewrite Hlen|].
    intros [|i] it Hi; cbn [nth_error] in *.
    + injection Hi as <-. exists x. split; [reflexivity|].
      now rewrite Nat.add_0_r.
    + destruct (Hrest i it Hi) as (y & Hy & Hat). exists y.
      split; [exact Hy|]. rewrite length_app in Hat. cbn in Hat.
      now replace (List.length acc + S i)%nat
        with (List.length acc + 1 + i)%nat by lia.
Qed.

(** The object built for an item, when it could be built. *)
Lemma enriched_object_fields (itemName : string) (item pd x : value) :
  enriched_object f itemName item pd = Ok x ->
  Forall is_number (numeric_props x) /\
  (exists n : number, prop x "confidence" = VNum n /\ in_unit_interval n) /\
  nullish (prop x "item") = false.
Proof.
  unfold enriched_object. rewrite !to_number_or_zero_cases. unfold to_number.
  repeat match goal with
         | |- context [if unprintable ?v then _ else _] =>
             destruct (unprintable v); cbn [bind]; [discriminate|]
         end.
  intros [= <-]. unfold numeric_props.
  cbn [prop lookup String.eqb Ascii.eqb Bool.eqb].
  split; [|split].
  - repeat constructor; apply or_zero_is_number.
  - eexists. split; [reflexivity | apply clamp_unit].
  - unfold coalesce. destruct (nullish (opt_get pd "item")) eqn:E;
      [reflexivity | exact E].
Qed.

End WithPrinter.

End AudioAnalyzerFacts.

Module AudioAnalyzerClaims.
Import Str Extractor ReplyComposer ReplyComposerFacts ReplyFacts ExtractorFacts
       AudioAnalyzer AudioAnalyzerFacts.



(** X14.  The per-item nutrition lookup of [analyzeAudioWithGPT] keeps
    the list of food details as long as it was and in its order: the
    entry at a position is the object built for the item there from the
    first detail of the answer to the lookup made for its name, or the
    item itself when it has no name, when the lookup failed or gave no
    food record with details, or when the object could not be built.
    In a built object no numeric field is [NaN], the confidence lies in
    [0,1] and the name is never missing.  The loop is left early, with
    a [TypeError], exactly when the name of some item does not convert
    to a text. *)
Theorem enrichment_keeps_the_list
        (f : Q -> string) (lookup_nutrition : nat -> string -> option value) :
  (forall details : list value,
      match enrich f lookup_nutrition details with
      | Ok enriched =>
          existsb unnameable details = false /\
          List.length enriched = List.length details /\
          forall (i : nat) (item : value),
            nth_error details i = Some item ->
            exists x : value,
              nth_error enriched i = Some x /\
              enriched_at f lookup_nutrition i item x
      | Throw e => e = TypeError /\ existsb unnameable details = true
      end) /\
  (forall (itemName : string) (item pd x : value),
      enriched_object f itemName item pd = Ok x ->
      Forall is_number (numeric_props x) /\
      (exists n : number, prop x "confidence" = VNum n /\ in_unit_interval n) /\
      nullish (prop x "item") = false).
Proof.
  split.
  - intro details. unfold enrich.
    destruct (enrich_from f lookup_nutrition details [])
      as [(Hu & rest & -> & Hlen & H) | (Hu & ->)].
    + cbn [app]. split; [exact Hu|]. split; [exact Hlen | exact H].
    + now split.
  - apply enriched_object_fields.
Qed.

(** [enrichment_keeps_the_list] on the one item [{item:"dal"}], for
    which the lookup answers with a food record of 120 kcal: the entry
    left is the object built from that answer. *)
Lemma enrichment_keeps_the_list_witness :
  (exists x : value,
      nth_error [MoreRecords.dal_enriched] 0 = Some x /\
      enriched_at Records.no_fraction_printer
                  (fun _ _ => Some MoreRecords.food_dal) 0
                  MoreRecords.item_dal x) /\
  Forall is_number (numeric_props MoreRecords.dal_enriched) /\
  (exists n : number,
      prop MoreRecords.dal_enriched "confidence" = VNum n /\
      in_unit_interval n) /\
  nullish (prop MoreRecords.dal_enriched "item") = false.
Proof.
  split.
  - assert (H : match Ok [MoreRecords.dal_enriched] with
                | Ok enriched =>
                    existsb unnameable [MoreRecords.item_dal] = false /\
                    List.length enriched = List.length [MoreRecords.item_dal] /\
                    forall (i : nat) (item : value),
                      nth_error [MoreRecords.item_dal] i = Some item ->
                      exists x : value,
                        nth_error enriched i = Some x /\
                        enriched_at Records.no_fraction_printer
                                    (fun _ _ => Some MoreRecords.food_dal)
                                    i item x
                | Throw e =>
                    e = TypeError /\
                    existsb unnameable [MoreRecords.item_dal] = true
                end).
    { exact (proj1 (enrichment_keeps_the_list Records.no_fraction_printer
                      (fun _ _ => Some MoreRecords.food_dal))
               [MoreRecords.item_dal]). }
    destruct H as (_ & _ & H). exact (H 0%nat MoreRecords.item_dal eq_refl).
  - apply (proj2 (enrichment_keeps_the_list Records.no_fraction_printer
                    (fun _ _ => None))
             "dal" MoreRecords.item_dal MoreRecords.dal_120).
    reflexivity.
Defined.

End AudioAnalyzerClaims.

(** ** How a voice note is logged *)

Module CompositeRecordClaims.
Import Str ReplyComposer LogAnalysis Analyzer AnalyzerFacts CompositeRecord.

(** X15.  After the defaulting step of [analyzeAudioWithGPT] the record
    of a voice note has a food part and a workout part, each the parsed
    one or the empty default.  For such a record the [item_type] chosen
    by [/log-analysis] is "mixed" unless the record carries a top-level
    [type] of "workout" or "food": it is never "unknown", and a voice
    note that mentions only food is not logged as "food". *)
Theorem voice_notes_are_logged_as_mixed (out : list (string * value)) :
  truthy (lookup "food" (default_parts out)) = true /\
  truthy (lookup "workout" (default_parts out)) = true /\
  lookup "type" (default_parts out) = lookup "type" out /\
  item_type (VObj (default_parts out))
  = Ok (if is_string (lookup "type" out) "workout" then "workout"
        else if is_string (lookup "type" out) "food" then "food"
        else "mixed") /\
  item_type (VObj (default_parts out)) <> Ok "unknown".
Proof.
  assert (Hor : forall a d, truthy d = true -> truthy (or_else a d) = true).
  { intros a d Hd. unfold or_else. destruct (truthy a) eqn:E; [exact E | exact Hd]. }
  assert (Hf : truthy (lookup "food" (default_parts out)) = true).
  { unfold default_parts. rewrite lookup_set_other by discriminate.
    rewrite lookup_set_same. now apply Hor. }
  assert (Hw : truthy (lookup "workout" (default_parts out)) = true).
  { unfold default_parts. rewrite lookup_set_same. now apply Hor. }
  assert (Ht : lookup "type" (default_parts out) = lookup "type" out).
  { unfold default_parts. now rewrite !lookup_set_other by discriminate. }
  assert (Hi : item_type (VObj (default_parts out))
               = Ok (if is_string (lookup "type" out) "workout" then "workout"
                     else if is_string (lookup "type" out) "food" then "food"
                     else "mixed")).
  { unfold item_type, get. cbn [nullish bind prop].
    rewrite Ht, Hf, Hw. cbn [negb andb].
    rewrite !Bool.orb_false_r.
    destruct (is_string (lookup "type" out) "workout"); [reflexivity|].
    destruct (is_string (lookup "type" out) "food"); reflexivity. }
  split; [exact Hf|]. split; [exact Hw|]. split; [exact Ht|].
  split; [exact Hi|].
  rewrite Hi.
  destruct (is_string (lookup "type" out) "workout"); [discriminate|].
  destruct (is_string (lookup "type" out) "food"); discriminate.
Qed.

End CompositeRecordClaims.

(** ** Today's and the week's calories *)

Module WeeklyTotalsFacts.
Import Str NumFacts WeeklyTotals.

Lemma Qred_inject_Z (z : Z) : Qred (inject_Z z) = inject_Z z.
Proof.
  unfold Qred, inject_Z.
  pose proof (Z.ggcd_gcd z 1) as Hg.
  pose proof (Z.ggcd_correct_divisors z 1) as Hd.
  destruct (Z.ggcd z 1) as (g, (r1, r2)). cbn [fst snd] in *.
  rewrite Z.gcd_1_r in Hg. subst g. destruct Hd as [H1 H2].
  rewrite Z.mul_1_l in H1, H2. subst r1 r2. reflexivity.
Qed.

Lemma fin_inject_Z (q : Q) (z : Z) : (q == inject_Z z)%Q -> fin q = of_Z z.
Proof.
  intro H. unfold fin, of_Z. f_equal.
  rewrite (Qred_complete _ _ H). apply Qred_inject_Z.
Qed.

Lemma add_of_Z (a b : Z) : add (of_Z a) (of_Z b) = of_Z (a + b).
Proof.
  unfold add, of_Z at 1 2. apply fin_inject_Z.
  rewrite inject_Z_plus. reflexivity.
Qed.

Lemma sub_of_Z (a b : Z) : sub (of_Z a) (of_Z b) = of_Z (a - b).
Proof.
  unfold sub, of_Z at 1 2. apply fin_inject_Z.
  unfold Z.sub. rewrite inject_Z_plus, inject_Z_opp. reflexivity.
Qed.

Lemma or_else_of_Z (z : Z) :
  or_else (VNum (of_Z z)) (VNum zero) = VNum (of_Z z).
Proof.
  unfold or_else. destruct (truthy (VNum (of_Z z))) eqn:E; [reflexivity|].
  cbn [truthy Num.truthy of_Z] in E. apply Bool.negb_false_iff in E.
  apply Qeq_bool_eq in E. unfold Qeq, inject_Z in E. cbn in E.
  rewrite Z.mul_1_r in E. now subst z.
Qed.

Section WithOracles.

Variable f : Q -> string.
Variable day_of : value -> result string.

Lemma js_add_of_Z (a b : Z) :
  js_add f (VNum (of_Z a)) (VNum (of_Z b)) = Ok (VNum (of_Z (a + b))).
Proof.
  unfold js_add, to_primitive. cbn [unprintable orb is_str ToNumber].
  now rewrite add_of_Z.
Qed.

Lemma summed_printable (v : value) : summed v -> unprintable v = false.
Proof. intros [(n & ->) | (s & ->)]; reflexivity. Qed.

(** [+=] on a running total: it throws exactly on an addend that does
    not convert, and leaves a running total. *)
Lemma js_add_cases (acc v : value) :
  summed acc ->
  (unprintable v = false /\ exists r, js_add f acc v = Ok r /\ summed r) \/
  (unprintable v = true /\ js_add f acc v = Throw TypeError).
Proof.
  intro Hacc. unfold js_add. rewrite (summed_printable acc Hacc).
  cbn [orb]. destruct (unprintable v); [now right|].
  left. split; [reflexivity|].
  destruct (is_str _ || is_str _); eexists; split; try reflexivity;
    [right | left]; eauto.
Qed.

Lemma unprintable_or_zero (v : value) :
  unprintable (or_else v (VNum zero)) = unprintable v.
Proof.
  unfold or_else. destruct (truthy v) eqn:E; [reflexivity|].
  destruct v; try reflexivity; discriminate.
Qed.

(** The four [+=] for a meal with the stored total [z]. *)
Lemma add_totals_cases (acc : totals) (a z : Z) (meal : value) :
  running acc a ->
  prop meal "total_calories" = VNum (of_Z z) ->
  (addable_macros meal = true /\
   exists acc' : totals,
     add_totals f acc (meal_totals meal) = Ok acc' /\ running acc' (a + z)) \/
  (addable_macros meal = false /\
   add_totals f acc (meal_totals meal) = Throw TypeError).
Proof.
  intros (Hc & Hp & Hf & Hb) Hz.
  unfold add_totals, meal_totals, addable_macros.
  cbn [calories protein fat carbs].
  rewrite Hc, Hz, or_else_of_Z, js_add_of_Z. cbn [bind].
  destruct (js_add_cases (protein acc)
              (or_else (opt_get (opt_get (prop meal "log_details") "totals")
                                "protein") (VNum zero)) Hp)
    as [(Up & p & -> & Sp) | (Up & ->)];
    rewrite unprintable_or_zero in Up; rewrite Up; cbn [bind negb andb];
    [|now right].
  destruct (js_add_cases (fat acc)
              (or_else (opt_get (opt_get (prop meal "log_details") "totals")
                                "fat") (VNum zero)) Hf)
    as [(Uf & q & -> & Sq) | (Uf & ->)];
    rewrite unprintable_or_zero in Uf; rewrite Uf; cbn [bind negb andb];
    [|now right].
  destruct (js_add_cases (carbs acc)
              (or_else (opt_get (opt_get (prop meal "log_details") "totals")
                                "carbs") (VNum zero)) Hb)
    as [(Ub & r & -> & Sr) | (Ub & ->)];
    rewrite unprintable_or_zero in Ub; rewrite Ub; cbn [bind negb andb];
    [|now right].
  left. split; [reflexivity|]. eexists. split; [reflexivity|].
  repeat split; assumption.
Qed.

(** The loop from any state of running totals: it returns with the two
    sums exactly when every meal has macros that can be added, and
    throws a [TypeError] otherwise. *)
Lemma aggregate_from (todayStr : string) (rows : list (value * Z * string)) :
  Forall (stored_row day_of) rows ->
  forall (today week : totals) (a b : Z),
    running today a -> running week b ->
    (forallb addable_macros (map row_meal rows) = true /\
     exists today' week' : totals,
       foldM (aggregate_step f day_of todayStr) (map row_meal rows) (today, week)
       = Ok (today', week') /\
       calories today' = VNum (of_Z (a + today_sum todayStr rows)) /\
       calories week' = VNum (of_Z (b + week_sum rows))) \/
    (forallb addable_macros (map row_meal rows) = false /\
     foldM (aggregate_step f day_of todayStr) (map row_meal rows) (today, week)
     = Throw TypeError).
Proof.
  induction 1 as [|[[meal z] d] rows Hrow Hrows IH]; intros today week a b Ha Hb.
  - left. split; [reflexivity|]. exists today, week. cbn.
    rewrite !Z.add_0_r. destruct Ha as [Ha _], Hb as [Hb _]. now repeat split.
  - destruct Hrow as (Hn & Hz & Hz0 & Hd).
    cbn [map row_meal fst foldM forallb]. unfold aggregate_step at 1 3, get.
    rewrite Hn. cbn [bind]. rewrite Hd. cbn [bind].
    cbn [today_sum week_sum fold_right fst snd].
    fold (today_sum todayStr rows). fold (week_sum rows).
    destruct (add_totals_cases week b z meal Hb Hz)
      as [(Hm & week' & -> & Hw) | (Hm & ->)]; cbn [bind];
      [|right; rewrite Hm; now split].
    destruct (String.eqb d todayStr).
    + destruct (add_totals_cases today a z meal Ha Hz)
        as [(_ & today' & -> & Ht) | (Hm' & _)]; [|congruence].
      cbn [bind]. rewrite Hm. cbn [andb bind].
      destruct (IH today' week' (a + z)%Z (b + z)%Z Ht Hw)
        as [(-> & t' & w' & -> & Et & Ew) | (-> & ->)]; [left | now right].
      split; [reflexivity|]. exists t', w'. split; [reflexivity|].
      rewrite Et, Ew. split; do 2 f_equal; lia.
    + rewrite Hm. cbn [andb bind].
      destruct (IH today week' a (b + z)%Z Ha Hw)
        as [(-> & t' & w' & -> & Et & Ew) | (-> & ->)]; [left | now right].
      split; [reflexivity|]. exists t', w'. split; [reflexivity|].
      rewrite Et, Ew. split; do 2 f_equal; lia.
Qed.

Lemma today_le_week (todayStr : string) (rows : list (value * Z * string)) :
  Forall (stored_row day_of) rows ->
  (0 <= today_sum todayStr rows <= week_sum rows)%Z.
Proof.
  induction 1 as [|[[meal z] d] rows Hrow Hrows IH]; [cbn; lia|].
  destruct Hrow as (_ & _ & Hz0 & _).
  cbn [today_sum week_sum fold_right fst snd].
  fold (today_sum todayStr rows). fold (week_sum rows).
  destruct (String.eqb d todayStr); lia.
Qed.

End WithOracles.

End WeeklyTotalsFacts.

Module WeeklyTotalsClaims.
Import Str WeeklyTotals WeeklyTotalsFacts.

(** X16.  On rows as [/log-analysis] writes them, with a whole number
    at least 0 as [total_calories] and a valid [created_at], the
    aggregation of [/handle-craving] and [/recommend-food] returns
    exactly when the macro totals that the [log_details] of every row
    give can be added, and throws a [TypeError] otherwise.  When it
    returns, the week's calories are the sum of the stored totals,
    today's calories are the sum over the rows of the current day and
    never exceed the week's, and the calorie gap is 2000 less today's
    calories. *)
Theorem week_includes_today
        (f : Q -> string) (day_of : value -> result string)
        (todayStr : string) (rows : list (value * Z * string)) :
  Forall (stored_row day_of) rows ->
  (0 <= today_sum todayStr rows <= week_sum rows)%Z /\
  ((forallb addable_macros (map row_meal rows) = true /\
    exists todayTotals weekTotals : totals,
      aggregate f day_of todayStr (map row_meal rows)
      = Ok (todayTotals, weekTotals) /\
      calories weekTotals = VNum (of_Z (week_sum rows)) /\
      calories todayTotals = VNum (of_Z (today_sum todayStr rows)) /\
      calories_gap f todayTotals
      = Ok (VNum (of_Z (2000 - today_sum todayStr rows)))) \/
   (forallb addable_macros (map row_meal rows) = false /\
    aggregate f day_of todayStr (map row_meal rows) = Throw TypeError)).
Proof.
  intro Hrows. split; [now apply (today_le_week day_of)|].
  unfold aggregate.
  assert (H0 : running no_totals 0).
  { repeat split; left; eexists; reflexivity. }
  destruct (aggregate_from f day_of todayStr rows Hrows no_totals no_totals
              0%Z 0%Z H0 H0) as [(-> & t & w & E & Et & Ew) | (-> & E)];
    [left | right; now split].
  cbn [Z.add] in Et, Ew. split; [reflexivity|].
  exists t, w. split; [exact E|]. split; [exact Ew|]. split; [exact Et|].
  unfold calories_gap, js_sub, to_number. rewrite Et.
  cbn [unprintable bind ToNumber]. now rewrite sub_of_Z.
Qed.

(** [week_includes_today] on two rows, 450 kcal today and 300 kcal the
    day before: 450 today, 750 in the week, a gap of 1550; and on a row
    whose protein total does not convert, where the aggregation
    throws. *)
Lemma week_includes_today_witness :
  (exists todayTotals weekTotals : totals,
      aggregate Records.no_fraction_printer day_as_written "2024-05-02"
                (map row_meal MoreRecords.two_meals)
      = Ok (todayTotals, weekTotals) /\
      calories weekTotals = VNum (of_Z 750) /\
      calories todayTotals = VNum (of_Z 450) /\
      calories_gap Records.no_fraction_printer todayTotals
      = Ok (VNum (of_Z 1550))) /\
  aggregate Records.no_fraction_printer day_as_written "2024-05-02"
            (map row_meal [MoreRecords.meal_odd_protein])
  = Throw TypeError.
Proof.
  split.
  - destruct (week_includes_today Records.no_fraction_printer day_as_written
                "2024-05-02" MoreRecords.two_meals)
      as (_ & [(_ & t & w & E & Ew & Et & Eg) | (H & _)]).
    + repeat constructor; cbn; lia.
    + exists t, w. repeat split; assumption.
    + vm_compute in H. discriminate H.
  - destruct (week_includes_today Records.no_fraction_printer day_as_written
                "2024-05-02" [MoreRecords.meal_odd_protein])
      as (_ & [(H & _) | (_ & E)]).
    + repeat constructor; cbn; lia.
    + vm_compute in H. discriminate H.
    + exact E.
Defined.

End WeeklyTotalsClaims.

(** ** The [/log-analysis] handler *)

Module LogRouteFacts.
Import Str LogAnalysis LogAnalysisFacts LogRoute.

Lemma item_type_cases (analysis : value) (itemType : string) :
  item_type analysis = Ok itemType ->
  nullish analysis = false /\ In itemType item_types.
Proof.
  unfold item_type, get, item_types.
  destruct (nullish analysis); [discriminate|]. cbn [bind]. intro H.
  split; [reflexivity|].
  destruct (_ || _) in H; [injection H as <-; cbn; tauto|].
  destruct (_ || _) in H; [injection H as <-; cbn; tauto|].
  destruct (_ && _) in H; injection H as <-; cbn; tauto.
Qed.

Lemma uploads_then_insert (a b : bool) (r r' : row) :
  In (Insert r')
     (((if a then [UploadImage] else []) ++ (if b then [UploadAudio] else []))
        ++ [Insert r]) ->
  r' = r.
Proof.
  destruct a, b; cbn; intros H;
    repeat (destruct H as [H|H]; try discriminate; try congruence);
    try contradiction.
Qed.

Lemma uploads_no_insert (a b : bool) (r' : row) :
  ~ In (Insert r')
       ((if a then [UploadImage] else []) ++ (if b then [UploadAudio] else [])).
Proof.
  destruct a, b; cbn; intros H;
    repeat (destruct H as [H|H]; try discriminate); contradiction.
Qed.

Lemma uploads_filter (a b : bool) :
  filter is_insert
    ((if a then [UploadImage] else []) ++ (if b then [UploadAudio] else []))
  = [].
Proof. destruct a, b; reflexivity. Qed.

Lemma one_insert (a b : bool) (r : row) :
  List.length
    (filter is_insert
       (((if a then [UploadImage] else []) ++ (if b then [UploadAudio] else []))
          ++ [Insert r])) = 1%nat.
Proof. rewrite filter_app, uploads_filter. reflexivity. Qed.

End LogRouteFacts.

Module LogRouteClaims.
Import Str LogAnalysis LogAnalysisFacts LogRoute LogRouteFacts.

(** X17.  Every request to [/log-analysis] is answered with 400, 500 or
    201.  A request with a body is answered 400 exactly when it has no
    user id or no analysis, and then before anything is uploaded or
    inserted.  At most one row is inserted, and 201 is the answer
    exactly when an insert was made and reported no error.  An inserted
    row has a user id that is not empty, a whole number at least 0 as
    [total_calories], one of "workout", "food", "mixed" and "unknown"
    as [item_type], and an analysis that is not [null]: an analysis
    that parses to [null] gets 500 and no row, after its files were
    uploaded when the user id converts to a text, and with nothing
    uploaded when files came with a user id that does not. *)
Theorem log_analysis_protocol
        (f : Q -> string) (JSON_parse : string -> option value)
        (image_uploaded_url audio_uploaded_url : option string)
        (insert : row -> insert_outcome)
        (body : value) (hasImage hasAudio : bool) :
  let run := log_analysis f JSON_parse image_uploaded_url audio_uploaded_url
                          insert body hasImage hasAudio in
  (fst run = 400 \/ fst run = 500 \/ fst run = 201)%Z /\
  (fst run = 400%Z -> snd run = []) /\
  (fst run = 400%Z <->
   nullish body = false /\
   (truthy (userId_of body) = false \/ truthy (analysisRaw_of body) = false)) /\
  (List.length (filter is_insert (snd run)) <= 1)%nat /\
  (fst run = 201%Z <->
   exists r : row, In (Insert r) (snd run) /\ insert r = Inserted) /\
  (forall r : row,
      In (Insert r) (snd run) ->
      truthy (user_id r) = true /\
      is_nat_valued (total_calories r) /\
      In (item_type_of r) item_types /\
      nullish (log_details r) = false) /\
  (nullish body = false ->
   truthy (userId_of body) = true ->
   truthy (analysisRaw_of body) = true ->
   nullish (parse_analysis JSON_parse (analysisRaw_of body)) = true ->
   run = (500%Z,
          if (hasImage || hasAudio) && unprintable (userId_of body) then []
          else uploads_for hasImage hasAudio)).
Proof.
  cbv zeta. unfold log_analysis.
  fold (userId_of body) (analysisRaw_of body).
  set (userId := userId_of body).
  set (userEmail := or_else (or_else (prop body "userEmail")
                                     (prop body "user_email")) VNull).
  set (analysisRaw := analysisRaw_of body).
  set (analysis := parse_analysis JSON_parse analysisRaw).
  fold (uploads_for hasImage hasAudio).
  set (uploads := uploads_for hasImage hasAudio).
  destruct (nullish body) eqn:Hb.
  { cbn [fst snd]. split; [tauto|]. split; [reflexivity|].
    split; [split; [discriminate | intros [H _]; discriminate]|].
    split; [cbn; lia|]. split; [|split].
    - split; [discriminate | intros (r & [] & _)].
    - intros r [].
    - discriminate. }
  destruct (truthy userId) eqn:Hu; cbn [negb].
  2:{ cbn [fst snd]. split; [tauto|]. split; [reflexivity|].
      split; [split; [intros _; split; [reflexivity | now left] | reflexivity]|].
      split; [cbn; lia|]. split; [|split].
      - split; [discriminate | intros (r & [] & _)].
      - intros r [].
      - discriminate. }
  destruct (truthy analysisRaw) eqn:Hraw; cbn [negb].
  2:{ cbn [fst snd]. split; [tauto|]. split; [reflexivity|].
      split; [split; [intros _; split; [reflexivity | now right] | reflexivity]|].
      split; [cbn; lia|]. split; [|split].
      - split; [discriminate | intros (r & [] & _)].
      - intros r [].
      - discriminate. }
  assert (H400 : forall code : Z,
             code <> 400%Z ->
             (code = 400%Z <->
              false = false /\ (true = false \/ true = false))).
  { intros code Hc. split; [contradiction | intros [_ [H | H]]; discriminate]. }
  destruct (route_returns_natural f analysis) as (z & Hz & ->).
  destruct ((hasImage || hasAudio) && unprintable userId) eqn:Hup.
  { cbn [fst snd]. split; [tauto|]. split; [discriminate|].
    split; [apply H400; discriminate|].
    split; [cbn; lia|]. split; [|split].
    - split; [discriminate | intros (r & [] & _)].
    - intros r [].
    - reflexivity. }
  destruct (item_type analysis) as [itemType|e] eqn:Eit.
  - destruct (item_type_cases analysis itemType Eit) as [Hnn Hin].
    set (r0 := mkRow userId userEmail itemType (stored_total (of_Z z)) analysis
                     (if hasImage then image_uploaded_url else None)
                     (if hasAudio then audio_uploaded_url else None)).
    assert (Hrow : forall r : row,
               In (Insert r) (uploads ++ [Insert r0]) ->
               truthy (user_id r) = true /\
               is_nat_valued (total_calories r) /\
               In (item_type_of r) item_types /\
               nullish (log_details r) = false).
    { intros r Hr. apply uploads_then_insert in Hr. subst r. cbn.
      split; [exact Hu|]. split; [|split; [exact Hin | exact Hnn]].
      exists z. split; [exact Hz|].
      unfold stored_total. cbn [isFinite of_Z]. apply Math_round_whole. }
    assert (Hone : (List.length (filter is_insert (uploads ++ [Insert r0])) <= 1)%nat).
    { unfold uploads, uploads_for. rewrite (one_insert hasImage hasAudio r0). lia. }
    assert (Hin0 : In (Insert r0) (uploads ++ [Insert r0])).
    { apply in_or_app. right. now left. }
    destruct (insert r0) eqn:Eins; cbn [fst snd].
    + split; [tauto|]. split; [discriminate|].
      split; [apply H400; discriminate|]. split; [exact Hone|].
      split; [|split; [exact Hrow|]].
      * split; [discriminate|]. intros (r & Hr & Hi).
        apply uploads_then_insert in Hr. subst r. congruence.
      * intros _ _ _ H. congruence.
    + split; [tauto|]. split; [discriminate|].
      split; [apply H400; discriminate|]. split; [exact Hone|].
      split; [|split; [exact Hrow|]].
      * split; [discriminate|]. intros (r & Hr & Hi).
        apply uploads_then_insert in Hr. subst r. congruence.
      * intros _ _ _ H. congruence.
    + split; [tauto|]. split; [discriminate|].
      split; [apply H400; discriminate|]. split; [exact Hone|].
      split; [|split; [exact Hrow|]].
      * split; [intros _; now exists r0 | reflexivity].
      * intros _ _ _ H. congruence.
  - cbn [fst snd]. split; [tauto|]. split; [discriminate|].
    split; [apply H400; discriminate|].
    split; [unfold uploads, uploads_for; rewrite uploads_filter; cbn; lia|].
    split; [|split].
    + split; [discriminate|]. intros (r & Hr & _).
      destruct (uploads_no_insert _ _ _ Hr).
    + intros r Hr. destruct (uploads_no_insert _ _ _ Hr).
    + reflexivity.
Qed.

(** An analysis that is the text [null] is answered 500 after the image
    was uploaded, and with nothing uploaded when the user id is the
    object [{toString:"1"}]; the first request with a food record is
    answered 201 with one insert after the upload. *)
Lemma log_analysis_protocol_witness :
  log_analysis Records.no_fraction_printer (fun _ => Some VNull) None None
               (fun _ => Inserted) MoreRecords.request_null true false
  = (500%Z, [UploadImage]) /\
  log_analysis Records.no_fraction_printer (fun _ => Some VNull) None None
               (fun _ => Inserted) MoreRecords.request_odd_user true false
  = (500%Z, []) /\
  fst (log_analysis Records.no_fraction_printer
                    (fun _ => Some MoreRecords.food_dal) None None
                    (fun _ => Inserted) MoreRecords.request_null true false)
  = 201%Z.
Proof.
  split; [|split].
  - apply (proj2 (proj2 (proj2 (proj2 (proj2 (proj2 (log_analysis_protocol
             Records.no_fraction_printer (fun _ => Some VNull)
             None None (fun _ => Inserted) MoreRecords.request_null
             true false)))))));
      reflexivity.
  - apply (proj2 (proj2 (proj2 (proj2 (proj2 (proj2 (log_analysis_protocol
             Records.no_fraction_printer (fun _ => Some VNull)
             None None (fun _ => Inserted) MoreRecords.request_odd_user
             true false)))))));
      reflexivity.
  - apply (proj1 (proj2 (proj2 (proj2 (proj2 (log_analysis_protocol
             Records.no_fraction_printer (fun _ => Some MoreRecords.food_dal)
             None None (fun _ => Inserted) MoreRecords.request_null
             true false)))))).
    eexists. split; [|reflexivity].
    cbn. right. left. reflexivity.
Defined.

End LogRouteClaims.

(** ** Upload, bucket creation and retry *)

Module UploaderClaims.
Import Str Uploader.

(** X18.  [uploadFileToSupabase] uploads at most twice and tries to
    create the bucket at most once: the creation is tried exactly when
    the first upload failed with an error that [isBucketNotFound]
    accepts, and the second upload is made exactly when that creation
    reported no error.  A url is returned only for an upload that
    succeeded, the public url if there is one and the signed url
    otherwise, and then without an error. *)
Theorem upload_retries_once_after_creating_bucket
        (f : Q -> string)
        (upload : nat -> upload_outcome)
        (publicUrl signedUrl : nat -> option string)
        (createBucket : create_outcome) :
  let run := uploadFileToSupabase f upload publicUrl signedUrl createBucket in
  (List.length (filter is_upload (snd run)) <= 2)%nat /\
  (List.length (filter is_create (snd run)) <= 1)%nat /\
  (In CreateBucket (snd run) <->
   isBucketNotFound f (upload_error (upload 0%nat)) = true) /\
  (In (Upload 1) (snd run) <->
   isBucketNotFound f (upload_error (upload 0%nat)) = true /\
   createBucket = Created) /\
  (forall u : string,
      url (fst run) = Some u ->
      error (fst run) = None /\
      exists n : nat,
        In (Upload n) (snd run) /\ upload n = Uploaded /\
        (publicUrl n = Some u \/ publicUrl n = None /\ signedUrl n = Some u)).
Proof.
  cbv zeta. unfold uploadFileToSupabase.
  assert (Hdo : forall n : nat,
             let r := doUpload upload publicUrl signedUrl n in
             ok (fst r) = match upload n with Uploaded => true | _ => false end /\
             attempt_error (fst r) = upload_error (upload n) /\
             filter is_upload (snd r) = [Upload n] /\
             filter is_create (snd r) = [] /\
             (forall m, In (Upload m) (snd r) <-> m = n) /\
             ~ In CreateBucket (snd r) /\
             (forall u, attempt_url (fst r) = Some u ->
                        upload n = Uploaded /\
                        (publicUrl n = Some u
                         \/ publicUrl n = None /\ signedUrl n = Some u))).
  { intro n. cbv zeta. unfold doUpload.
    destruct (upload n) as [e|upErr|]; [| |destruct (publicUrl n) as [u0|]];
      cbn [fst snd ok attempt_error attempt_url upload_error filter is_upload
           is_create In];
      (split; [reflexivity|]); (split; [reflexivity|]);
      (split; [reflexivity|]); (split; [reflexivity|]);
      (split; [intro m; split;
               [intros H; repeat (destruct H as [H|H]; try discriminate);
                [now injection H | contradiction]
               | intros ->; now left]|]);
      (split; [intros H; repeat (destruct H as [H|H]; try discriminate);
               contradiction|]);
      intros u Hu; try discriminate.
    - injection Hu as <-. split; [reflexivity | now left].
    - split; [reflexivity | right; now split]. }
  pose proof (Hdo 0%nat) as H0. pose proof (Hdo 1%nat) as H1.
  cbv zeta in H0, H1.
  destruct (doUpload upload publicUrl signedUrl 0) as [res1 calls1].
  destruct (doUpload upload publicUrl signedUrl 1) as [res2 calls2].
  cbn [fst snd] in H0, H1.
  destruct H0 as (Hok1 & Herr1 & Hup1 & Hcr1 & Hin1 & Hnc1 & Hurl1).
  destruct H1 as (Hok2 & Herr2 & Hup2 & Hcr2 & Hin2 & Hnc2 & Hurl2).
  assert (Hnf : negb (ok res1) && isBucketNotFound f (attempt_error res1)
                = isBucketNotFound f (upload_error (upload 0%nat))).
  { rewrite Hok1, Herr1. destruct (upload 0%nat); reflexivity. }
  rewrite Hnf.
  assert (Hfin : forall (res : attempt_result) (n : nat) (u : string),
             (forall u, attempt_url res = Some u ->
                        upload n = Uploaded /\
                        (publicUrl n = Some u
                         \/ publicUrl n = None /\ signedUrl n = Some u)) ->
             ok res = match upload n with Uploaded => true | _ => false end ->
             attempt_error res = upload_error (upload n) ->
             url (finish res) = Some u ->
             error (finish res) = None /\ upload n = Uploaded /\
             (publicUrl n = Some u
              \/ publicUrl n = None /\ signedUrl n = Some u)).
  { intros res n u Hurl Hok Herr. unfold finish.
    destruct (ok res) eqn:Eok; cbn [negb url error]; [|discriminate].
    intro Hu. destruct (Hurl u Hu) as [Hup Hwhich].
    rewrite Herr, Hup. now repeat split. }
  destruct (isBucketNotFound f (upload_error (upload 0%nat))) eqn:Enf.
  - destruct createBucket as [e|createErr|]; cbn [fst snd].
    + rewrite !filter_app, Hup1, Hcr1. cbn [filter is_upload is_create app List.length].
      split; [lia|]. split; [lia|]. split; [|split].
      * split; [reflexivity|]. intros _. apply in_or_app. right. now left.
      * split; [|intros [_ H]; discriminate].
        intro H. apply in_app_or in H as [H|[H|[]]]; [|discriminate].
        apply Hin1 in H. discriminate.
      * intros u Hu. discriminate.
    + rewrite !filter_app, Hup1, Hcr1. cbn [filter is_upload is_create app List.length].
      split; [lia|]. split; [lia|]. split; [|split].
      * split; [reflexivity|]. intros _. apply in_or_app. right. now left.
      * split; [|intros [_ H]; discriminate].
        intro H. apply in_app_or in H as [H|[H|[]]]; [|discriminate].
        apply Hin1 in H. discriminate.
      * intros u Hu. discriminate.
    + rewrite !filter_app, Hup1, Hcr1, Hup2, Hcr2.
      cbn [filter is_upload is_create app List.length].
      split; [lia|]. split; [lia|]. split; [|split].
      * split; [reflexivity|]. intros _. apply in_or_app. right. now left.
      * split; [now intros _|]. intros _.
        apply in_or_app. right. right. now apply Hin2.
      * intros u Hu.
        destruct (Hfin res2 1%nat u Hurl2 Hok2 Herr2 Hu) as (He & Hup & Hw).
        split; [exact He|]. exists 1%nat. split; [|now split].
        apply in_or_app. right. right. now apply Hin2.
  - cbn [fst snd]. rewrite Hup1, Hcr1. cbn [List.length].
    split; [lia|]. split; [lia|]. split; [|split].
    + split; [intro H; destruct (Hnc1 H) | discriminate].
    + split; [|intros [H _]; discriminate].
      intro H. apply Hin1 in H. discriminate.
    + intros u Hu.
      destruct (Hfin res1 0%nat u Hurl1 Hok1 Herr1 Hu) as (He & Hup & Hw).
      split; [exact He|]. exists 0%nat. split; [now apply Hin1 | now split].
Qed.

(** The retry of [upload_retries_once_after_creating_bucket]: a first
    upload refused with "Bucket not found", a bucket that can be
    created, and a second upload that succeeds. *)
Lemma upload_retries_once_after_creating_bucket_witness :
  In (Upload 1)
     (snd (uploadFileToSupabase Records.no_fraction_printer
             missing_bucket_once (fun _ => Some "https://cdn/meal.jpg")
             (fun _ => None) Created)) /\
  url (fst (uploadFileToSupabase Records.no_fraction_printer
              missing_bucket_once (fun _ => Some "https://cdn/meal.jpg")
              (fun _ => None) Created))
  = Some "https://cdn/meal.jpg".
Proof.
  split; [|reflexivity].
  apply (proj1 (proj2 (proj2 (proj2
           (upload_retries_once_after_creating_bucket
              Records.no_fraction_printer missing_bucket_once
              (fun _ => Some "https://cdn/meal.jpg") (fun _ => None)
              Created))))).
  split; reflexivity.
Defined.

End UploaderClaims.

(** ** What is logged for a merged record *)

Module MergedLogFacts.
Import Str Extractor CalorieResolver NumFacts ExtractorFacts Analyzer
       MergeTotals MergedLog.

Lemma sum_step_food (s : number) (it : value) (c : number) :
  food_detail it c -> normal s ->
  sum_step s it = Ok (add s (or_zero c)).
Proof.
  intros (ps & -> & Hc & Hfin & Hcb & Hct & _) Hs.
  unfold sum_step, or_zero.
  cbn [truthy typeof_object negb orb first_key get nullish prop bind].
  rewrite Hcb, Hc. cbn [nullish num]. rewrite Hfin.
  destruct (Num.truthy c); cbn [bind]; [reflexivity|].
  rewrite Hct. now rewrite Hs.
Qed.

Lemma count_step_food (f : Q -> string) (s : number) (it : value) (c : number) :
  food_detail it c ->
  count_step f s it = Ok (add s (or_zero c)).
Proof.
  intros (ps & -> & Hc & Hfin & Hcb & Hct & Hconf).
  unfold count_step, get, to_number, or_else, or_zero.
  cbn [nullish prop bind]. rewrite Hc, Hconf. cbn [truthy].
  destruct (Num.truthy c); cbn [unprintable bind];
    destruct (lookup "confidence" ps); reflexivity.
Qed.

(** On details of the food paths the sum taken by the route and the
    sum taken by the resolver are the same finite number. *)
Lemma sums_agree (f : Q -> string) (merged : list value) :
  food_details merged ->
  forall s : number,
    normal s -> isFinite s = true ->
    exists r : number,
      foldM sum_step merged s = Ok r /\
      foldM (count_step f) merged s = Ok r /\
      isFinite r = true.
Proof.
  induction 1 as [|it merged (c & Hit) Hm IH]; intros s Hs Hfin.
  - exists s. now repeat split.
  - cbn [foldM].
    rewrite (sum_step_food s it c Hit Hs), (count_step_food f s it c Hit).
    cbn [bind]. apply IH; [apply normal_add|].
    apply add_finite; [exact Hfin|].
    destruct Hit as (ps & _ & _ & Hc & _). unfold or_zero.
    now destruct (Num.truthy c).
Qed.

Lemma item_object_food_detail (x : FoodItem) :
  isFinite (calories x) = true -> food_detail (item_object x) (calories x).
Proof.
  intro Hfin. unfold food_detail, item_object. eexists. split; [reflexivity|].
  destruct (assumptions x); cbn; now repeat split.
Qed.

Lemma total_of_items (f : Q -> string) (l : list FoodItem) (s : number) :
  Forall (fun it => isFinite (calories it) = true) l ->
  foldM (count_step f) (map item_object l) s
  = Ok (fold_left (fun acc it => add acc (counted_calories it)) l s).
Proof.
  intro H. revert s. induction H as [|x l Hx Hl IH]; intro s; [reflexivity|].
  cbn [map foldM fold_left].
  rewrite (count_step_food f s _ _ (item_object_food_detail x Hx)).
  cbn [bind]. apply IH.
Qed.

(** Rounding the larger of a positive number and its rounding gives the
    rounding. *)
Lemma round_of_candidates (q : Q) :
  (0 < q)%Q ->
  Math_round
    (Math_max (positives (push_if_positive (Fin q) [Math_round (Fin q)])))
  = Math_round (Fin q) /\
  positives (push_if_positive (Fin q) [Math_round (Fin q)]) <> [].
Proof.
  intro Hq. unfold push_if_positive.
  rewrite (proj2 (gt_zero_fin q) Hq). cbn [app Math_round].
  set (z := Qfloor (q + (1 # 2))).
  unfold positives. cbn [filter isFinite of_Z andb].
  rewrite (proj2 (gt_zero_fin q) Hq).
  destruct (gt (of_Z z) zero) eqn:Ez.
  - split; [|discriminate].
    unfold Math_max, of_Z. cbn [fold_left].
    change (max2 NInf (Fin (inject_Z z))) with (Fin (inject_Z z)).
    rewrite max2_fin.
    destruct (Qlt_bool (inject_Z z) q); [reflexivity|].
    apply (LogAnalysisFacts.Math_round_whole z).
  - split; [reflexivity | discriminate].
Qed.

End MergedLogFacts.

Module MergedLogClaims.
Import Str Extractor CalorieResolver LogAnalysis LogAnalysisFacts Analyzer
       MergeTotals MergedLog MergedLogFacts NumFacts.

(** X19.  For a merged record of [/analyze-image-with-text] whose
    details are as the food paths of the route leave them (normalised
    caption or vision items: objects with a number as [calories],
    neither [calories_burned] nor [calories_text] and a confidence that
    converts) and whose calories are finite with a positive sum,
    [/log-analysis] stores as
    [total_calories] exactly the [totals.calories] of the record, the
    rounded sum of the items' calories.  With a workout caption the
    merged list holds the estimator's details as they came, and the
    two can differ: for [{item:"run", calories:5, calories_burned:300}]
    the record answers 5 and 300 is stored. *)
Theorem logged_total_is_merged_total (f : Q -> string) :
  (forall (merged : list value) (total : number)
          (assumptions confidence : value),
      food_details merged ->
      total_of f merged = Ok total ->
      gt total zero = true ->
      prop (prop (merged_record merged total assumptions confidence) "totals")
           "calories"
      = VNum (Math_round total) /\
      route_extractCalories f
        (merged_record merged total assumptions confidence)
      = Ok (Math_round total) /\
      stored_total (Math_round total) = Math_round total) /\
  (forall items : list FoodItem,
      finite_calories items ->
      food_details (map item_object items) /\
      total_of f (map item_object items) = Ok (totalCalories items)) /\
  (forall assumptions confidence : value,
      total_of f [workout_caption_detail] = Ok (of_Z 5) /\
      prop (prop (merged_record [workout_caption_detail] (of_Z 5)
                                assumptions confidence) "totals") "calories"
      = VNum (of_Z 5) /\
      route_extractCalories f
        (merged_record [workout_caption_detail] (of_Z 5)
                       assumptions confidence)
      = Ok (of_Z 300)).
Proof.
  split; [|split].
  - intros merged total assumptions confidence Hfood Htotal Hpos.
    split; [reflexivity|].
    destruct (sums_agree f merged Hfood zero normal_zero eq_refl)
      as (r & Hsum & Hcount & Hfin).
    unfold total_of in Htotal. rewrite Hcount in Htotal.
    injection Htotal as ->.
    destruct total as [q| | |]; try discriminate.
    apply gt_zero_fin in Hpos.
    destruct (round_of_candidates q Hpos) as [Hround Hne].
    split.
    + rewrite route_unfold. unfold merged_record.
      cbn [truthy typeof_object negb orb]. unfold collect.
      cbn [get prop lookup nullish truthy bind String.eqb Ascii.eqb Bool.eqb
           push_if_present app trySumDetails].
      rewrite Hsum.
      cbn [bind Math_round num isFinite of_Z foldM].
      assert (Hz : forall l, push_if_positive zero l = l) by reflexivity.
      rewrite !Hz.
      change (of_Z (Qfloor (q + (1 # 2)))) with (Math_round (Fin q)).
      destruct (positives (push_if_positive (Fin q) [Math_round (Fin q)]))
        as [|p ps] eqn:Ep; [congruence|].
      now rewrite Hround.
    + unfold stored_total. cbn [Math_round isFinite of_Z].
      apply (Math_round_whole (Qfloor (q + (1 # 2)))).
  - intros items Hfin. split.
    + induction Hfin as [|x l Hx Hl IH]; constructor; [|exact IH].
      exists (calories x). now apply item_object_food_detail.
    + apply total_of_items. exact Hfin.
  - intros assumptions confidence.
    split; [reflexivity|]. split; [reflexivity|].
    rewrite route_unfold. reflexivity.
Qed.

(** [logged_total_is_merged_total] on a record of one item of 120.4
    kcal: 120 is answered and 120 is stored. *)
Lemma logged_total_is_merged_total_witness :
  route_extractCalories Records.no_fraction_printer
    (merged_record [item_object MoreRecords.bowl_of_dal] (Fin (602 # 5))
                   (VArr []) VNull)
  = Ok (of_Z 120).
Proof.
  apply (proj1 (proj2 (proj1 (logged_total_is_merged_total
                                Records.no_fraction_printer)
                         [item_object MoreRecords.bowl_of_dal] (Fin (602 # 5))
                         (VArr []) VNull
                         ltac:(repeat constructor; exists (Fin (602 # 5));
                               apply item_object_food_detail; reflexivity)
                         eq_refl eq_refl))).
Defined.

End MergedLogClaims.
